(** * Authentication core of the angple web application

    A shallow embedding of the session store, the refresh-token store,
    the JWT layer, the OAuth state cookie, the provider adapters and the
    two route handlers that consume them, followed by the properties
    established about them.

    Conventions.
    - Instants ([Date], [Date.now()], SQL [NOW()]) are integers: the
      number of milliseconds since the epoch.  The application clock
      ([now]) and the database clock ([dbNow]) are separate arguments.
    - A table is the list of its rows in insertion order; [SELECT ..
      LIMIT 1] takes the first matching row.  A column keeps the instant
      written to it (the rounding of DATETIME to seconds is left out),
      and the digests and family ids compared by the queries are
      lower-case hexadecimal text, on which the comparison of the
      column collation is equality.
    - JavaScript strings are [string]; [String.prototype.toLowerCase]
      and [String.prototype.trim] are operations of the runtime.
    - Numbers carried by JSON values are integers.
    - The queries of the stores are taken to answer.  Where the source
      guards a call by a [try] and a throw changes what is set, kept or
      answered (the server hook, logout, the route handlers), the throw
      is a case of the definition.  Operations on the cookie jar are
      taken not to throw, except in the clean-up of the server hook,
      which guards each deletion by a [try] of its own. *)

From Stdlib Require Import ZArith String Ascii List.
From stdpp Require Import base option list strings gmap pretty.
Import ListNotations.

Set Warnings "-register-all".

Local Open Scope string_scope.
Local Open Scope Z_scope.

(** ** JavaScript values *)

Module Js.

(** The values [JSON.parse] can produce, together with [undefined]
    (the result of reading a property that is not there). *)
Inductive jsval : Type :=
| JUndefined
| JNull
| JBool (b : bool)
| JNum (n : Z)
| JStr (s : string)
| JArr (items : list jsval)
| JObj (fields : list (string * jsval)).

(** ToBoolean. *)
Definition truthy (v : jsval) : bool :=
  match v with
  | JUndefined | JNull => false
  | JBool b => b
  | JNum n => negb (n =? 0)%Z
  | JStr s => negb (String.eqb s "")
  | JArr _ | JObj _ => true
  end.

(** [a || b] *)
Definition or (a b : jsval) : jsval := if truthy a then a else b.

(** [a ?? b] *)
Definition nullish (a b : jsval) : jsval :=
  match a with
  | JUndefined | JNull => b
  | _ => a
  end.

Fixpoint assoc (k : string) (fields : list (string * jsval)) : jsval :=
  match fields with
  | [] => JUndefined
  | (k', v) :: rest => if String.eqb k k' then v else assoc k rest
  end.

(** [v.k]: reading a property of [undefined] or [null] throws a
    TypeError ([None]); an object yields the field or [undefined]; the
    other values have none of the property names read in this
    development (a string has [sub] on its prototype, which no payload
    considered here exercises). *)
Definition get (v : jsval) (k : string) : option jsval :=
  match v with
  | JUndefined | JNull => None
  | JObj fields => Some (assoc k fields)
  | _ => Some JUndefined
  end.

(** [v?.k] *)
Definition get_opt (v : jsval) (k : string) : jsval :=
  match v with
  | JObj fields => assoc k fields
  | _ => JUndefined
  end.

(** [a === b] on the values compared in this development: strings,
    and anything against a string. *)
Definition strict_eq_str (v : jsval) (s : string) : bool :=
  match v with
  | JStr s' => String.eqb s' s
  | _ => false
  end.

(** ToString, as used by [String(v)] and by template literals.  A
    number is printed in full, as JavaScript prints an integer below
    10^21 in absolute value. *)
Fixpoint ToString (v : jsval) : string :=
  match v with
  | JUndefined => "undefined"
  | JNull => "null"
  | JBool true => "true"
  | JBool false => "false"
  | JNum n => pretty n
  | JStr s => s
  | JArr items =>
      (fix join (l : list jsval) : string :=
         match l with
         | [] => ""
         | x :: rest =>
             let sx := match x with
                       | JUndefined | JNull => ""
                       | _ => ToString x
                       end in
             match rest with
             | [] => sx
             | _ => sx ++ "," ++ join rest
             end
         end) items
  | JObj _ => "[object Object]"
  end.

(** [s.substring(0, n)] *)
Definition substring0 (n : nat) (s : string) : string := String.substring 0 n s.

(** Lower-case hexadecimal rendering of bytes: [buf.toString('hex')]
    and [b.toString(16).padStart(2, '0')]. *)
Definition hex_digit (n : N) : ascii :=
  if (n <? 10)%N then ascii_of_N (48 + n) else ascii_of_N (87 + n).

Definition hex_byte (b : N) : string :=
  String (hex_digit (N.div b 16 mod 16)) (String (hex_digit (b mod 16)) EmptyString).

Fixpoint hex (bytes : list N) : string :=
  match bytes with
  | [] => ""
  | b :: rest => hex_byte b ++ hex rest
  end.

(** A source of entropy: the [i]-th byte it hands out. *)
Definition entropy := nat -> N.

(** [randomBytes(n)] *)
Definition randomBytes (e : entropy) (n : nat) : list N := map e (seq 0 n).

End Js.

Import Js.

(** ** The runtime the application is linked against

    Cryptography, the JSON codec, URL encoding and the case and white
    space functions of strings come from the platform and from the
    [jose] library; the development is parametric in them. *)

Inductive JwtKey := JWT_SECRET | DAMOANG_JWT_SECRET.

Record JwtClaims := {
  jwt_payload : list (string * jsval);  (* the object given to [new SignJWT] *)
  jwt_iat : Z;                          (* seconds *)
  jwt_exp : Z;                          (* seconds *)
  jwt_iss : string
}.

Class Runtime := {
  (** [createHash('sha256').update(s).digest('hex')] *)
  sha256_hex : string -> string;
  (** [new SignJWT(p).setProtectedHeader({alg:'HS256'}).setIssuedAt()
      .setExpirationTime(..).setIssuer(..).sign(key)]: HMAC-SHA256 over
      the header and the claims, hence a function of the key and the
      claims. *)
  SignJWT : JwtKey -> JwtClaims -> string;
  (** [jwtVerify(token, key, {issuer})] evaluated at an instant: the
      verified payload, or [None] when it throws. *)
  jwtVerify : JwtKey -> option string -> string -> Z -> option jsval;
  (** [JSON.parse], [None] when it throws. *)
  JSON_parse : string -> option jsval;
  JSON_stringify : jsval -> string;
  (** [new URLSearchParams(entries).toString()] *)
  URLSearchParams_toString : list (string * string) -> string;
  (** The numeric value of a text (StringToNumber); [None] is NaN. *)
  StringToNumber : string -> option Z;
  (** [String.prototype.toLowerCase] *)
  toLowerCase : string -> string;
  (** [String.prototype.trim] *)
  trim : string -> string
}.

(** ** Session store (session-store.ts) *)

Module SessionStore.

(** 30 days *)
Definition SESSION_MAX_AGE_MS : Z := 30 * 24 * 60 * 60 * 1000.
(** 15 days *)
Definition SESSION_REFRESH_THRESHOLD_MS : Z := 15 * 24 * 60 * 60 * 1000.

Definition SESSION_COOKIE_NAME : string := "angple_sid".
Definition CSRF_COOKIE_NAME : string := "angple_csrf".
Definition SESSION_COOKIE_MAX_AGE : Z := 30 * 24 * 60 * 60.

Record SessionRow := {
  session_id_hash : string;
  mb_id : string;
  csrf_token : string;
  ip : option string;
  user_agent : option string;
  created_at : Z;
  last_active_at : Z;
  expires_at : Z
}.

Record SessionData := {
  sessionId : string;
  mbId : string;
  csrfToken : string;
  sd_ip : option string;
  userAgent : option string;
  createdAt : Z;
  lastActiveAt : Z;
  expiresAt : Z
}.

Record SessionMeta := { meta_ip : option string; meta_userAgent : option string }.

Definition angple_sessions := list SessionRow.

Definition has_hash (h : string) (r : SessionRow) : bool :=
  String.eqb (session_id_hash r) h.

(** [SELECT .. WHERE session_id_hash = ? LIMIT 1] *)
Definition select_session (h : string) (tbl : angple_sessions) : option SessionRow :=
  List.find (has_hash h) tbl.

(** [DELETE FROM angple_sessions WHERE session_id_hash = ?] *)
Definition delete_session (h : string) (tbl : angple_sessions) : angple_sessions :=
  List.filter (fun r => negb (has_hash h r)) tbl.

(** [UPDATE angple_sessions SET .. WHERE session_id_hash = ?] *)
Definition update_session (h : string) (f : SessionRow -> SessionRow)
    (tbl : angple_sessions) : angple_sessions :=
  List.map (fun r => if has_hash h r then f r else r) tbl.

Definition set_last_active (t : Z) (r : SessionRow) : SessionRow :=
  {| session_id_hash := session_id_hash r; mb_id := mb_id r;
     csrf_token := csrf_token r; ip := ip r; user_agent := user_agent r;
     created_at := created_at r; last_active_at := t;
     expires_at := expires_at r |}.

Definition set_last_active_expires (t e : Z) (r : SessionRow) : SessionRow :=
  {| session_id_hash := session_id_hash r; mb_id := mb_id r;
     csrf_token := csrf_token r; ip := ip r; user_agent := user_agent r;
     created_at := created_at r; last_active_at := t;
     expires_at := e |}.

Section WithRuntime.
Context `{Runtime}.

Definition generateSessionId (e : entropy) : string := hex (randomBytes e 32).
Definition generateCsrfToken (e : entropy) : string := hex (randomBytes e 32).
Definition hashSessionId (sessionId : string) : string := sha256_hex sessionId.

(** [createSession]: the two random values are drawn from [e1] and
    [e2]; the row's [created_at] and [last_active_at] take the
    column default, the database clock.  The INSERT fails, and the
    call throws ([None]), when the unique key [uk_session_hash]
    already holds the hash. *)
Definition createSession (mbId : string) (metadata : option SessionMeta)
    (e1 e2 : entropy) (now dbNow : Z) (tbl : angple_sessions)
  : option (string * string * Z) * angple_sessions :=
  let sessionId := generateSessionId e1 in
  let sessionIdHash := hashSessionId sessionId in
  let csrfToken := generateCsrfToken e2 in
  let expiresAt := now + SESSION_MAX_AGE_MS in
  match select_session sessionIdHash tbl with
  | Some _ => (None, tbl)
  | None =>
      (Some (sessionId, csrfToken, expiresAt),
       (tbl ++ [ {| session_id_hash := sessionIdHash; mb_id := mbId;
                    csrf_token := csrfToken;
                    ip := metadata ≫= meta_ip;
                    user_agent := substring0 512 <$> (metadata ≫= meta_userAgent);
                    created_at := dbNow; last_active_at := dbNow;
                    expires_at := expiresAt |} ])%list)
  end.

Definition getSession (sessionId : string) (now dbNow : Z) (tbl : angple_sessions)
  : option SessionData * angple_sessions :=
  let sessionIdHash := hashSessionId sessionId in
  match select_session sessionIdHash tbl with
  | None => (None, tbl)
  | Some row =>
      if now >? expires_at row then
        (None, delete_session sessionIdHash tbl)
      else
        let lastActive := last_active_at row in
        let tbl' :=
          if now - lastActive >? SESSION_REFRESH_THRESHOLD_MS then
            let newExpiresAt := now + SESSION_MAX_AGE_MS in
            update_session sessionIdHash
              (set_last_active_expires dbNow newExpiresAt) tbl
          else if now - lastActive >? 5 * 60 * 1000 then
            update_session sessionIdHash (set_last_active dbNow) tbl
          else tbl in
        (Some {| sessionId := sessionId; mbId := mb_id row;
                 csrfToken := csrf_token row; sd_ip := ip row;
                 userAgent := user_agent row; createdAt := created_at row;
                 lastActiveAt := last_active_at row;
                 expiresAt := expires_at row |},
         tbl')
  end.

(** [destroySession] *)
Definition destroySession (sessionId : string) (tbl : angple_sessions) : angple_sessions :=
  delete_session (hashSessionId sessionId) tbl.

(** [cleanupExpiredSessions] *)
Definition cleanupExpiredSessions (dbNow : Z) (tbl : angple_sessions)
  : nat * angple_sessions :=
  let keep := List.filter (fun r => negb (expires_at r <? dbNow)) tbl in
  ((length tbl - length keep)%nat, keep).

End WithRuntime.

End SessionStore.

(** ** Refresh-token store (token-store.ts)

    The table [angple_refresh_tokens] has an auto-increment primary key
    and plain indexes on [token_hash], [mb_id], [family_id] and
    [expires_at]: unlike [angple_sessions], whose [session_id_hash] is a
    unique key, several rows may carry the same [token_hash]. *)

Module TokenStore.

Record RefreshTokenRow := {
  token_hash : string;
  mb_id : string;
  family_id : string;
  ip : option string;
  user_agent : option string;
  created_at : Z;
  expires_at : Z;
  revoked_at : option Z
}.

Record TokenMeta := { meta_ip : option string; meta_userAgent : option string }.

Definition angple_refresh_tokens := list RefreshTokenRow.

Definition is_revoked (r : RefreshTokenRow) : bool :=
  match revoked_at r with Some _ => true | None => false end.

Definition set_revoked (t : Z) (r : RefreshTokenRow) : RefreshTokenRow :=
  {| token_hash := token_hash r; mb_id := mb_id r; family_id := family_id r;
     ip := ip r; user_agent := user_agent r; created_at := created_at r;
     expires_at := expires_at r; revoked_at := Some t |}.

(** [UPDATE angple_refresh_tokens SET revoked_at = NOW()
     WHERE <col> = ? AND revoked_at IS NULL] *)
Definition revoke_where (col : RefreshTokenRow -> string) (key : string) (dbNow : Z)
    (tbl : angple_refresh_tokens) : angple_refresh_tokens :=
  List.map (fun r =>
              if (String.eqb (col r) key && negb (is_revoked r))%bool
              then set_revoked dbNow r else r) tbl.

(** [SELECT .. WHERE token_hash = ? LIMIT 1] *)
Definition select_token (h : string) (tbl : angple_refresh_tokens)
  : option RefreshTokenRow :=
  List.find (fun r => String.eqb (token_hash r) h) tbl.

Section WithRuntime.
Context `{Runtime}.

Definition hashToken (token : string) : string := sha256_hex token.

Definition generateFamilyId (e : entropy) : string := hex (randomBytes e 32).

Definition storeRefreshToken (tokenHash mbId familyId : string) (expiresAt : Z)
    (metadata : option TokenMeta) (dbNow : Z) (tbl : angple_refresh_tokens)
  : angple_refresh_tokens :=
  (tbl ++ [ {| token_hash := tokenHash; mb_id := mbId; family_id := familyId;
               ip := metadata ≫= meta_ip;
               user_agent := substring0 512 <$> (metadata ≫= meta_userAgent);
               created_at := dbNow; expires_at := expiresAt;
               revoked_at := None |} ])%list.

Definition revokeToken (tokenHash : string) (dbNow : Z) :=
  revoke_where token_hash tokenHash dbNow.

Definition revokeTokenFamily (familyId : string) (dbNow : Z) :=
  revoke_where family_id familyId dbNow.

(** [findValidToken]: the identity stored under the hash, or [None];
    the table comes back changed when a reuse is detected. *)
Definition findValidToken (tokenHash : string) (now dbNow : Z)
    (tbl : angple_refresh_tokens)
  : option (string * string) * angple_refresh_tokens :=
  match select_token tokenHash tbl with
  | None => (None, tbl)
  | Some row =>
      match revoked_at row with
      | Some _ => (None, revokeTokenFamily (family_id row) dbNow tbl)
      | None =>
          if now >? expires_at row then (None, tbl)
          else (Some (mb_id row, family_id row), tbl)
      end
  end.

Definition cleanupExpiredTokens (dbNow : Z) (tbl : angple_refresh_tokens)
  : nat * angple_refresh_tokens :=
  let keep := List.filter (fun r => negb (expires_at r <? dbNow)) tbl in
  ((length tbl - length keep)%nat, keep).

End WithRuntime.

End TokenStore.

(** ** Signed tokens (jwt.ts) *)

Module Jwt.

Import TokenStore.

(** 7 days *)
Definition REFRESH_TOKEN_TTL_MS : Z := 7 * 24 * 60 * 60 * 1000.

Record JwtPayload := {
  sub : jsval;
  nickname : jsval;
  level : jsval;
  email : jsval
}.

Record AccessUser := {
  au_mb_id : string;
  au_mb_nick : string;
  au_mb_level : Z;
  au_mb_email : string
}.

Record RefreshMeta := {
  rm_ip : option string;
  rm_userAgent : option string;
  rm_familyId : option string
}.

(** The [{ ip, userAgent }] part of the metadata, which is all
    [storeRefreshToken] reads. *)
Definition store_meta (m : RefreshMeta) : TokenMeta :=
  {| meta_ip := rm_ip m; meta_userAgent := rm_userAgent m |}.

(** [{ ...metadata, familyId }] *)
Definition with_family (metadata : option TokenMeta) (familyId : string) : RefreshMeta :=
  {| rm_ip := metadata ≫= meta_ip;
     rm_userAgent := metadata ≫= meta_userAgent;
     rm_familyId := Some familyId |}.

(** Seconds since the epoch at an instant, as [jose] computes it. *)
Definition epoch (now : Z) : Z := now / 1000.

Section WithRuntime.
Context `{Runtime}.

Definition generateAccessToken (user : AccessUser) (now : Z) : string :=
  SignJWT JWT_SECRET
    {| jwt_payload := [("sub", JStr (au_mb_id user));
                       ("nickname", JStr (au_mb_nick user));
                       ("level", JNum (au_mb_level user));
                       ("email", JStr (au_mb_email user))];
       jwt_iat := epoch now;
       jwt_exp := epoch now + 15 * 60;
       jwt_iss := "angple" |}.

(** [metadata?.familyId || generateFamilyId()] *)
Definition family_or_new (metadata : option RefreshMeta) (e : entropy) : string :=
  match metadata ≫= rm_familyId with
  | Some f => if String.eqb f "" then generateFamilyId e else f
  | None => generateFamilyId e
  end.

Definition generateRefreshToken (mbId : string) (metadata : option RefreshMeta)
    (e : entropy) (now dbNow : Z) (tbl : angple_refresh_tokens)
  : (string * string) * angple_refresh_tokens :=
  let familyId := family_or_new metadata e in
  let token :=
    SignJWT JWT_SECRET
      {| jwt_payload := [("sub", JStr mbId)];
         jwt_iat := epoch now;
         jwt_exp := epoch now + 7 * 24 * 60 * 60;
         jwt_iss := "angple" |} in
  let tokenHash := hashToken token in
  let expiresAt := now + REFRESH_TOKEN_TTL_MS in
  ((token, familyId),
   storeRefreshToken tokenHash mbId familyId expiresAt (store_meta <$> metadata)
     dbNow tbl).

Definition verifyToken (token : string) (now : Z) : option JwtPayload :=
  payload ← jwtVerify JWT_SECRET (Some "angple") token now;
  p_sub ← get payload "sub";
  p_nickname ← get payload "nickname";
  p_level ← get payload "level";
  p_email ← get payload "email";
  Some {| sub := p_sub;
          nickname := or p_nickname (JStr "");
          level := or p_level (JNum 0);
          email := or p_email (JStr "") |}.

Definition verifyTokenLax (token : string) (now : Z) : option JwtPayload :=
  payload ← jwtVerify DAMOANG_JWT_SECRET None token now;
  p_mb_id ← get payload "mb_id";
  p_sub ← get payload "sub";
  p_user_id ← get payload "user_id";
  let sub := or (or (or p_mb_id p_sub) p_user_id) (JStr "") in
  if negb (truthy sub) then None
  else
    p_mb_name ← get payload "mb_name";
    p_mb_nick ← get payload "mb_nick";
    p_nickname ← get payload "nickname";
    p_mb_level ← get payload "mb_level";
    p_level ← get payload "level";
    p_mb_email ← get payload "mb_email";
    p_email ← get payload "email";
    Some {| sub := sub;
            nickname := or (or (or p_mb_name p_mb_nick) p_nickname) (JStr "");
            level := or (or p_mb_level p_level) (JNum 0);
            email := or (or p_mb_email p_email) (JStr "") |}.

(** [rotateRefreshToken]: the new token and the member id, or [None]. *)
Definition rotateRefreshToken (oldToken : string) (metadata : option TokenMeta)
    (e : entropy) (now dbNow : Z) (tbl : angple_refresh_tokens)
  : option (string * string) * angple_refresh_tokens :=
  match verifyToken oldToken now with
  | None => (None, tbl)
  | Some payload =>
      if negb (truthy (sub payload)) then (None, tbl)
      else
        let oldTokenHash := hashToken oldToken in
        match findValidToken oldTokenHash now dbNow tbl with
        | (None, tbl1) => (None, tbl1)
        | (Some (mbId, familyId), tbl1) =>
            let tbl2 := revokeToken oldTokenHash dbNow tbl1 in
            let '((token, _), tbl3) :=
              generateRefreshToken mbId (Some (with_family metadata familyId))
                e now dbNow tbl2 in
            (Some (token, mbId), tbl3)
        end
  end.

(** One later refresh request: its metadata, entropy and clocks. *)
Record Refresh := {
  rf_metadata : option TokenMeta;
  rf_entropy : entropy;
  rf_now : Z;
  rf_dbNow : Z
}.

(** A client rotating again and again, each time presenting the
    token it was handed last: the tokens it received, or [None] as
    soon as a rotation is refused. *)
Fixpoint rotate_chain (token : string) (requests : list Refresh)
    (tbl : angple_refresh_tokens) : option (list string) * angple_refresh_tokens :=
  match requests with
  | [] => (Some [], tbl)
  | rq :: rest =>
      match rotateRefreshToken token (rf_metadata rq) (rf_entropy rq)
              (rf_now rq) (rf_dbNow rq) tbl with
      | (None, tbl1) => (None, tbl1)
      | (Some (token1, _), tbl1) =>
          let '(tokens, tbl2) := rotate_chain token1 rest tbl1 in
          (cons token1 <$> tokens, tbl2)
      end
  end.

(** No token handed out along such a chain has a hash that a row
    stored before it already carries. *)
Fixpoint fresh_chain (token : string) (requests : list Refresh)
    (tbl : angple_refresh_tokens) : Prop :=
  match requests with
  | [] => True
  | rq :: rest =>
      match rotateRefreshToken token (rf_metadata rq) (rf_entropy rq)
              (rf_now rq) (rf_dbNow rq) tbl with
      | (Some (token1, _), tbl1) =>
          ~ In (hashToken token1) (map token_hash tbl)
          /\ fresh_chain token1 rest tbl1
      | (None, _) => True
      end
  end.

(** The tables the application itself can produce: the empty table
    and whatever its operations make of such a table. *)
Inductive issued : angple_refresh_tokens -> Prop :=
| issued_empty : issued []
| issued_login tbl mbId metadata e now dbNow :
    issued tbl ->
    issued (generateRefreshToken mbId metadata e now dbNow tbl).2
| issued_rotate tbl oldToken metadata e now dbNow :
    issued tbl -> issued (rotateRefreshToken oldToken metadata e now dbNow tbl).2
| issued_find tbl tokenHash now dbNow :
    issued tbl -> issued (findValidToken tokenHash now dbNow tbl).2
| issued_revoke tbl tokenHash dbNow :
    issued tbl -> issued (revokeToken tokenHash dbNow tbl)
| issued_revoke_family tbl familyId dbNow :
    issued tbl -> issued (revokeTokenFamily familyId dbNow tbl)
| issued_cleanup tbl dbNow :
    issued tbl -> issued (cleanupExpiredTokens dbNow tbl).2.

End WithRuntime.

End Jwt.

(** ** OAuth providers (oauth/types.ts, provider-registry.ts, providers/*.ts) *)

Module OAuth.

Inductive SocialProvider :=
| naver | kakao | google | facebook | apple | twitter | payco.

Definition provider_name (p : SocialProvider) : string :=
  match p with
  | naver => "naver"
  | kakao => "kakao"
  | google => "google"
  | facebook => "facebook"
  | apple => "apple"
  | twitter => "twitter"
  | payco => "payco"
  end.

Definition all_providers : list SocialProvider :=
  [naver; kakao; google; facebook; apple; twitter; payco].

Definition VALID_PROVIDERS : list string := map provider_name all_providers.

Section WithRuntime.
Context `{Runtime}.

Definition isValidProvider (provider : string) : bool :=
  existsb (String.eqb (toLowerCase provider)) VALID_PROVIDERS.

(** [normalizeProviderName]: the lower-cased name, as a member of
    [SocialProvider], when it is one of [VALID_PROVIDERS]. *)
Definition normalizeProviderName (name : string) : option SocialProvider :=
  let lower := toLowerCase name in
  List.find (fun p => String.eqb lower (provider_name p)) all_providers.

End WithRuntime.

Record OAuthUserProfile := {
  provider : SocialProvider;
  identifier : jsval;
  displayName : jsval;
  email : jsval;
  photoUrl : jsval;
  profileUrl : jsval
}.

Record OAuthTokenResponse := {
  access_token : string;
  id_token : option string
}.

(** Each [parseUserProfile] returns [None] where the source throws a
    TypeError. *)

Definition Naver_parseUserProfile (data : jsval) : option OAuthUserProfile :=
  r ← get data "response";
  r_id ← get r "id";
  r_nickname ← get r "nickname";
  r_name ← get r "name";
  r_email ← get r "email";
  r_profile_image ← get r "profile_image";
  Some {| provider := naver;
          identifier := r_id;
          displayName := or (or r_nickname r_name) (JStr "");
          email := or r_email (JStr "");
          photoUrl := or r_profile_image (JStr "");
          profileUrl := JStr "" |}.

Definition Kakao_parseUserProfile (data : jsval) : option OAuthUserProfile :=
  d_id ← get data "id";
  d_properties ← get data "properties";
  d_kakao_account ← get data "kakao_account";
  Some {| provider := kakao;
          identifier := JStr (ToString d_id);
          displayName :=
            or (or (get_opt d_properties "nickname")
                   (get_opt (get_opt d_kakao_account "profile") "nickname"))
               (JStr "");
          email := or (get_opt d_kakao_account "email") (JStr "");
          photoUrl :=
            or (or (get_opt d_properties "thumbnail_image")
                   (get_opt (get_opt d_kakao_account "profile") "thumbnail_image_url"))
               (JStr "");
          profileUrl := JStr "" |}.

Definition Google_parseUserProfile (data : jsval) : option OAuthUserProfile :=
  d_sub ← get data "sub";
  d_name ← get data "name";
  d_email ← get data "email";
  d_picture ← get data "picture";
  Some {| provider := google;
          identifier := d_sub;
          displayName := or d_name (JStr "");
          email := or d_email (JStr "");
          photoUrl := or d_picture (JStr "");
          profileUrl := JStr "" |}.

Definition Facebook_parseUserProfile (data : jsval) : option OAuthUserProfile :=
  d_id ← get data "id";
  d_name ← get data "name";
  d_email ← get data "email";
  d_picture ← get data "picture";
  Some {| provider := facebook;
          identifier := d_id;
          displayName := or d_name (JStr "");
          email := or d_email (JStr "");
          photoUrl := or (get_opt (get_opt d_picture "data") "url") (JStr "");
          profileUrl := JStr ("https://www.facebook.com/" ++ ToString d_id) |}.

Definition Apple_parseUserProfile (data : jsval) : option OAuthUserProfile :=
  d_sub ← get data "sub";
  d_email ← get data "email";
  Some {| provider := apple;
          identifier := d_sub;
          displayName := JStr "";
          email := or d_email (JStr "");
          photoUrl := JStr "";
          profileUrl := JStr "" |}.

Definition Twitter_parseUserProfile (data : jsval) : option OAuthUserProfile :=
  d ← get data "data";
  d_id ← get d "id";
  d_name ← get d "name";
  d_username ← get d "username";
  d_profile_image_url ← get d "profile_image_url";
  Some {| provider := twitter;
          identifier := d_id;
          displayName := or (or d_name d_username) (JStr "");
          email := JStr "";
          photoUrl := or d_profile_image_url (JStr "");
          profileUrl :=
            if truthy d_username
            then JStr ("https://x.com/" ++ ToString d_username)
            else JStr "" |}.

Definition Payco_parseUserProfile (data : jsval) : option OAuthUserProfile :=
  d_data ← get data "data";
  let member := get_opt d_data "member" in
  Some {| provider := payco;
          identifier := or (get_opt member "idNo") (JStr "");
          displayName := or (get_opt member "name") (JStr "");
          email := or (get_opt member "email") (JStr "");
          photoUrl := or (get_opt member "profileImageUrl") (JStr "");
          profileUrl := JStr "" |}.

(** The adapter [getProvider] instantiates for a provider name. *)
Definition parseUserProfile (p : SocialProvider) : jsval -> option OAuthUserProfile :=
  match p with
  | naver => Naver_parseUserProfile
  | kakao => Kakao_parseUserProfile
  | google => Google_parseUserProfile
  | facebook => Facebook_parseUserProfile
  | apple => Apple_parseUserProfile
  | twitter => Twitter_parseUserProfile
  | payco => Payco_parseUserProfile
  end.

(** The smallest payload each provider's response interface admits
    that still carries the provider-scoped identifier [id]. *)
Definition minimal_payload (p : SocialProvider) (id : jsval) : jsval :=
  match p with
  | naver => JObj [("response", JObj [("id", id)])]
  | kakao => JObj [("id", id)]
  | google => JObj [("sub", id)]
  | facebook => JObj [("id", id)]
  | apple => JObj [("sub", id)]
  | twitter => JObj [("data", JObj [("id", id)])]
  | payco =>
      JObj [("header", JObj [("isSuccessful", JBool true);
                             ("resultCode", JNum 0);
                             ("resultMessage", JStr "SUCCESS")]);
            ("data", JObj [("member", JObj [("idNo", id)])])]
  end.

End OAuth.

(** ** Twitter's PKCE code verifier (oauth/providers/twitter.ts) *)

Module Pkce.

(** The sixty-four characters of base64, by value. *)
Definition base64_char (n : N) : ascii :=
  if (n <? 26)%N then ascii_of_N (65 + n)
  else if (n <? 52)%N then ascii_of_N (71 + n)
  else if (n <? 62)%N then ascii_of_N (n - 4)
  else if (n =? 62)%N then "+"%char
  else "/"%char.

(** [btoa(String.fromCharCode(...bytes))]: three bytes make four
    characters; one or two bytes left over are padded with [=]. *)
Fixpoint btoa (bytes : list N) : string :=
  match bytes with
  | [] => ""
  | [a] =>
      String (base64_char (a / 4))
        (String (base64_char ((a mod 4) * 16)) "==")
  | [a; b] =>
      String (base64_char (a / 4))
        (String (base64_char ((a mod 4) * 16 + b / 16))
           (String (base64_char ((b mod 16) * 4)) "="))
  | a :: b :: c :: rest =>
      String (base64_char (a / 4))
        (String (base64_char ((a mod 4) * 16 + b / 16))
           (String (base64_char ((b mod 16) * 4 + c / 64))
              (String (base64_char (c mod 64)) (btoa rest))))
  end%N.

(** [s.replace(/c/g, by)] for a single character [c]. *)
Fixpoint replaceAll (c : ascii) (by_ : string) (s : string) : string :=
  match s with
  | EmptyString => EmptyString
  | String a rest =>
      if Ascii.eqb a c then by_ ++ replaceAll c by_ rest
      else String a (replaceAll c by_ rest)
  end.

(** [crypto.getRandomValues(new Uint8Array(n))] *)
Definition getRandomValues (e : entropy) (n : nat) : list N :=
  map (fun b => (b mod 256)%N) (randomBytes e n).

Definition generateCodeVerifier (e : entropy) : string :=
  replaceAll "=" "" (replaceAll "/" "_" (replaceAll "+" "-" (btoa (getRandomValues e 32)))).

(** The characters a code verifier may consist of (RFC 7636, 4.1):
    letters, digits, [-], [.], [_] and [~]. *)
Definition unreserved (c : ascii) : bool :=
  let n := nat_of_ascii c in
  (((65 <=? n) && (n <=? 90)) || ((97 <=? n) && (n <=? 122))
   || ((48 <=? n) && (n <=? 57))
   || (n =? 45) || (n =? 46) || (n =? 95) || (n =? 126))%nat%bool.

End Pkce.

(** ** OAuth state cookie (oauth/state.ts) *)

Module OAuthState.

Import OAuth.

Definition STATE_COOKIE_NAME : string := "oauth_state".
(** 10 minutes, in seconds *)
Definition STATE_MAX_AGE : Z := 600.

(** The request's cookie jar: name to value.  [cookies.set] inserts,
    [cookies.delete] removes, [cookies.get] looks up. *)
Abbreviation Cookies := (gmap string string).

(** [cookies.get(name)] followed by a truthiness test: a missing
    cookie and an empty one are treated alike. *)
Definition cookie_value (cookies : Cookies) (name : string) : option string :=
  match cookies !! name with
  | Some v => if String.eqb v "" then None else Some v
  | None => None
  end.

Section WithRuntime.
Context `{Runtime}.

(** ToNumber; [None] stands for NaN.  Arrays and objects are first
    turned into text. *)
Definition ToNumber (v : jsval) : option Z :=
  match v with
  | JUndefined => None
  | JNull => Some 0
  | JBool b => Some (if b then 1 else 0)
  | JNum n => Some n
  | JStr _ | JArr _ | JObj _ => StringToNumber (ToString v)
  end.

Definition generateRandomState (e : entropy) : string := hex (randomBytes e 32).

Definition state_data (state : string) (provider : SocialProvider)
    (redirectUrl : string) (timestamp : Z) : jsval :=
  JObj [("state", JStr state);
        ("provider", JStr (provider_name provider));
        ("redirect", JStr redirectUrl);
        ("timestamp", JNum timestamp)].

Definition createOAuthState (cookies : Cookies) (provider : SocialProvider)
    (redirectUrl : string) (e : entropy) (now : Z) : string * Cookies :=
  let state := generateRandomState e in
  let data := state_data state provider redirectUrl now in
  (state, <[STATE_COOKIE_NAME := JSON_stringify data]> cookies).

(** [Date.now() - data.timestamp > STATE_MAX_AGE * 1000]; a
    comparison with NaN is false. *)
Definition state_expired (now : Z) (timestamp : jsval) : bool :=
  match ToNumber timestamp with
  | Some t => now - t >? STATE_MAX_AGE * 1000
  | None => false
  end.

Definition validateOAuthState (cookies : Cookies) (state : string) (now : Z)
  : option jsval * Cookies :=
  match cookie_value cookies STATE_COOKIE_NAME with
  | None => (None, cookies)
  | Some raw =>
      match JSON_parse raw with
      | None => (None, cookies)
      | Some data =>
          match get data "state" with
          | None => (None, cookies)
          | Some data_state =>
              if negb (strict_eq_str data_state state) then (None, cookies)
              else
                match get data "timestamp" with
                | None => (None, cookies)
                | Some data_timestamp =>
                    if state_expired now data_timestamp then (None, cookies)
                    else (Some data, delete STATE_COOKIE_NAME cookies)
                end
          end
      end
  end.

End WithRuntime.

End OAuthState.

(** ** Members (oauth/member.js) *)

Module Members.

(** Modelled from the spec: the member record and its repository
    ([oauth/member.js] is not among the sources).  A member has an id,
    a nickname, a name, a level, an email and an active/inactive flag;
    [getMemberById] is the repository's [findById]. *)
Record Member := {
  mb_id : string;
  mb_nick : string;
  mb_name : string;
  mb_level : option Z;
  mb_email : option string;
  mb_active : bool
}.

Definition getMemberById (members : gmap string Member) (mbId : string)
  : option Member := members !! mbId.

Definition isMemberActive (m : Member) : bool := mb_active m.

End Members.

(** ** Request authentication (auth/index.ts) *)

Module Auth.

Import SessionStore TokenStore Jwt OAuthState Members.

Record AuthUser := {
  mb_id : jsval;
  mb_name : jsval;
  mb_level : jsval;
  mb_email : jsval
}.

(** The persistent state a request can see. *)
Record Db := {
  sessions : angple_sessions;
  refresh_tokens : angple_refresh_tokens;
  members : gmap string Member
}.

Definition with_sessions (db : Db) (tbl : angple_sessions) : Db :=
  {| sessions := tbl; refresh_tokens := refresh_tokens db; members := members db |}.

Definition with_refresh_tokens (db : Db) (tbl : angple_refresh_tokens) : Db :=
  {| sessions := sessions db; refresh_tokens := tbl; members := members db |}.

(** [{ mb_id: member.mb_id, mb_name: member.mb_nick || member.mb_name,
       mb_level: member.mb_level ?? 0, mb_email: member.mb_email || '' }] *)
Definition auth_of_member (m : Member) : AuthUser :=
  {| mb_id := JStr (Members.mb_id m);
     mb_name := JStr (if String.eqb (Members.mb_nick m) "" then Members.mb_name m
                      else Members.mb_nick m);
     mb_level := JNum (default 0 (Members.mb_level m));
     mb_email := JStr (default "" (Members.mb_email m)) |}.

Definition auth_of_payload (p : JwtPayload) : AuthUser :=
  {| mb_id := sub p; mb_name := nickname p; mb_level := level p; mb_email := email p |}.

(** [getMemberById(payload.sub)]: the subject is looked up by its text. *)
Definition member_of_subject (db : Db) (subject : jsval) : option Member :=
  getMemberById (members db) (ToString subject).

Section WithRuntime.
Context `{Runtime}.

(** 1: the [angple_sid] cookie, through the session store. *)
Definition bySessionCookie (cookies : Cookies) (now dbNow : Z) (db : Db)
  : option Member * Db :=
  match cookie_value cookies SESSION_COOKIE_NAME with
  | Some sessionId =>
      let '(session, tbl) := getSession sessionId now dbNow (sessions db) in
      (session ≫= (fun s => getMemberById (members db) (mbId s)),
       with_sessions db tbl)
  | None => (None, db)
  end.

(** 2: the [access_token] cookie. *)
Definition byAccessToken (cookies : Cookies) (now : Z) : option JwtPayload :=
  accessToken ← cookie_value cookies "access_token";
  verifyToken accessToken now.

(** 3: the [refresh_token] cookie. *)
Definition byRefreshToken (cookies : Cookies) (now : Z) (db : Db) : option Member :=
  refreshToken ← cookie_value cookies "refresh_token";
  payload ← verifyToken refreshToken now;
  if truthy (sub payload) then member_of_subject db (sub payload) else None.

(** 4: the [damoang_jwt] cookie. *)
Definition byLegacyJwt (cookies : Cookies) (now : Z) : option JwtPayload :=
  legacyJwt ← cookie_value cookies "damoang_jwt";
  payload ← verifyTokenLax legacyJwt now;
  if truthy (sub payload) then Some payload else None.

(** [getAuthUser]: the four cookies in their order of precedence.  (A
    read that throws is caught, and the next cookie is tried as after
    a read that finds nothing.) *)
Definition getAuthUser (cookies : Cookies) (now dbNow : Z) (db : Db)
  : option AuthUser * Db :=
  let '(member, db1) := bySessionCookie cookies now dbNow db in
  match member with
  | Some member => (Some (auth_of_member member), db1)
  | None =>
      match byAccessToken cookies now with
      | Some payload => (Some (auth_of_payload payload), db1)
      | None =>
          match byRefreshToken cookies now db1 with
          | Some member => (Some (auth_of_member member), db1)
          | None => (auth_of_payload <$> byLegacyJwt cookies now, db1)
          end
      end
  end.

End WithRuntime.

End Auth.

(** ** Route handlers

    A handler is a program over the calls it makes to its
    collaborators (provider endpoints, repositories, rate limiter,
    captcha).  Each call may answer or throw; the cookie jar is local
    state of the handler.  Of a thrown value the handlers read one
    thing, in their [catch]: whether it is an object with a [status]
    property, as the redirects and errors of SvelteKit are; such a
    value is thrown again. *)

Module Routes.

Import SessionStore OAuth OAuthState Members.

Inductive Result (X : Type) : Type :=
| Ok (x : X)
| Thrown (hasStatus : bool).
Arguments Ok {X} x.
Arguments Thrown {X} hasStatus.

(** A social profile as it is handed to [upsertSocialProfile]. *)
Record SocialProfileData := {
  sp_provider : jsval;
  sp_identifier : jsval;
  sp_displayName : jsval;
  sp_email : jsval;
  sp_photoUrl : jsval;
  sp_profileUrl : jsval
}.

Definition profile_data (p : OAuthUserProfile) : SocialProfileData :=
  {| sp_provider := JStr (provider_name (provider p));
     sp_identifier := identifier p;
     sp_displayName := displayName p;
     sp_email := email p;
     sp_photoUrl := photoUrl p;
     sp_profileUrl := profileUrl p |}.

Record SocialProfileRow := { spr_mb_id : string }.

Record RateCheck := { allowed : bool; retryAfter : option Z }.
Record NicknameCheck := { valid : bool; error : string }.
Record SessionTicket := { t_sessionId : string; t_csrfToken : string; t_expiresAt : Z }.
Record NewMember := {
  nm_mb_id : string;
  nm_mb_nick : string;
  nm_mb_email : jsval;
  nm_mb_name : string;
  nm_mb_ip : string
}.

Inductive Ev : Type -> Type :=
| GetProvider (p : SocialProvider) (origin : string) : Ev (Result unit)
| ExchangeCode (p : SocialProvider) (code : string) (codeVerifier : option string)
    : Ev (Result OAuthTokenResponse)
| GetUserProfile (p : SocialProvider) (accessToken : string) (idToken : option string)
    : Ev (Result OAuthUserProfile)
| FindSocialProfile (p : SocialProvider) (identifier : jsval)
    : Ev (Result (option SocialProfileRow))
| FindMemberByEmail (email : jsval) : Ev (Result (option Member))
| GetMemberById (mbId : string) : Ev (Result (option Member))
| UpsertSocialProfile (mbId : string) (provider : jsval) (profile : SocialProfileData)
    : Ev (Result unit)
| UpdateLoginTimestamp (mbId : string) (ip : string) : Ev (Result unit)
| CreateSession (mbId : string) (metadata : SessionMeta) : Ev (Result SessionTicket)
| GenerateRefreshToken (mbId : string) (ip : string) : Ev (Result (string * string))
| CheckRateLimit (ip action : string) (limit window : Z) : Ev (Result RateCheck)
| RecordAttempt (ip action : string) : Ev (Result unit)
| VerifyTurnstile (token ip : string) : Ev (Result bool)
| ValidateNickname (nickname : string) : Ev (Result NicknameCheck)
| IsMbIdTaken (mbId : string) : Ev (Result bool)
| CreateMember (m : NewMember) : Ev (Result unit).

Inductive Prog (A : Type) : Type :=
| Ret (a : A)
| Vis {X : Type} (e : Ev X) (k : X -> Prog A).
Arguments Ret {A} a.
Arguments Vis {A X} e k.

(** [await e], continuing with [k] on an answer and with [handler],
    which is told whether the thrown value has a [status], when the
    call throws. *)
Definition call {X A} (e : Ev (Result X)) (handler : bool -> Prog A) (k : X -> Prog A)
  : Prog A :=
  Vis e (fun r => match r with Ok x => k x | Thrown hasStatus => handler hasStatus end).

(** One observed call with its answer. *)
Inductive Obs : Type :=
| obs (X : Type) (e : Ev X) (x : X).
Arguments obs {X} e x.

(** [Run p tr a]: some choice of answers makes [p] perform the calls
    [tr], in that order, and finish with [a]. *)
Inductive Run {A} : Prog A -> list Obs -> A -> Prop :=
| Run_Ret a : Run (Ret a) [] a
| Run_Vis X (e : Ev X) k x tr a : Run (k x) tr a -> Run (Vis e k) (obs e x :: tr) a.

(** [always P p]: whatever the answers, the calls made and the value
    reached satisfy [P]. *)
Fixpoint always {A} (P : list Obs -> A -> Prop) (p : Prog A) : Prop :=
  match p with
  | Ret a => P [] a
  | Vis e k => forall x, always (fun tr a => P (obs e x :: tr) a) (k x)
  end.

(** The member a call creates, the nickname verdict and the
    id-collision verdict it observes. *)
Definition created_member (o : Obs) : option NewMember :=
  match o with
  | obs e _ => match e with CreateMember m => Some m | _ => None end
  end.

Definition nickname_verdict (o : Obs) : option (string * Result NicknameCheck) :=
  match o with
  | obs e x =>
      match e in Ev X return X -> option (string * Result NicknameCheck) with
      | ValidateNickname n => fun r => Some (n, r)
      | _ => fun _ => None
      end x
  end.

Definition collision_verdict (o : Obs) : option (string * Result bool) :=
  match o with
  | obs e x =>
      match e in Ev X return X -> option (string * Result bool) with
      | IsMbIdTaken i => fun r => Some (i, r)
      | _ => fun _ => None
      end x
  end.

(** Running against a fixed way of answering. *)
Fixpoint exec {A} (answer : forall X, Ev X -> X) (p : Prog A) : list Obs * A :=
  match p with
  | Ret a => ([], a)
  | Vis e k => let x := answer _ e in
               let '(tr, a) := exec answer (k x) in (obs e x :: tr, a)
  end.

(** What a handler ends with: a redirect or a form failure thrown or
    returned through SvelteKit, or an exception that escapes it. *)
Inductive RegisterError :=
| TooManyRequests (retryAfter : option Z)
| CaptchaFailed
| RegistrationExpired
| BadRegistrationData
| TermsNotAccepted
| NicknameRejected (error : string)
| LoginAfterRegisterFailed
| RegistrationFailed.

Inductive Response :=
| Redirect (status : Z) (location : string)
| Fail (status : Z) (error : RegisterError) (nickname : string)
| Uncaught.

Section WithRuntime.
Context `{Runtime}.

(** *** OAuth callback (auth/callback/[provider]/+server.ts) *)

Definition pending_registration (providerName : SocialProvider)
    (profile : OAuthUserProfile) : jsval :=
  JObj [("provider", JStr (provider_name providerName));
        ("identifier", identifier profile);
        ("email", or (email profile) (JStr ""));
        ("displayName", or (displayName profile) (JStr ""));
        ("photoUrl", or (photoUrl profile) (JStr ""));
        ("profileUrl", or (profileUrl profile) (JStr ""))].

Definition register_params (providerName : SocialProvider)
    (profile : OAuthUserProfile) (stateData_redirect : jsval) : list (string * string) :=
  ([("provider", provider_name providerName)]
   ++ (if truthy (email profile) then [("email", ToString (email profile))] else [])
   ++ (if truthy stateData_redirect
       then [("redirect", ToString stateData_redirect)] else []))%list.

(** The part of [handleCallback] after the member id is settled. *)
Definition finishLogin (handler : Cookies -> bool -> Prog (Response * Cookies))
    (providerName : SocialProvider) (profile : OAuthUserProfile)
    (stateData_redirect : jsval) (clientIp : string) (mbId : option string)
    (cookies : Cookies) : Prog (Response * Cookies) :=
  match mbId ≫= (fun m => if String.eqb m "" then None else Some m) with
  | None =>
      let cookies1 :=
        <["pending_social_register" :=
            JSON_stringify (pending_registration providerName profile)]> cookies in
      let params := register_params providerName profile stateData_redirect in
      Ret (Redirect 302 ("/register?" ++ URLSearchParams_toString params), cookies1)
  | Some mbId =>
      call (GetMemberById mbId) (handler cookies) (fun member =>
      match member with
      | None => Ret (Redirect 302 "/login?error=account_inactive", cookies)
      | Some member =>
          if negb (isMemberActive member)
          then Ret (Redirect 302 "/login?error=account_inactive", cookies)
          else
            call (UpsertSocialProfile mbId (JStr (provider_name providerName))
                    (profile_data profile)) (handler cookies) (fun _ =>
            call (UpdateLoginTimestamp mbId clientIp) (handler cookies) (fun _ =>
            call (CreateSession (Members.mb_id member)
                    {| meta_ip := Some clientIp; meta_userAgent := Some "" |})
                 (handler cookies) (fun session =>
            let cookies1 := <[SESSION_COOKIE_NAME := t_sessionId session]> cookies in
            let cookies2 := <[CSRF_COOKIE_NAME := t_csrfToken session]> cookies1 in
            Ret (Redirect 302 (ToString (or stateData_redirect (JStr "/"))),
                 cookies2))))
      end)
  end.

Definition handleCallback (providerSlug : string) (cookies : Cookies)
    (code stateParam clientIp origin : string) (now : Z)
  : Prog (Response * Cookies) :=
  match normalizeProviderName providerSlug with
  | None => Ret (Redirect 302 "/login?error=invalid_provider", cookies)
  | Some providerName =>
      match validateOAuthState cookies stateParam now with
      | (None, cookies) => Ret (Redirect 302 "/login?error=invalid_state", cookies)
      | (Some stateData, cookies) =>
          if negb (strict_eq_str (get_opt stateData "provider")
                     (provider_name providerName))
          then Ret (Redirect 302 "/login?error=provider_mismatch", cookies)
          else
            let handler := fun (c : Cookies) (hasStatus : bool) =>
              if hasStatus then Ret (Uncaught, c)
              else Ret (Redirect 302 "/login?error=oauth_error", c) in
            call (GetProvider providerName origin) (handler cookies) (fun _ =>
            let '(codeVerifier, cookies) :=
              match providerName with
              | twitter => (cookie_value cookies "oauth_pkce",
                            delete "oauth_pkce" cookies)
              | _ => (None, cookies)
              end in
            call (ExchangeCode providerName code codeVerifier) (handler cookies)
              (fun tokenResponse =>
            call (GetUserProfile providerName (access_token tokenResponse)
                    match providerName with
                    | apple => id_token tokenResponse
                    | _ => None
                    end) (handler cookies) (fun profile =>
            call (FindSocialProfile providerName (identifier profile))
              (handler cookies) (fun existingProfile =>
            let stateData_redirect := get_opt stateData "redirect" in
            let finish := fun mbId =>
              finishLogin handler providerName profile stateData_redirect
                clientIp mbId cookies in
            match existingProfile ≫= (fun p =>
                    if String.eqb (spr_mb_id p) "" then None else Some (spr_mb_id p)) with
            | Some mbId => finish (Some mbId)
            | None =>
                if truthy (email profile) then
                  call (FindMemberByEmail (email profile)) (handler cookies)
                    (fun memberByEmail => finish (Members.mb_id <$> memberByEmail))
                else finish None
            end))))
      end
  end.

(** *** Social registration (register/+page.server.ts)

    [generateSocialMbId] comes from [auth/register.js], which is not
    among the sources: the action is parametric in it. *)

Variable generateSocialMbId : jsval -> jsval -> string.

Definition form_nickname (form : gmap string string) : string :=
  match form !! "nickname" with
  | Some s => trim s
  | None => ""
  end.

Definition form_checked (form : gmap string string) (name : string) : bool :=
  match form !! name with
  | Some v => String.eqb v "on"
  | None => false
  end.

Definition form_or (form : gmap string string) (name fallback : string) : string :=
  match form !! name with
  | Some v => if String.eqb v "" then fallback else v
  | None => fallback
  end.

(** [mbId + '_' + randomBytes(4).toString('hex')] *)
Definition with_suffix (mbId : string) (e : entropy) : string :=
  mbId ++ "_" ++ hex (randomBytes e 4).

Definition register_action (form : gmap string string) (cookies : Cookies)
    (clientIp : string) (e : entropy) : Prog (Response * Cookies) :=
  let nickname := form_nickname form in
  let agreeTerms := form_checked form "agree_terms" in
  let agreePrivacy := form_checked form "agree_privacy" in
  let redirectUrl := form_or form "redirect" "/" in
  let uncaught := fun _ : bool => Ret (Uncaught, cookies) in
  call (CheckRateLimit clientIp "register" 5 (60 * 60 * 1000)) uncaught
    (fun rateCheck =>
  if negb (allowed rateCheck)
  then Ret (Fail 429 (TooManyRequests (retryAfter rateCheck)) nickname, cookies)
  else
  call (RecordAttempt clientIp "register") uncaught (fun _ =>
  let turnstileToken := form_or form "cf-turnstile-response" "" in
  call (VerifyTurnstile turnstileToken clientIp) uncaught (fun captchaValid =>
  if negb captchaValid then Ret (Fail 400 CaptchaFailed nickname, cookies)
  else
  match cookie_value cookies "pending_social_register" with
  | None => Ret (Fail 400 RegistrationExpired nickname, cookies)
  | Some pendingData =>
  match JSON_parse pendingData with
  | None => Ret (Fail 400 BadRegistrationData nickname, cookies)
  | Some socialProfile =>
  if negb (agreeTerms && agreePrivacy)
  then Ret (Fail 400 TermsNotAccepted nickname, cookies)
  else
  call (ValidateNickname nickname) uncaught (fun nicknameResult =>
  if negb (valid nicknameResult)
  then Ret (Fail 400 (NicknameRejected (error nicknameResult)) nickname, cookies)
  else
  match get socialProfile "provider" with
  | None => Ret (Uncaught, cookies)
  | Some sp_provider =>
  let field := get_opt socialProfile in
  let mbId0 := generateSocialMbId sp_provider (field "identifier") in
  call (IsMbIdTaken mbId0) uncaught (fun taken =>
  let mbId := if taken : bool then with_suffix mbId0 e else mbId0 in
  let handler := fun (c : Cookies) (hasStatus : bool) =>
    if hasStatus then Ret (Uncaught, c)
    else Ret (Fail 500 RegistrationFailed nickname, c) in
  call (CreateMember {| nm_mb_id := mbId; nm_mb_nick := nickname;
                        nm_mb_email := field "email"; nm_mb_name := nickname;
                        nm_mb_ip := clientIp |}) (handler cookies) (fun _ =>
  let oauthProfile :=
    {| sp_provider := sp_provider;
       sp_identifier := field "identifier";
       sp_displayName := field "displayName";
       sp_email := field "email";
       sp_photoUrl := field "photoUrl";
       sp_profileUrl := field "profileUrl" |} in
  call (UpsertSocialProfile mbId sp_provider oauthProfile) (handler cookies) (fun _ =>
  call (UpdateLoginTimestamp mbId clientIp) (handler cookies) (fun _ =>
  call (GetMemberById mbId) (handler cookies) (fun member =>
  match member with
  | None => Ret (Fail 500 LoginAfterRegisterFailed nickname, cookies)
  | Some member =>
  call (CreateSession (Members.mb_id member)
          {| meta_ip := Some clientIp; meta_userAgent := None |})
    (handler cookies) (fun session =>
  let cookies1 := <[SESSION_COOKIE_NAME := t_sessionId session]> cookies in
  let cookies2 := <[CSRF_COOKIE_NAME := t_csrfToken session]> cookies1 in
  call (GenerateRefreshToken (Members.mb_id member) clientIp) (handler cookies2)
    (fun refresh =>
  let cookies3 := <["refresh_token" := refresh.1]> cookies2 in
  let cookies4 := delete "pending_social_register" cookies3 in
  Ret (Redirect 302 redirectUrl, cookies4)))
  end)))))
  end)
  end
  end))).

End WithRuntime.

End Routes.

(** ** What a run shows

    Readings of the observed calls, used to state what a handler did
    and in which order. *)

Module Calls.

Import SessionStore OAuth Members Routes.

(** The function a call went to. *)
Definition call_name (o : Obs) : string :=
  match o with
  | obs e _ =>
      match e with
      | GetProvider _ _ => "getProvider"
      | ExchangeCode _ _ _ => "exchangeCode"
      | GetUserProfile _ _ _ => "getUserProfile"
      | FindSocialProfile _ _ => "findSocialProfile"
      | FindMemberByEmail _ => "findMemberByEmail"
      | GetMemberById _ => "getMemberById"
      | UpsertSocialProfile _ _ _ => "upsertSocialProfile"
      | UpdateLoginTimestamp _ _ => "updateLoginTimestamp"
      | CreateSession _ _ => "createSession"
      | GenerateRefreshToken _ _ => "generateRefreshToken"
      | CheckRateLimit _ _ _ _ => "checkRateLimit"
      | RecordAttempt _ _ => "recordAttempt"
      | VerifyTurnstile _ _ => "verifyTurnstile"
      | ValidateNickname _ => "validateNickname"
      | IsMbIdTaken _ => "isMbIdTaken"
      | CreateMember _ => "createMember"
      end
  end.

Definition is_thrown {X} (r : Result X) : bool :=
  match r with Thrown _ => true | Ok _ => false end.

Definition has_status {X} (r : Result X) : bool :=
  match r with Thrown hasStatus => hasStatus | Ok _ => false end.

(** Whether the call threw. *)
Definition thrown (o : Obs) : bool :=
  match o with
  | obs e x =>
      match e in Ev X return X -> bool with
      | GetProvider _ _ => is_thrown
      | ExchangeCode _ _ _ => is_thrown
      | GetUserProfile _ _ _ => is_thrown
      | FindSocialProfile _ _ => is_thrown
      | FindMemberByEmail _ => is_thrown
      | GetMemberById _ => is_thrown
      | UpsertSocialProfile _ _ _ => is_thrown
      | UpdateLoginTimestamp _ _ => is_thrown
      | CreateSession _ _ => is_thrown
      | GenerateRefreshToken _ _ => is_thrown
      | CheckRateLimit _ _ _ _ => is_thrown
      | RecordAttempt _ _ => is_thrown
      | VerifyTurnstile _ _ => is_thrown
      | ValidateNickname _ => is_thrown
      | IsMbIdTaken _ => is_thrown
      | CreateMember _ => is_thrown
      end x
  end.

(** Whether the call threw a value with a [status] property. *)
Definition thrown_with_status (o : Obs) : bool :=
  match o with
  | obs e x =>
      match e in Ev X return X -> bool with
      | GetProvider _ _ => has_status
      | ExchangeCode _ _ _ => has_status
      | GetUserProfile _ _ _ => has_status
      | FindSocialProfile _ _ => has_status
      | FindMemberByEmail _ => has_status
      | GetMemberById _ => has_status
      | UpsertSocialProfile _ _ _ => has_status
      | UpdateLoginTimestamp _ _ => has_status
      | CreateSession _ _ => has_status
      | GenerateRefreshToken _ _ => has_status
      | CheckRateLimit _ _ _ _ => has_status
      | RecordAttempt _ _ => has_status
      | VerifyTurnstile _ _ => has_status
      | ValidateNickname _ => has_status
      | IsMbIdTaken _ => has_status
      | CreateMember _ => has_status
      end x
  end.

(** A session that [createSession] handed out, with the member id it
    was asked for. *)
Definition session_ticket (o : Obs) : option (string * SessionTicket) :=
  match o with
  | obs e x =>
      match e in Ev X return X -> option (string * SessionTicket) with
      | CreateSession mbId _ => fun r =>
          match r with Ok ticket => Some (mbId, ticket) | Thrown _ => None end
      | _ => fun _ => None
      end x
  end.

(** A member row that [getMemberById] answered with. *)
Definition member_read (o : Obs) : option (string * option Member) :=
  match o with
  | obs e x =>
      match e in Ev X return X -> option (string * option Member) with
      | GetMemberById mbId => fun r =>
          match r with Ok member => Some (mbId, member) | Thrown _ => None end
      | _ => fun _ => None
      end x
  end.

(** The profile a provider answered with. *)
Definition profile_read (o : Obs) : option OAuthUserProfile :=
  match o with
  | obs e x =>
      match e in Ev X return X -> option OAuthUserProfile with
      | GetUserProfile _ _ _ => fun r =>
          match r with Ok profile => Some profile | Thrown _ => None end
      | _ => fun _ => None
      end x
  end.

(** The provider and origin [getProvider] was asked for. *)
Definition provider_asked (o : Obs) : option (SocialProvider * string) :=
  match o with
  | obs e _ =>
      match e with
      | GetProvider p origin => Some (p, origin)
      | _ => None
      end
  end.

(** The code verifier a code exchange was given. *)
Definition exchange_verifier (o : Obs) : option (option string) :=
  match o with
  | obs e _ =>
      match e with
      | ExchangeCode _ _ codeVerifier => Some codeVerifier
      | _ => None
      end
  end.

(** A refresh token that [generateRefreshToken] handed out, with its
    family. *)
Definition refresh_issued (o : Obs) : option (string * string) :=
  match o with
  | obs e x =>
      match e in Ev X return X -> option (string * string) with
      | GenerateRefreshToken _ _ => fun r =>
          match r with Ok issued => Some issued | Thrown _ => None end
      | _ => fun _ => None
      end x
  end.

(** The verdicts of the rate limiter and of the captcha. *)
Definition rate_verdict (o : Obs) : option (Result RateCheck) :=
  match o with
  | obs e x =>
      match e in Ev X return X -> option (Result RateCheck) with
      | CheckRateLimit _ _ _ _ => fun r => Some r
      | _ => fun _ => None
      end x
  end.

Definition captcha_verdict (o : Obs) : option (Result bool) :=
  match o with
  | obs e x =>
      match e in Ev X return X -> option (Result bool) with
      | VerifyTurnstile _ _ => fun r => Some r
      | _ => fun _ => None
      end x
  end.

End Calls.

(** ** OAuth configuration (oauth/config.ts) *)

Module Config.

(** [process.env.SITE_URL || 'https://damoang.net'] *)
Definition SITE_URL (env_SITE_URL : option string) : string :=
  match env_SITE_URL with
  | Some url => if String.eqb url "" then "https://damoang.net" else url
  | None => "https://damoang.net"
  end.

Definition ALLOWED_ORIGINS : list string :=
  ["https://damoang.net"; "https://web.damoang.net"; "https://dev.damoang.net"].

(** [set.has(x)] *)
Definition has (set : list string) (x : string) : bool := existsb (String.eqb x) set.

(** [resolveOrigin]: [host] is the request's [Host] header. *)
Definition resolveOrigin (env_SITE_URL : option string) (host : option string) : string :=
  match host with
  | Some host =>
      if String.eqb host "" then SITE_URL env_SITE_URL
      else
        let origin := "https://" ++ host in
        if has ALLOWED_ORIGINS origin then origin else SITE_URL env_SITE_URL
  | None => SITE_URL env_SITE_URL
  end.

Section WithRuntime.
Context `{Runtime}.

Definition getCallbackUrl (env_SITE_URL : option string) (provider : string)
    (origin : option string) : string :=
  let base :=
    match origin with
    | Some origin =>
        if (negb (String.eqb origin "") && has ALLOWED_ORIGINS origin)%bool
        then origin else SITE_URL env_SITE_URL
    | None => SITE_URL env_SITE_URL
    end in
  base ++ "/auth/callback/" ++ toLowerCase provider.

End WithRuntime.

Definition getSiteUrl (env_SITE_URL : option string) : string := SITE_URL env_SITE_URL.

(** The sixteen keys of [OAuthKeys], in the order of the object
    literal, each with the environment variable and the [g5_config]
    column it is read from. *)
Definition OAUTH_KEYS : list (string * string * string) :=
  [("naver_clientid", "NAVER_CLIENT_ID", "cf_naver_clientid");
   ("naver_secret", "NAVER_CLIENT_SECRET", "cf_naver_secret");
   ("kakao_rest_key", "KAKAO_REST_KEY", "cf_kakao_rest_key");
   ("kakao_client_secret", "KAKAO_CLIENT_SECRET", "cf_kakao_client_secret");
   ("google_clientid", "GOOGLE_CLIENT_ID", "cf_google_clientid");
   ("google_secret", "GOOGLE_CLIENT_SECRET", "cf_google_secret");
   ("facebook_appid", "FACEBOOK_APP_ID", "cf_facebook_appid");
   ("facebook_secret", "FACEBOOK_SECRET", "cf_facebook_secret");
   ("twitter_key", "TWITTER_KEY", "cf_twitter_key");
   ("twitter_secret", "TWITTER_SECRET", "cf_twitter_secret");
   ("payco_clientid", "PAYCO_CLIENT_ID", "cf_payco_clientid");
   ("payco_secret", "PAYCO_SECRET", "cf_payco_secret");
   ("apple_bundle_id", "APPLE_BUNDLE_ID", "cf_apple_bundle_id");
   ("apple_team_id", "APPLE_TEAM_ID", "cf_apple_team_id");
   ("apple_key_id", "APPLE_KEY_ID", "cf_apple_key_id");
   ("apple_key_file", "APPLE_KEY_FILE", "cf_apple_key_file")].

(** [process.env.X]: [undefined] when the variable is not set. *)
Definition env_value (env : gmap string string) (name : string) : jsval :=
  match env !! name with
  | Some v => JStr v
  | None => JUndefined
  end.

(** [process.env.X || row.cf_x || ''] for every key. *)
Definition keys_of (env : gmap string string) (row : jsval) : jsval :=
  JObj (map (fun '(key, variable, column) =>
               (key, or (or (env_value env variable) (get_opt row column)) (JStr "")))
          OAUTH_KEYS).

(** The module's cache: [cachedKeys] and [cacheTimestamp]. *)
Record Cache := { cachedKeys : option jsval; cacheTimestamp : Z }.

Definition empty_cache : Cache := {| cachedKeys := None; cacheTimestamp := 0 |}.

(** 5 minutes *)
Definition CACHE_TTL : Z := 5 * 60 * 1000.

(** [getOAuthKeys]: [rows] is what the query answers when it is run,
    [None] when it throws; the result is [None] when [getOAuthKeys]
    throws. *)
Definition getOAuthKeys (env : gmap string string) (rows : option (list jsval))
    (now : Z) (cache : Cache) : option jsval * Cache :=
  let load :=
    match rows with
    | None | Some [] => (None, cache)
    | Some (row :: _) =>
        let keys := keys_of env row in
        (Some keys, {| cachedKeys := Some keys; cacheTimestamp := now |})
    end in
  match cachedKeys cache with
  | Some keys => if now - cacheTimestamp cache <? CACHE_TTL then (Some keys, cache) else load
  | None => load
  end.

End Config.

(** ** Callback requests (auth/callback/[provider]/+server.ts, GET and POST)

    [GET] reads [code], [state] and [error] from the query string,
    [POST] from the form, which it has to await first; both then do the
    same. *)

Module CallbackRoute.

Import OAuthState Routes Config.

Section WithRuntime.
Context `{Runtime}.

Definition param (params : gmap string string) (name : string) : option string :=
  match params !! name with
  | Some v => if String.eqb v "" then None else Some v
  | None => None
  end.

Definition request (params : gmap string string) (providerSlug : string)
    (cookies : Cookies) (clientIp : string) (env_SITE_URL host : option string) (now : Z)
  : Prog (Response * Cookies) :=
  match param params "error" with
  | Some errorParam => Ret (Redirect 302 ("/login?error=provider_" ++ errorParam), cookies)
  | None =>
      match param params "code", param params "state" with
      | Some code, Some stateParam =>
          handleCallback providerSlug cookies code stateParam clientIp
            (resolveOrigin env_SITE_URL host) now
      | _, _ => Ret (Redirect 302 "/login?error=missing_params", cookies)
      end
  end.

Definition GET := request.

(** [formData] is what [await request.formData()] gives.  The call
    stands outside any [try]: when it throws, the exception escapes
    before anything has been looked at. *)
Definition POST (formData : Result (gmap string string)) (providerSlug : string)
    (cookies : Cookies) (clientIp : string) (env_SITE_URL host : option string) (now : Z)
  : Prog (Response * Cookies) :=
  match formData with
  | Ok form => request form providerSlug cookies clientIp env_SITE_URL host now
  | Thrown _ => Ret (Uncaught, cookies)
  end.

End WithRuntime.

End CallbackRoute.

(** ** Registration page (register/+page.server.ts, load) *)

Module RegisterPage.

Import OAuthState.

Record PageData := {
  pd_provider : jsval;
  pd_email : jsval;
  pd_displayName : jsval;
  pd_redirectUrl : string
}.

Inductive Loaded :=
| ToLogin
| Page (data : PageData)
| LoadError.

Section WithRuntime.
Context `{Runtime}.

(** [url.searchParams.get(name) || fallback] *)
Definition query_or (query : gmap string string) (name fallback : string) : string :=
  match query !! name with
  | Some v => if String.eqb v "" then fallback else v
  | None => fallback
  end.

(** [load]: [ToLogin] is the redirect to [/login]; [LoadError] is the
    TypeError of reading a property of [null]. *)
Definition load (query : gmap string string) (cookies : Cookies) : Loaded :=
  let provider := query_or query "provider" "" in
  let email := query_or query "email" "" in
  let redirectUrl := query_or query "redirect" "/" in
  match cookie_value cookies "pending_social_register" with
  | None => ToLogin
  | Some pendingData =>
      match JSON_parse pendingData with
      | None => ToLogin
      | Some socialProfile =>
          match get socialProfile "provider" with
          | None => LoadError
          | Some sp_provider =>
              let field := get_opt socialProfile in
              Page {| pd_provider := or sp_provider (JStr provider);
                      pd_email := or (field "email") (JStr email);
                      pd_displayName := or (field "displayName") (JStr "");
                      pd_redirectUrl := redirectUrl |}
          end
      end
  end.

End WithRuntime.

End RegisterPage.

(** ** Logout (api/auth/logout/+server.ts) *)

Module Logout.

Import SessionStore TokenStore OAuthState Auth.

(** Which of the two database calls of one logout throw.  Each stands
    in a [try] of its own whose [catch] is empty; a call that throws
    has left its table as it was. *)
Record Throws := {
  destroySession_throws : bool;
  revokeToken_throws : bool
}.

Definition none_throws : Throws :=
  {| destroySession_throws := false; revokeToken_throws := false |}.

Section WithRuntime.
Context `{Runtime}.

(** [POST]: the session row is deleted and the refresh token is
    revoked, unless the call throws, and the five authentication
    cookies are removed; the answer is always [{ success: true }].
    The request to the backend's own logout touches nothing the web
    application stores. *)
Definition POST (throws : Throws) (cookies : Cookies) (dbNow : Z) (db : Db)
  : Cookies * Db :=
  let db1 :=
    match cookie_value cookies SESSION_COOKIE_NAME with
    | Some sessionId =>
        if destroySession_throws throws then db
        else with_sessions db (destroySession sessionId (sessions db))
    | None => db
    end in
  let db2 :=
    match cookie_value cookies "refresh_token" with
    | Some refreshToken =>
        if revokeToken_throws throws then db1
        else
          with_refresh_tokens db1
            (revokeToken (hashToken refreshToken) dbNow (refresh_tokens db1))
    | None => db1
    end in
  (delete "access_token"
     (delete "damoang_jwt"
        (delete "refresh_token"
           (delete CSRF_COOKIE_NAME (delete SESSION_COOKIE_NAME cookies)))),
   db2).

End WithRuntime.

End Logout.

(** ** Server hooks (hooks.server.ts) and the root layout (+layout.server.ts) *)

Module Hooks.

Import SessionStore Jwt OAuthState Members Auth.

Record LocalsUser := { lu_nickname : string; lu_level : Z }.

(** [event.locals] *)
Record Locals := {
  l_user : option LocalsUser;
  l_accessToken : option string;
  l_sessionId : option string;
  l_csrfToken : option string
}.

Definition anonymous : Locals :=
  {| l_user := None; l_accessToken := None; l_sessionId := None; l_csrfToken := None |}.

Definition CSRF_METHODS : list string := ["POST"; "PUT"; "PATCH"; "DELETE"].

Definition CSRF_EXEMPT_PATHS : list string :=
  ["/plugin/social/"; "/api/v2/"; "/api/auth/login"; "/api/auth/logout"].

(** [s.startsWith(p)] *)
Definition startsWith (s p : string) : bool := String.prefix p s.

Definition staleNames : list string := ["refresh_token"; "damoang_jwt"; "access_token"].

(** Which calls of one run of [authenticateSSR] throw: the session
    read, the member read, the signing of the access token (or the
    import before it), and [cookies.delete] for each name.  All of
    them stand in a [try] whose [catch] is empty; a database call that
    throws has left its table as it was. *)
Record Throws := {
  getSession_throws : bool;
  getMemberById_throws : bool;
  generateAccessToken_throws : bool;
  cookies_delete_throws : string -> bool
}.

Definition none_throws : Throws :=
  {| getSession_throws := false;
     getMemberById_throws := false;
     generateAccessToken_throws := false;
     cookies_delete_throws := fun _ => false |}.

(** One turn of the loop over [staleNames], and the loop. *)
Definition delete_if_set (throws : Throws) (jar : Cookies) (name : string) : Cookies :=
  match cookie_value jar name with
  | Some _ => if cookies_delete_throws throws name then jar else delete name jar
  | None => jar
  end.

Definition delete_stale (throws : Throws) (cookies : Cookies) : Cookies :=
  fold_left (delete_if_set throws) staleNames cookies.

(** The part of a request the CSRF check reads. *)
Record Request := {
  method : string;
  pathname : string;
  x_csrf_token : option string
}.

(** [a !== b] on header values and tokens, [None] being [null]. *)
Definition differ (a b : option string) : bool :=
  match a, b with
  | Some x, Some y => negb (String.eqb x y)
  | None, None => false
  | _, _ => true
  end.

(** The CSRF check of [handle]: whether the request is answered with
    403. *)
Definition csrf_rejected (locals : Locals) (request : Request) : bool :=
  (match l_sessionId locals with
   | Some sessionId => negb (String.eqb sessionId "")
   | None => false
   end
   && Config.has CSRF_METHODS (method request)
   && negb (existsb (startsWith (pathname request)) CSRF_EXEMPT_PATHS)
   && differ (x_csrf_token request) (l_csrfToken locals))%bool.

(** [(locals.user?.level ?? 0) >= 10], as the root layout computes it. *)
Definition isAdmin (locals : Locals) : bool :=
  match l_user locals with
  | Some user => 10 <=? lu_level user
  | None => false
  end.

Section WithRuntime.
Context `{Runtime}.

(** [generateAccessToken(member)]: the member row is handed over as
    it is, so a level or an email that is [NULL] is signed as [null]. *)
Definition member_access_token (member : Member) (now : Z) : string :=
  SignJWT JWT_SECRET
    {| jwt_payload := [("sub", JStr (Members.mb_id member));
                       ("nickname", JStr (Members.mb_nick member));
                       ("level", from_option JNum JNull (Members.mb_level member));
                       ("email", from_option JStr JNull (Members.mb_email member))];
       jwt_iat := epoch now;
       jwt_exp := epoch now + 15 * 60;
       jwt_iss := "angple" |}.

(** [authenticateSSR].  The user, the session id and the CSRF token
    are set before the access token is signed, so they stay set when
    the signing throws; whenever the function does not return from
    inside the [try], it goes on to delete the stale cookies. *)
Definition authenticateSSR (throws : Throws) (cookies : Cookies) (now dbNow : Z) (db : Db)
  : Locals * Cookies * Db :=
  let cleaned := delete_stale throws cookies in
  match cookie_value cookies SESSION_COOKIE_NAME with
  | Some sessionId =>
      if getSession_throws throws then (anonymous, cleaned, db)
      else
        let '(session, tbl) := getSession sessionId now dbNow (sessions db) in
        let db1 := with_sessions db tbl in
        match session with
        | Some session =>
            if getMemberById_throws throws then (anonymous, cleaned, db1)
            else
              match getMemberById (members db) (mbId session) with
              | Some member =>
                  let user :=
                    {| lu_nickname :=
                         if String.eqb (Members.mb_nick member) ""
                         then Members.mb_name member
                         else Members.mb_nick member;
                       lu_level := default 0 (Members.mb_level member) |} in
                  if generateAccessToken_throws throws
                  then ({| l_user := Some user;
                           l_accessToken := None;
                           l_sessionId := Some sessionId;
                           l_csrfToken := Some (csrfToken session) |},
                        cleaned, db1)
                  else ({| l_user := Some user;
                           l_accessToken := Some (member_access_token member now);
                           l_sessionId := Some sessionId;
                           l_csrfToken := Some (csrfToken session) |},
                        cookies, db1)
              | None => (anonymous, cleaned, db1)
              end
        | None => (anonymous, cleaned, db1)
        end
  | None => (anonymous, cleaned, db)
  end.

End WithRuntime.

End Hooks.

(** ** A small runtime to run the definitions on concrete inputs

    Stand-ins with the interface of [Runtime]: an injective tagging in
    place of SHA-256, a dotted text in place of a signed JWT, a JSON
    codec for integers, strings without escapes beyond the quote and the
    backslash, arrays and objects, and unescaped query strings.  The
    general statements below do not depend on it. *)

Module Sample.

Definition dquote : ascii := ascii_of_nat 34.
Definition backslash : ascii := ascii_of_nat 92.

Fixpoint strip_prefix (p s : string) : option string :=
  match p, s with
  | EmptyString, _ => Some s
  | String a p', String b s' => if Ascii.eqb a b then strip_prefix p' s' else None
  | String _ _, EmptyString => None
  end.

Fixpoint split_on (c : ascii) (s : string) : list string :=
  match s with
  | EmptyString => [EmptyString]
  | String a rest =>
      if Ascii.eqb a c then EmptyString :: split_on c rest
      else match split_on c rest with
           | [] => [String a EmptyString]
           | w :: ws => String a w :: ws
           end
  end.

Definition digit_value (a : ascii) : option Z :=
  let n := Z.of_nat (nat_of_ascii a) in
  if (48 <=? n) && (n <=? 57) then Some (n - 48) else None.

Fixpoint digits_value (acc : Z) (s : string) : option Z :=
  match s with
  | EmptyString => Some acc
  | String a rest => d ← digit_value a; digits_value (10 * acc + d) rest
  end.

(** Decimal integers, with an optional minus sign. *)
Definition parse_int (s : string) : option Z :=
  match s with
  | EmptyString => None
  | String a rest =>
      if Ascii.eqb a "-"%char
      then match rest with
           | EmptyString => None
           | _ => Z.opp <$> digits_value 0 rest
           end
      else digits_value 0 s
  end.

(** Leading run of characters that may belong to a number. *)
Fixpoint span_number (s : string) : string * string :=
  match s with
  | EmptyString => (EmptyString, EmptyString)
  | String a rest =>
      if Ascii.eqb a "-"%char || bool_decide (is_Some (digit_value a))
      then let '(n, r) := span_number rest in (String a n, r)
      else (EmptyString, s)
  end.

Fixpoint quote_body (s : string) : string :=
  match s with
  | EmptyString => EmptyString
  | String a rest =>
      if Ascii.eqb a dquote || Ascii.eqb a backslash
      then String backslash (String a (quote_body rest))
      else String a (quote_body rest)
  end.

Definition quote (s : string) : string :=
  String dquote (quote_body s ++ String dquote EmptyString).

(** The text of a string literal, read after its opening quote. *)
Fixpoint unquote_body (s : string) : option (string * string) :=
  match s with
  | EmptyString => None
  | String a rest =>
      if Ascii.eqb a dquote then Some (EmptyString, rest)
      else if Ascii.eqb a backslash then
        match rest with
        | String b rest' => '(t, r) ← unquote_body rest'; Some (String b t, r)
        | EmptyString => None
        end
      else '(t, r) ← unquote_body rest; Some (String a t, r)
  end.

Fixpoint stringify (v : jsval) : string :=
  match v with
  | JUndefined | JNull => "null"
  | JBool true => "true"
  | JBool false => "false"
  | JNum n => pretty n
  | JStr s => quote s
  | JArr items =>
      "[" ++ (fix go (l : list jsval) : string :=
                match l with
                | [] => ""
                | x :: rest =>
                    stringify x ++ match rest with [] => "" | _ => "," ++ go rest end
                end) items ++ "]"
  | JObj fields =>
      "{" ++ (fix go (l : list (string * jsval)) : string :=
                match l with
                | [] => ""
                | (k, JUndefined) :: rest => go rest
                | (k, x) :: rest =>
                    quote k ++ ":" ++ stringify x
                    ++ match rest with [] => "" | _ => "," ++ go rest end
                end) fields ++ "}"
  end.

Fixpoint parse_value (fuel : nat) (s : string) : option (jsval * string) :=
  match fuel with
  | O => None
  | S fuel =>
      match s with
      | EmptyString => None
      | String a rest =>
          if Ascii.eqb a dquote then
            '(t, r) ← unquote_body rest; Some (JStr t, r)
          else if Ascii.eqb a "["%char then
            match rest with
            | String "]"%char r => Some (JArr [], r)
            | _ => parse_items fuel rest []
            end
          else if Ascii.eqb a "{"%char then
            match rest with
            | String "}"%char r => Some (JObj [], r)
            | _ => parse_members fuel rest []
            end
          else
            match strip_prefix "null" s, strip_prefix "true" s, strip_prefix "false" s with
            | Some r, _, _ => Some (JNull, r)
            | _, Some r, _ => Some (JBool true, r)
            | _, _, Some r => Some (JBool false, r)
            | _, _, _ =>
                let '(n, r) := span_number s in
                z ← parse_int n; Some (JNum z, r)
            end
      end
  end
with parse_items (fuel : nat) (s : string) (acc : list jsval) : option (jsval * string) :=
  match fuel with
  | O => None
  | S fuel =>
      '(v, r) ← parse_value fuel s;
      match r with
      | String ","%char r' => parse_items fuel r' (v :: acc)
      | String "]"%char r' => Some (JArr (rev (v :: acc)), r')
      | _ => None
      end
  end
with parse_members (fuel : nat) (s : string) (acc : list (string * jsval))
    : option (jsval * string) :=
  match fuel with
  | O => None
  | S fuel =>
      match s with
      | String a rest =>
          if Ascii.eqb a dquote then
            '(k, r) ← unquote_body rest;
            match r with
            | String ":"%char r1 =>
                '(v, r2) ← parse_value fuel r1;
                match r2 with
                | String ","%char r3 => parse_members fuel r3 ((k, v) :: acc)
                | String "}"%char r3 => Some (JObj (rev ((k, v) :: acc)), r3)
                | _ => None
                end
            | _ => None
            end
          else None
      | EmptyString => None
      end
  end.

Definition parse (s : string) : option jsval :=
  match parse_value (S (String.length s)) s with
  | Some (v, EmptyString) => Some v
  | _ => None
  end.

Definition key_tag (k : JwtKey) : string :=
  match k with JWT_SECRET => "angple-key" | DAMOANG_JWT_SECRET => "damoang-key" end.

(** [key.subject.iat.exp.issuer] *)
Definition sign (k : JwtKey) (c : JwtClaims) : string :=
  key_tag k ++ "." ++ ToString (assoc "sub" (jwt_payload c)) ++ "."
  ++ pretty (jwt_iat c) ++ "." ++ pretty (jwt_exp c) ++ "." ++ jwt_iss c.

Definition verify (k : JwtKey) (issuer : option string) (token : string) (now : Z)
  : option jsval :=
  match split_on "."%char token with
  | [tag; subject; iat; exp; iss] =>
      iat ← parse_int iat;
      exp ← parse_int exp;
      if negb (String.eqb tag (key_tag k)) then None
      else if negb (match issuer with Some i => String.eqb i iss | None => true end)
      then None
      else if exp <=? now / 1000 then None
      else Some (JObj [("sub", JStr subject); ("iat", JNum iat);
                       ("exp", JNum exp); ("iss", JStr iss)])
  | _ => None
  end.

Fixpoint query (entries : list (string * string)) : string :=
  match entries with
  | [] => ""
  | (k, v) :: rest =>
      k ++ "=" ++ v ++ match rest with [] => "" | _ => "&" ++ query rest end
  end.

(** Lower case and white space on text of the ASCII range, which is
    all the worked examples use. *)
Definition lower_ascii (c : ascii) : ascii :=
  let n := nat_of_ascii c in
  if ((65 <=? n)%nat && (n <=? 90)%nat)%bool then ascii_of_nat (n + 32) else c.

Fixpoint lower (s : string) : string :=
  match s with
  | EmptyString => EmptyString
  | String c rest => String (lower_ascii c) (lower rest)
  end.

Definition is_space (c : ascii) : bool :=
  let n := nat_of_ascii c in
  ((n =? 32)%nat || ((9 <=? n)%nat && (n <=? 13)%nat))%bool.

Fixpoint trimStart (s : string) : string :=
  match s with
  | EmptyString => EmptyString
  | String c rest => if is_space c then trimStart rest else s
  end.

Fixpoint trimEnd (s : string) : string :=
  match s with
  | EmptyString => EmptyString
  | String c rest =>
      match trimEnd rest with
      | EmptyString => if is_space c then EmptyString else String c EmptyString
      | r => String c r
      end
  end.

Definition runtime : Runtime :=
  {| sha256_hex := fun s => "sha256:" ++ s;
     SignJWT := sign;
     jwtVerify := verify;
     JSON_parse := parse;
     JSON_stringify := stringify;
     URLSearchParams_toString := query;
     StringToNumber := parse_int;
     toLowerCase := lower;
     trim := fun s => trimEnd (trimStart s) |}.

(** Entropy that hands out the same byte forever. *)
Definition constant_entropy (b : N) : entropy := fun _ => b.

(** A session of member [u1] under the session id [sid-1]. *)
Definition session_row (last_active expires : Z) : SessionStore.SessionRow :=
  {| SessionStore.session_id_hash := "sha256:sid-1";
     SessionStore.mb_id := "u1";
     SessionStore.csrf_token := "csrf-1";
     SessionStore.ip := None;
     SessionStore.user_agent := None;
     SessionStore.created_at := 0;
     SessionStore.last_active_at := last_active;
     SessionStore.expires_at := expires |}.

Definition token_row (hash family : string) (expires : Z) (revoked : option Z)
  : TokenStore.RefreshTokenRow :=
  {| TokenStore.token_hash := hash;
     TokenStore.mb_id := "u1";
     TokenStore.family_id := family;
     TokenStore.ip := None;
     TokenStore.user_agent := None;
     TokenStore.created_at := 0;
     TokenStore.expires_at := expires;
     TokenStore.revoked_at := revoked |}.

Definition member_u1 : Members.Member :=
  {| Members.mb_id := "u1";
     Members.mb_nick := "bob";
     Members.mb_name := "Bob B";
     Members.mb_level := Some 2;
     Members.mb_email := Some "bob@example.org";
     Members.mb_active := true |}.

(** A session of another member. *)
Definition other_session_row : SessionStore.SessionRow :=
  {| SessionStore.session_id_hash := "sha256:sid-2";
     SessionStore.mb_id := "u2";
     SessionStore.csrf_token := "csrf-2";
     SessionStore.ip := None;
     SessionStore.user_agent := None;
     SessionStore.created_at := 0;
     SessionStore.last_active_at := 0;
     SessionStore.expires_at := 9000000000 |}.

(** A stand-in for [generateSocialMbId]: provider and identifier
    joined by an underscore. *)
Definition social_mb_id (provider identifier : jsval) : string :=
  ToString provider ++ "_" ++ ToString identifier.

Definition profile_42 : OAuth.OAuthUserProfile :=
  {| OAuth.provider := OAuth.naver;
     OAuth.identifier := JStr "42";
     OAuth.displayName := JStr "Bob";
     OAuth.email := JStr "";
     OAuth.photoUrl := JStr "";
     OAuth.profileUrl := JStr "" |}.

(** Collaborators that always answer; the nickname verdict and the
    id-collision verdict are the two parameters. *)
Definition answers (nicknameValid idTaken : bool) (X : Type) (e : Routes.Ev X) : X :=
  match e in Routes.Ev X return X with
  | Routes.GetProvider _ _ => Routes.Ok tt
  | Routes.ExchangeCode _ _ _ =>
      Routes.Ok {| OAuth.access_token := "access-1"; OAuth.id_token := None |}
  | Routes.GetUserProfile _ _ _ => Routes.Ok profile_42
  | Routes.FindSocialProfile _ _ => Routes.Ok None
  | Routes.FindMemberByEmail _ => Routes.Ok None
  | Routes.GetMemberById _ => Routes.Ok (Some member_u1)
  | Routes.UpsertSocialProfile _ _ _ => Routes.Ok tt
  | Routes.UpdateLoginTimestamp _ _ => Routes.Ok tt
  | Routes.CreateSession _ _ =>
      Routes.Ok {| Routes.t_sessionId := "sid-1"; Routes.t_csrfToken := "csrf-1";
                   Routes.t_expiresAt := 2592000000 |}
  | Routes.GenerateRefreshToken _ _ => Routes.Ok ("token-1", "family-1")
  | Routes.CheckRateLimit _ _ _ _ =>
      Routes.Ok {| Routes.allowed := true; Routes.retryAfter := None |}
  | Routes.RecordAttempt _ _ => Routes.Ok tt
  | Routes.VerifyTurnstile _ _ => Routes.Ok true
  | Routes.ValidateNickname _ =>
      Routes.Ok {| Routes.valid := nicknameValid;
                   Routes.error := if nicknameValid then "" else "nickname taken" |}
  | Routes.IsMbIdTaken _ => Routes.Ok idTaken
  | Routes.CreateMember _ => Routes.Ok tt
  end.

(** Collaborators of a callback: the social link and the member row
    they know, and whether the code exchange throws (a value with or
    without a [status]); everything else is answered as by [answers]. *)
Definition callback_answers (link : option Routes.SocialProfileRow)
    (member : option Members.Member) (exchangeThrows : option bool)
    (X : Type) (e : Routes.Ev X) : X :=
  match e in Routes.Ev X0 return Routes.Ev X0 -> X0 with
  | Routes.ExchangeCode _ _ _ => fun e0 =>
      match exchangeThrows with
      | Some hasStatus => Routes.Thrown hasStatus
      | None => answers true false _ e0
      end
  | Routes.FindSocialProfile _ _ => fun _ => Routes.Ok link
  | Routes.GetMemberById _ => fun _ => Routes.Ok member
  | _ => fun e0 => answers true false _ e0
  end e.

(** The registration form of a visitor who typed the nickname [bob]
    with blanks around it, and the cookie staged by the callback. *)
Definition register_form : gmap string string :=
  {[ "nickname" := "  bob ";
     "agree_terms" := "on";
     "agree_privacy" := "on";
     "cf-turnstile-response" := "captcha-1" ]}.

Definition register_cookies : gmap string string :=
  {[ "pending_social_register" :=
       stringify (Routes.pending_registration OAuth.naver profile_42) ]}.

End Sample.

(** * Properties *)

(** ** Session store *)

Section SessionStoreProperties.
Context `{Runtime}.
Import SessionStore.

Lemma has_hash_true h r : has_hash h r = true <-> session_id_hash r = h.
Proof. unfold has_hash. apply String.eqb_eq. Qed.

Lemma select_session_delete h tbl :
  select_session h (delete_session h tbl) = None.
Proof.
  unfold select_session, delete_session.
  induction tbl as [|r tbl IH]; simpl; [reflexivity|].
  destruct (has_hash h r) eqn:E; simpl; [exact IH|].
  rewrite E. exact IH.
Qed.

Lemma delete_session_keeps h tbl r :
  In r (delete_session h tbl) <-> In r tbl /\ session_id_hash r <> h.
Proof.
  unfold delete_session. rewrite filter_In, negb_true_iff.
  rewrite <- has_hash_true. destruct (has_hash h r); intuition congruence.
Qed.

Lemma select_session_update h f tbl :
  (forall r, session_id_hash (f r) = session_id_hash r) ->
  select_session h (update_session h f tbl) = f <$> select_session h tbl.
Proof.
  intros Hf. unfold select_session, update_session.
  induction tbl as [|r tbl IH]; simpl; [reflexivity|].
  destruct (has_hash h r) eqn:E.
  - assert (has_hash h (f r) = true) as ->; [|reflexivity].
    apply has_hash_true. rewrite Hf. now apply has_hash_true.
  - rewrite E. exact IH.
Qed.

Lemma update_session_other h f tbl r :
  session_id_hash r <> h -> In r tbl -> In r (update_session h f tbl).
Proof.
  intros Hne Hin. unfold update_session. apply in_map_iff. exists r. split; [|exact Hin].
  destruct (has_hash h r) eqn:E; [|reflexivity].
  apply has_hash_true in E. contradiction.
Qed.

(** C4. A session whose stored [expires_at] lies before the current
    time is refused by [getSession], every row stored under its hash
    is deleted (the rows of other sessions stay), and looking the same
    session id up again finds nothing, whatever the time. *)
Theorem getSession_expired_is_deleted sessionId now dbNow tbl row :
  select_session (hashSessionId sessionId) tbl = Some row ->
  expires_at row < now ->
  let tbl' := delete_session (hashSessionId sessionId) tbl in
  getSession sessionId now dbNow tbl = (None, tbl')
  /\ select_session (hashSessionId sessionId) tbl' = None
  /\ (forall r, In r tbl' <-> In r tbl /\ session_id_hash r <> hashSessionId sessionId)
  /\ (forall now' dbNow', getSession sessionId now' dbNow' tbl' = (None, tbl')).
Proof.
  intros Hsel Hexp tbl'. subst tbl'.
  split; [|split; [|split]].
  - unfold getSession. rewrite Hsel.
    destruct (Z.gtb_spec now (expires_at row)) as [_|Hle]; [reflexivity|lia].
  - apply select_session_delete.
  - intros r. apply delete_session_keeps.
  - intros now' dbNow'. unfold getSession.
    rewrite select_session_delete. reflexivity.
Qed.

(** C5. For a session that has not expired, [getSession] answers with
    the session id it was given, the stored member id and CSRF token,
    and touches the stored row according to how long the session has
    been idle: more than 15 days, [expires_at] becomes now + 30 days
    and [last_active_at] is bumped; more than 5 minutes (and at most
    15 days), only [last_active_at] is bumped; otherwise the table is
    left as it is. *)
Theorem getSession_sliding_window sessionId now dbNow tbl row :
  select_session (hashSessionId sessionId) tbl = Some row ->
  now <= expires_at row ->
  exists data tbl',
    getSession sessionId now dbNow tbl = (Some data, tbl')
    /\ SessionStore.sessionId data = sessionId
    /\ mbId data = mb_id row
    /\ csrfToken data = csrf_token row
    /\ (15 * 24 * 60 * 60 * 1000 < now - last_active_at row ->
        exists row',
          select_session (hashSessionId sessionId) tbl' = Some row'
          /\ expires_at row' = now + 30 * 24 * 60 * 60 * 1000
          /\ last_active_at row' = dbNow
          /\ row' = set_last_active_expires dbNow (now + 30 * 24 * 60 * 60 * 1000) row)
    /\ (5 * 60 * 1000 < now - last_active_at row <= 15 * 24 * 60 * 60 * 1000 ->
        exists row',
          select_session (hashSessionId sessionId) tbl' = Some row'
          /\ expires_at row' = expires_at row
          /\ last_active_at row' = dbNow
          /\ row' = set_last_active dbNow row)
    /\ (now - last_active_at row <= 5 * 60 * 1000 -> tbl' = tbl)
    /\ (forall r, session_id_hash r <> hashSessionId sessionId -> In r tbl -> In r tbl').
Proof.
  intros Hsel Hlive. unfold getSession. rewrite Hsel.
  destruct (Z.gtb_spec now (expires_at row)) as [Hgt|_]; [lia|].
  eexists _, _. split; [reflexivity|]. simpl.
  unfold SESSION_REFRESH_THRESHOLD_MS, SESSION_MAX_AGE_MS.
  split; [reflexivity|]. split; [reflexivity|]. split; [reflexivity|].
  split; [|split; [|split]].
  - intros Hidle.
    destruct (Z.gtb_spec (now - last_active_at row) (15 * 24 * 60 * 60 * 1000)); [|lia].
    eexists. rewrite select_session_update by reflexivity. rewrite Hsel. simpl.
    repeat split; reflexivity.
  - intros [Hlo Hhi].
    destruct (Z.gtb_spec (now - last_active_at row) (15 * 24 * 60 * 60 * 1000)); [lia|].
    destruct (Z.gtb_spec (now - last_active_at row) (5 * 60 * 1000)); [|lia].
    eexists. rewrite select_session_update by reflexivity. rewrite Hsel. simpl.
    repeat split; reflexivity.
  - intros Hidle.
    destruct (Z.gtb_spec (now - last_active_at row) (15 * 24 * 60 * 60 * 1000)); [lia|].
    destruct (Z.gtb_spec (now - last_active_at row) (5 * 60 * 1000)); [lia|].
    reflexivity.
  - intros r Hne Hin.
    destruct (_ >? _); [now apply update_session_other|].
    destruct (_ >? _); [now apply update_session_other|exact Hin].
Qed.

End SessionStoreProperties.

(** On a table holding an expired session and a live one, the expired
    one is refused and removed. *)
Lemma getSession_expired_is_deleted_witness :
  let tbl := [Sample.session_row 0 1000; Sample.other_session_row] in
  SessionStore.select_session (SessionStore.hashSessionId (H:=Sample.runtime) "sid-1") tbl
    = Some (Sample.session_row 0 1000)
  /\ SessionStore.expires_at (Sample.session_row 0 1000) < 2000
  /\ SessionStore.getSession (H:=Sample.runtime) "sid-1" 2000 2001 tbl
      = (None, [Sample.other_session_row]).
Proof.
  intros tbl.
  split; [reflexivity|]. split; [simpl; lia|].
  apply (getSession_expired_is_deleted (H:=Sample.runtime) "sid-1" 2000 2001 tbl
           (Sample.session_row 0 1000)); [reflexivity | simpl; lia].
Defined.

(** A session idle for 16 days gets its expiry pushed to now + 30 days. *)
Lemma getSession_sliding_window_witness :
  let now := 16 * 24 * 60 * 60 * 1000 in
  let row := Sample.session_row 0 (30 * 24 * 60 * 60 * 1000) in
  let tbl := [row; Sample.other_session_row] in
  SessionStore.select_session (SessionStore.hashSessionId (H:=Sample.runtime) "sid-1") tbl
    = Some row
  /\ now <= SessionStore.expires_at row
  /\ exists data tbl',
       SessionStore.getSession (H:=Sample.runtime) "sid-1" now (now + 1) tbl
         = (Some data, tbl')
       /\ SessionStore.csrfToken data = "csrf-1"
       /\ SessionStore.mbId data = "u1".
Proof.
  intros now row tbl.
  split; [reflexivity|]. split; [vm_compute; discriminate|].
  destruct (getSession_sliding_window (H:=Sample.runtime) "sid-1" now (now + 1) tbl row)
    as (data & tbl' & Hget & _ & Hmb & Hcsrf & _); [reflexivity | vm_compute; discriminate |].
  exists data, tbl'. split; [exact Hget|]. split; [exact Hcsrf | exact Hmb].
Defined.

(** ** Refresh-token store *)

Section TokenStoreProperties.
Context `{Runtime}.
Import TokenStore.

Lemma is_revoked_true r : is_revoked r = true <-> revoked_at r <> None.
Proof. unfold is_revoked. destruct (revoked_at r); split; congruence. Qed.

Lemma revoke_where_length col key t tbl :
  length (revoke_where col key t tbl) = length tbl.
Proof. unfold revoke_where. apply length_map. Qed.

(** After a revocation no row of the revoked key is left unrevoked. *)
Lemma revoke_where_revoked col key t tbl r :
  (forall r', col (set_revoked t r') = col r') ->
  In r (revoke_where col key t tbl) -> col r = key -> revoked_at r <> None.
Proof.
  intros Hcol Hin Hkey. unfold revoke_where in Hin.
  apply in_map_iff in Hin as (r0 & Hr & _).
  destruct (String.eqb (col r0) key) eqn:E; simpl in Hr.
  - destruct (is_revoked r0) eqn:R; simpl in Hr; subst r.
    + now apply is_revoked_true.
    + simpl. discriminate.
  - subst r0. apply String.eqb_neq in E. contradiction.
Qed.

Lemma revoke_where_hit col key t tbl r :
  In r tbl -> col r = key -> revoked_at r = None ->
  In (set_revoked t r) (revoke_where col key t tbl).
Proof.
  intros Hin Hkey Hnull. unfold revoke_where. apply in_map_iff. exists r.
  split; [|exact Hin].
  apply String.eqb_eq in Hkey. rewrite Hkey. unfold is_revoked. now rewrite Hnull.
Qed.

Lemma revoke_where_miss col key t tbl r :
  In r tbl -> col r <> key \/ revoked_at r <> None ->
  In r (revoke_where col key t tbl).
Proof.
  intros Hin Hmiss. unfold revoke_where. apply in_map_iff. exists r.
  split; [|exact Hin].
  destruct Hmiss as [Hne|Hrev].
  - apply String.eqb_neq in Hne. now rewrite Hne.
  - apply is_revoked_true in Hrev. rewrite Hrev. now rewrite andb_false_r.
Qed.

(** [findValidToken] goes by the first row stored under the hash.  On
    a hash with no row it answers [None] and leaves the table alone.
    On a hash whose first row carries a [revoked_at], whatever that
    row's [expires_at] is (the reuse check comes first), it answers
    [None] and returns the table in which every unrevoked row of that
    row's family has [revoked_at] set to the database time, and every
    other row is as before; no row of the family is left unrevoked. *)
Lemma findValidToken_reuse_revokes_family tokenHash now dbNow tbl :
  (select_token tokenHash tbl = None ->
   findValidToken tokenHash now dbNow tbl = (None, tbl))
  /\ (forall row t,
        select_token tokenHash tbl = Some row ->
        revoked_at row = Some t ->
        let tbl' :=
          map (fun r =>
                 if String.eqb (family_id r) (family_id row) && negb (is_revoked r)
                 then set_revoked dbNow r else r) tbl in
        findValidToken tokenHash now dbNow tbl = (None, tbl')
        /\ (forall r, In r tbl' -> family_id r = family_id row -> revoked_at r <> None)
        /\ (forall r, In r tbl -> family_id r = family_id row -> revoked_at r = None ->
                      In (set_revoked dbNow r) tbl')
        /\ (forall r, In r tbl ->
                      family_id r <> family_id row \/ revoked_at r <> None ->
                      In r tbl')).
Proof.
  split.
  - intros Hnone. unfold findValidToken. now rewrite Hnone.
  - intros row t Hsel Hrev tbl'.
    split; [|split; [|split]].
    + unfold findValidToken. rewrite Hsel, Hrev. reflexivity.
    + intros r. apply (revoke_where_revoked family_id). reflexivity.
    + intros r. apply (revoke_where_hit family_id).
    + intros r. apply (revoke_where_miss family_id).
Qed.

End TokenStoreProperties.

(** A token rotated away at time 5 and long expired is presented again:
    its family [fa] is revoked at the database time 1001, family [fb]
    is not touched. *)
Lemma findValidToken_reuse_revokes_family_witness :
  let reused := Sample.token_row "h1" "fa" 100 (Some 5) in
  let tbl := [reused; Sample.token_row "h2" "fa" 5000 None;
              Sample.token_row "h3" "fb" 5000 None] in
  TokenStore.select_token "h1" tbl = Some reused
  /\ TokenStore.revoked_at reused = Some 5
  /\ TokenStore.findValidToken "h1" 1000 1001 tbl
      = (None, [reused; Sample.token_row "h2" "fa" 5000 (Some 1001);
                Sample.token_row "h3" "fb" 5000 None])
  /\ TokenStore.findValidToken "h9" 1000 1001 tbl = (None, tbl).
Proof.
  intros reused tbl.
  split; [reflexivity|]. split; [reflexivity|]. split.
  - apply (proj2 (findValidToken_reuse_revokes_family "h1" 1000 1001 tbl)
             reused 5); reflexivity.
  - apply (proj1 (findValidToken_reuse_revokes_family "h9" 1000 1001 tbl)).
    reflexivity.
Defined.

(** ** OAuth state cookie *)

Section OAuthStateProperties.
Context `{Runtime}.
Import OAuth OAuthState.

Lemma cookie_value_delete (cookies : Cookies) name :
  cookie_value (delete name cookies) name = None.
Proof. unfold cookie_value. now rewrite lookup_delete_eq. Qed.

Lemma cookie_value_insert (cookies : Cookies) name v :
  v <> "" -> cookie_value (<[name := v]> cookies) name = Some v.
Proof.
  intros Hv. unfold cookie_value. rewrite lookup_insert_eq.
  apply String.eqb_neq in Hv. now rewrite Hv.
Qed.

Lemma strict_eq_str_true v s : strict_eq_str v s = true <-> v = JStr s.
Proof.
  destruct v; simpl; try (split; [discriminate|congruence]).
  rewrite String.eqb_eq. split; congruence.
Qed.

(** A validation that fails leaves the jar as it found it. *)
Lemma validateOAuthState_failure_keeps (cookies : Cookies) state now :
  (validateOAuthState cookies state now).1 = None ->
  (validateOAuthState cookies state now).2 = cookies.
Proof.
  unfold validateOAuthState.
  destruct (cookie_value cookies STATE_COOKIE_NAME); [|reflexivity].
  destruct (JSON_parse s); [|reflexivity].
  destruct (get j "state"); [|reflexivity].
  destruct (negb (strict_eq_str j0 state)); [reflexivity|].
  destruct (get j "timestamp"); [|reflexivity].
  destruct (state_expired now j1); [reflexivity|].
  simpl. discriminate.
Qed.

(** A validation that succeeds has matched the presented string, has
    found the state within its lifetime, and has deleted the cookie. *)
Lemma validateOAuthState_success (cookies cookies' : Cookies) state now data :
  validateOAuthState cookies state now = (Some data, cookies') ->
  cookies' = delete STATE_COOKIE_NAME cookies
  /\ get data "state" = Some (JStr state)
  /\ exists raw, cookie_value cookies STATE_COOKIE_NAME = Some raw
                 /\ JSON_parse raw = Some data.
Proof.
  unfold validateOAuthState.
  destruct (cookie_value cookies STATE_COOKIE_NAME) as [raw|] eqn:Hraw; [|discriminate].
  destruct (JSON_parse raw) as [d|] eqn:Hparse; [|discriminate].
  destruct (get d "state") as [ds|] eqn:Hstate; [|discriminate].
  destruct (strict_eq_str ds state) eqn:Heq; simpl; [|discriminate].
  destruct (get d "timestamp"); [|discriminate].
  destruct (state_expired now j); [discriminate|].
  intros [= <- <-]. apply strict_eq_str_true in Heq. subst ds.
  split; [reflexivity|]. split; [exact Hstate|]. exists raw. now split.
Qed.

(** Once the cookie is gone no string validates. *)
Lemma validateOAuthState_after_delete (cookies : Cookies) state now :
  validateOAuthState (delete STATE_COOKIE_NAME cookies) state now
  = (None, delete STATE_COOKIE_NAME cookies).
Proof. unfold validateOAuthState. now rewrite cookie_value_delete. Qed.

Lemma state_data_state state provider redirectUrl timestamp :
  get (state_data state provider redirectUrl timestamp) "state" = Some (JStr state).
Proof. reflexivity. Qed.

Lemma state_data_timestamp state provider redirectUrl timestamp :
  get (state_data state provider redirectUrl timestamp) "timestamp"
  = Some (JNum timestamp).
Proof. reflexivity. Qed.


End OAuthStateProperties.


(** ** OAuth callback *)

Section CallbackProperties.
Context `{Runtime}.
Import OAuth OAuthState Routes.

Lemma Run_Ret_inv {A} (a : A) tr r : Run (Ret a) tr r -> tr = [] /\ r = a.
Proof. intros HR. inversion HR. now split. Qed.

(** C6. When the provider named in the callback path is not the
    provider recorded in the validated state, [handleCallback] is the
    redirect to [/login?error=provider_mismatch] and nothing else: it
    makes no call at all (no provider lookup, code exchange, profile
    fetch, member resolution or session creation). *)
Theorem handleCallback_provider_mismatch providerSlug (cookies cookies' : Cookies)
    code stateParam clientIp origin now providerName stateData :
  normalizeProviderName providerSlug = Some providerName ->
  validateOAuthState cookies stateParam now = (Some stateData, cookies') ->
  get_opt stateData "provider" <> JStr (provider_name providerName) ->
  handleCallback providerSlug cookies code stateParam clientIp origin now
  = Ret (Redirect 302 "/login?error=provider_mismatch", cookies')
  /\ forall tr r,
       Run (handleCallback providerSlug cookies code stateParam clientIp origin now) tr r ->
       tr = [] /\ r = (Redirect 302 "/login?error=provider_mismatch", cookies').
Proof.
  intros Hname Hstate Hdiff.
  assert (Heq : handleCallback providerSlug cookies code stateParam clientIp origin now
                = Ret (Redirect 302 "/login?error=provider_mismatch", cookies')).
  { unfold handleCallback. rewrite Hname, Hstate.
    destruct (strict_eq_str (get_opt stateData "provider") (provider_name providerName))
      eqn:E; [|reflexivity].
    apply strict_eq_str_true in E. contradiction. }
  split; [exact Heq|].
  intros tr r HR. rewrite Heq in HR. now apply Run_Ret_inv.
Qed.

(** C10. A callback that ends in the provider-mismatch redirect has
    already validated the state, and validating deleted the state
    cookie before the providers were compared: the jar the handler
    leaves behind has no state cookie, and no string validates against
    it at any later time. *)
Theorem handleCallback_provider_mismatch_consumes_state providerSlug
    (cookies cookies' : Cookies) code stateParam clientIp origin now :
  handleCallback providerSlug cookies code stateParam clientIp origin now
  = Ret (Redirect 302 "/login?error=provider_mismatch", cookies') ->
  (exists stateData, validateOAuthState cookies stateParam now = (Some stateData, cookies'))
  /\ cookies' = delete STATE_COOKIE_NAME cookies
  /\ cookies' !! STATE_COOKIE_NAME = None
  /\ forall state later,
       validateOAuthState cookies' state later = (None, cookies').
Proof.
  unfold handleCallback.
  destruct (normalizeProviderName providerSlug) as [providerName|]; [|discriminate].
  destruct (validateOAuthState cookies stateParam now) as [[stateData|] c] eqn:Hstate;
    [|discriminate].
  destruct (negb (strict_eq_str (get_opt stateData "provider") (provider_name providerName)));
    [|discriminate].
  intros [= <-].
  apply validateOAuthState_success in Hstate as Hdel. destruct Hdel as [-> _].
  split; [now exists stateData|]. split; [reflexivity|].
  split; [apply lookup_delete_eq|].
  intros state later. apply validateOAuthState_after_delete.
Qed.

End CallbackProperties.

(** A login started with Naver whose callback arrives on the Kakao
    path: the state matches, the providers do not. *)
Lemma handleCallback_provider_mismatch_witness :
  let issued := OAuthState.createOAuthState (H:=Sample.runtime) ∅ OAuth.naver "/free"
                  (Sample.constant_entropy 171) 1000 in
  let data := OAuthState.state_data issued.1 OAuth.naver "/free" 1000 in
  OAuth.normalizeProviderName (H:=Sample.runtime) "Kakao" = Some OAuth.kakao
  /\ OAuthState.validateOAuthState (H:=Sample.runtime) issued.2 issued.1 2000
     = (Some data, delete OAuthState.STATE_COOKIE_NAME issued.2)
  /\ get_opt data "provider" <> JStr (OAuth.provider_name OAuth.kakao)
  /\ Routes.handleCallback (H:=Sample.runtime) "Kakao" issued.2 "code-1" issued.1
       "203.0.113.7" "https://damoang.net" 2000
     = Routes.Ret (Routes.Redirect 302 "/login?error=provider_mismatch",
                   delete OAuthState.STATE_COOKIE_NAME issued.2).
Proof.
  intros issued data.
  assert (Hname : OAuth.normalizeProviderName (H:=Sample.runtime) "Kakao"
                  = Some OAuth.kakao) by reflexivity.
  assert (Hstate : OAuthState.validateOAuthState (H:=Sample.runtime) issued.2 issued.1 2000
                   = (Some data, delete OAuthState.STATE_COOKIE_NAME issued.2))
    by (vm_compute; reflexivity).
  assert (Hdiff : get_opt data "provider" <> JStr (OAuth.provider_name OAuth.kakao))
    by (vm_compute; discriminate).
  split; [exact Hname|]. split; [exact Hstate|]. split; [exact Hdiff|].
  exact (proj1 (handleCallback_provider_mismatch (H:=Sample.runtime) "Kakao" issued.2 _
                  "code-1" issued.1 "203.0.113.7" "https://damoang.net" 2000
                  OAuth.kakao data Hname Hstate Hdiff)).
Defined.

(** After that callback the same state string no longer validates. *)
Lemma handleCallback_provider_mismatch_consumes_state_witness :
  let issued := OAuthState.createOAuthState (H:=Sample.runtime) ∅ OAuth.naver "/free"
                  (Sample.constant_entropy 171) 1000 in
  let left := delete OAuthState.STATE_COOKIE_NAME issued.2 in
  Routes.handleCallback (H:=Sample.runtime) "Kakao" issued.2 "code-1" issued.1
    "203.0.113.7" "https://damoang.net" 2000
  = Routes.Ret (Routes.Redirect 302 "/login?error=provider_mismatch", left)
  /\ OAuthState.validateOAuthState (H:=Sample.runtime) left issued.1 2001 = (None, left).
Proof.
  intros issued left.
  assert (Hcall : Routes.handleCallback (H:=Sample.runtime) "Kakao" issued.2 "code-1"
                    issued.1 "203.0.113.7" "https://damoang.net" 2000
                  = Routes.Ret (Routes.Redirect 302 "/login?error=provider_mismatch", left))
    by (vm_compute; reflexivity).
  split; [exact Hcall|].
  destruct (handleCallback_provider_mismatch_consumes_state (H:=Sample.runtime) "Kakao"
              issued.2 left "code-1" issued.1 "203.0.113.7" "https://damoang.net" 2000 Hcall)
    as (_ & _ & _ & Hnever).
  exact (Hnever issued.1 2001).
Defined.

(** ** Provider adapters *)

Section ProviderProperties.
Import OAuth.

(** C7, as the adapters have it. On a payload that carries nothing but
    the provider-scoped identifier, every adapter's [parseUserProfile]
    returns a profile (it does not throw) whose [displayName], [email]
    and [photoUrl] are the empty string.  [profileUrl] is the empty
    string for every adapter but Facebook's, which builds it from the
    identifier. *)
Theorem parseUserProfile_minimal_payload p id :
  exists profile,
    parseUserProfile p (minimal_payload p id) = Some profile
    /\ provider profile = p
    /\ identifier profile
       = match p with
         | kakao => JStr (ToString id)
         | payco => or id (JStr "")
         | _ => id
         end
    /\ displayName profile = JStr ""
    /\ email profile = JStr ""
    /\ photoUrl profile = JStr ""
    /\ profileUrl profile
       = match p with
         | facebook => JStr ("https://www.facebook.com/" ++ ToString id)
         | _ => JStr ""
         end.
Proof.
  destruct p; simpl; eexists; (split; [reflexivity|]); simpl; repeat split; reflexivity.
Qed.

(** C7 as stated fails for Facebook: with only [id] in the payload the
    profile URL is not empty. *)
Lemma parseUserProfile_facebook_profileUrl_not_empty :
  exists profile,
    parseUserProfile facebook (minimal_payload facebook (JStr "42")) = Some profile
    /\ profileUrl profile = JStr "https://www.facebook.com/42"
    /\ profileUrl profile <> JStr "".
Proof.
  eexists. split; [reflexivity|]. simpl. split; [reflexivity|discriminate].
Qed.

End ProviderProperties.

(** ** Request authentication *)

Section AuthProperties.
Context `{Runtime}.
Import SessionStore TokenStore Jwt OAuthState Members Auth.

Lemma bySessionCookie_ignores_tokens cookies now dbNow db tokens :
  (bySessionCookie cookies now dbNow (with_refresh_tokens db tokens)).1
  = (bySessionCookie cookies now dbNow db).1
  /\ members (bySessionCookie cookies now dbNow (with_refresh_tokens db tokens)).2
     = members db.
Proof.
  unfold bySessionCookie. simpl.
  destruct (cookie_value cookies SESSION_COOKIE_NAME); [|now split].
  destruct (getSession s now dbNow (sessions db)). now split.
Qed.

(** C9. When neither the session cookie nor the [access_token] cookie
    authenticates the request, a [refresh_token] cookie that
    [verifyToken] accepts (signature, issuer, expiry) and whose subject
    is the id of an existing member makes [getAuthUser] return that
    member (its id, its nickname or else its name, its level or else
    0, its e-mail address or else ['']), whatever the refresh-token
    table holds: in particular after [revokeToken] on the token's hash
    and after [revokeTokenFamily] on any family. *)
Theorem getAuthUser_refresh_cookie_ignores_revocation cookies now dbNow db
    refreshToken payload member :
  (bySessionCookie cookies now dbNow db).1 = None ->
  byAccessToken cookies now = None ->
  cookie_value cookies "refresh_token" = Some refreshToken ->
  verifyToken refreshToken now = Some payload ->
  truthy (sub payload) = true ->
  member_of_subject db (sub payload) = Some member ->
  let user :=
    {| mb_id := JStr (Members.mb_id member);
       mb_name := JStr (if String.eqb (Members.mb_nick member) ""
                        then Members.mb_name member else Members.mb_nick member);
       mb_level := JNum (default 0 (Members.mb_level member));
       mb_email := JStr (default "" (Members.mb_email member)) |} in
  (forall tokens,
     (getAuthUser cookies now dbNow (with_refresh_tokens db tokens)).1 = Some user)
  /\ (forall t,
        (getAuthUser cookies now dbNow
           (with_refresh_tokens db
              (revokeToken (hashToken refreshToken) t (refresh_tokens db)))).1
        = Some user)
  /\ (forall familyId t,
        (getAuthUser cookies now dbNow
           (with_refresh_tokens db (revokeTokenFamily familyId t (refresh_tokens db)))).1
        = Some user).
Proof.
  intros Hsession Haccess Hcookie Hverify Hsub Hmember user.
  assert (Hall : forall tokens,
             (getAuthUser cookies now dbNow (with_refresh_tokens db tokens)).1
             = Some user).
  { intros tokens. unfold getAuthUser.
    destruct (bySessionCookie_ignores_tokens cookies now dbNow db tokens) as [H1 H2].
    destruct (bySessionCookie cookies now dbNow (with_refresh_tokens db tokens))
      as [m db1] eqn:E. simpl in H1, H2.
    rewrite Hsession in H1. subst m. rewrite Haccess.
    assert (Hrefresh : byRefreshToken cookies now db1 = Some member).
    { unfold byRefreshToken. rewrite Hcookie. simpl. rewrite Hverify. simpl.
      rewrite Hsub. unfold member_of_subject in *. now rewrite H2. }
    now rewrite Hrefresh. }
  split; [exact Hall|]. split; intros; apply Hall.
Qed.

End AuthProperties.

(** Member [u1] logs in, the token family is revoked, and the revoked
    token is presented as the only cookie: the member is authenticated. *)
Lemma getAuthUser_refresh_cookie_ignores_revocation_witness :
  let login := Jwt.generateRefreshToken (H:=Sample.runtime) "u1" None
                 (Sample.constant_entropy 1) 5000 5001 [] in
  let token := login.1.1 in
  let revoked := TokenStore.revokeTokenFamily login.1.2 6000 login.2 in
  let cookies : gmap string string := {[ "refresh_token" := token ]} in
  let db := {| Auth.sessions := []; Auth.refresh_tokens := revoked;
               Auth.members := {[ "u1" := Sample.member_u1 ]} |} in
  (TokenStore.is_revoked <$> revoked) = [true]
  /\ (Auth.getAuthUser (H:=Sample.runtime) cookies 7000 7001 db).1
     = Some {| Auth.mb_id := JStr "u1"; Auth.mb_name := JStr "bob";
               Auth.mb_level := JNum 2; Auth.mb_email := JStr "bob@example.org" |}.
Proof.
  intros login token revoked cookies db.
  split; [reflexivity|].
  destruct (fun payload Hv Hs Hm =>
              getAuthUser_refresh_cookie_ignores_revocation (H:=Sample.runtime)
                cookies 7000 7001 db token payload Sample.member_u1
                eq_refl eq_refl eq_refl Hv Hs Hm) with
      (payload := {| Jwt.sub := JStr "u1"; Jwt.nickname := JStr "";
                     Jwt.level := JNum 0; Jwt.email := JStr "" |})
    as [Hall _]; [vm_compute; reflexivity | reflexivity | reflexivity |].
  exact (Hall revoked).
Defined.

(** ** Social registration *)

Section RegisterProperties.
Context `{Runtime}.
Variable generateSocialMbId : jsval -> jsval -> string.
Import OAuthState Routes.

Lemma get_Some_get_opt v k x : get v k = Some x -> x = get_opt v k.
Proof. destruct v; simpl; congruence. Qed.

Lemma always_Run {A} (p : Prog A) tr a :
  Run p tr a -> forall P : list Obs -> A -> Prop, always P p -> P tr a.
Proof.
  induction 1 as [a|X e k x tr a _ IH]; intros P HP; simpl in HP.
  - exact HP.
  - apply (IH (fun tr a => P (obs e x :: tr) a)). apply HP.
Qed.

Ltac register_step :=
  match goal with
  | |- always _ (call _ _ _) =>
      unfold call at 1; cbn [always]; intros [?|[|]]; cbv beta iota
  | |- always _ (if ?b then _ else _) => destruct b eqn:?
  | |- always _ (match ?x with _ => _ end) => destruct x eqn:?
  | |- always _ (let _ := _ in _) => cbv zeta
  end.

Lemma register_action_always form (cookies : Cookies) clientIp e :
  always
    (fun tr (a : Response * Cookies) =>
       (forall m, m ∈ omap created_member tr ->
          nm_mb_nick m = form_nickname form
          /\ nm_mb_name m = form_nickname form
          /\ exists pending socialProfile,
               cookie_value cookies "pending_social_register" = Some pending
               /\ JSON_parse pending = Some socialProfile
               /\ let mbId0 := generateSocialMbId (get_opt socialProfile "provider")
                                 (get_opt socialProfile "identifier") in
                  (omap collision_verdict tr = [(mbId0, Ok false)] /\ nm_mb_id m = mbId0)
                  \/ (omap collision_verdict tr = [(mbId0, Ok true)]
                      /\ nm_mb_id m = mbId0 ++ "_" ++ hex (randomBytes e 4)))
       /\ (forall n err,
             (n, Ok {| valid := false; error := err |}) ∈ omap nickname_verdict tr ->
             n = form_nickname form
             /\ omap created_member tr = []
             /\ omap collision_verdict tr = []
             /\ a = (Fail 400 (NicknameRejected err) (form_nickname form), cookies))
       /\ (forall mbId0 taken,
             (mbId0, Ok taken) ∈ omap collision_verdict tr ->
             exists m,
               omap created_member tr = [m]
               /\ nm_mb_id m = (if taken : bool
                                then mbId0 ++ "_" ++ hex (randomBytes e 4) else mbId0)
               /\ nm_mb_nick m = form_nickname form
               /\ nm_mb_name m = form_nickname form))
    (register_action generateSocialMbId form cookies clientIp e).
Proof.
  unfold register_action. cbv zeta.
  repeat register_step.
  all: cbn [always omap list_omap created_member nickname_verdict collision_verdict].
  all: split; [intros created Hcreated|split; [intros nick err Hnick|intros id0 taken Hcol]].
  all: try (apply elem_of_nil in Hcreated; contradiction).
  all: try (apply elem_of_nil in Hnick; contradiction).
  all: try (apply elem_of_nil in Hcol; contradiction).
  all: try (apply list_elem_of_singleton in Hnick; injection Hnick as -> Hv).
  all: try (apply list_elem_of_singleton in Hcol; first [discriminate Hcol|injection Hcol as -> ->]).
  all: try (subst; simpl in *; try discriminate; repeat split; reflexivity).
  all: try (eexists; split; [reflexivity|]; cbn [nm_mb_id nm_mb_nick nm_mb_name];
            repeat split; reflexivity).
  all: apply list_elem_of_singleton in Hcreated; subst created;
    cbn [nm_mb_nick nm_mb_name nm_mb_id];
    (split; [reflexivity|]); (split; [reflexivity|]);
    eexists _, _; (split; [reflexivity|]); (split; [eassumption|]);
    match goal with
    | Hg : get _ "provider" = Some _ |- _ => apply get_Some_get_opt in Hg; subst
    end;
    match goal with
    | |- context [Ok ?b] => destruct b
    end; [right|left]; split; reflexivity.
Qed.

Lemma exec_Run {A} answer (p : Prog A) : Run p (exec answer p).1 (exec answer p).2.
Proof.
  induction p as [a|X e k IH]; simpl.
  - constructor.
  - specialize (IH (answer X e)). destruct (exec answer (k (answer X e))) as [tr a].
    simpl in *. now constructor.
Qed.

Lemma suffix_length e : String.length (hex (randomBytes e 4)) = 8%nat.
Proof. reflexivity. Qed.

(** C8, as the action has it. In every run of the registration action:
    a member is created only under the submitted nickname with the
    white space around it removed ([String.prototype.trim]), as both
    nickname and name, and under the generated member id, to which an
    underscore and eight hexadecimal digits are appended exactly when
    [isMbIdTaken] answered that the id exists; whenever [isMbIdTaken]
    has answered, [createMember] is called, once, with the id so
    settled and that nickname; and a nickname that [validateNickname]
    rejects ends the action with a 400 failure carrying the
    validator's error, before any collision check, with no member
    created and no cookie changed. *)
Theorem register_action_suffix_on_id_collision_only form (cookies cookies' : Cookies)
    clientIp e tr response :
  Run (register_action generateSocialMbId form cookies clientIp e) tr (response, cookies') ->
  (forall m, m ∈ omap created_member tr ->
     nm_mb_nick m = match form !! "nickname" with Some s => trim s | None => "" end
     /\ nm_mb_name m = nm_mb_nick m
     /\ exists pending socialProfile,
          cookie_value cookies "pending_social_register" = Some pending
          /\ JSON_parse pending = Some socialProfile
          /\ let mbId0 := generateSocialMbId (get_opt socialProfile "provider")
                            (get_opt socialProfile "identifier") in
             (omap collision_verdict tr = [(mbId0, Ok false)] /\ nm_mb_id m = mbId0)
             \/ (omap collision_verdict tr = [(mbId0, Ok true)]
                 /\ nm_mb_id m = mbId0 ++ "_" ++ hex (randomBytes e 4)
                 /\ String.length (hex (randomBytes e 4)) = 8%nat))
  /\ (forall n err,
        (n, Ok {| valid := false; error := err |}) ∈ omap nickname_verdict tr ->
        omap created_member tr = []
        /\ omap collision_verdict tr = []
        /\ response = Fail 400 (NicknameRejected err) n
        /\ cookies' = cookies)
  /\ (forall mbId0 taken,
        (mbId0, Ok taken) ∈ omap collision_verdict tr ->
        exists m,
          omap created_member tr = [m]
          /\ nm_mb_id m = (if taken : bool
                           then mbId0 ++ "_" ++ hex (randomBytes e 4) else mbId0)
          /\ nm_mb_nick m = match form !! "nickname" with Some s => trim s | None => "" end
          /\ nm_mb_name m = nm_mb_nick m).
Proof.
  intros HR.
  pose proof (always_Run _ _ _ HR _ (register_action_always form cookies clientIp e))
    as (Hcreated & Hrejected & Hsettled).
  split; [|split].
  - intros m Hm. destruct (Hcreated m Hm) as (Hnick & Hname & pending & sp & Hc & Hp & Hid).
    split; [exact Hnick|]. split; [congruence|].
    exists pending, sp. split; [exact Hc|]. split; [exact Hp|].
    destruct Hid as [[Hv Hi]|[Hv Hi]]; [left|right]; repeat split; assumption.
  - intros n err Hn. destruct (Hrejected n err Hn) as (-> & Hnone & Hnocheck & [= -> ->]).
    repeat split; assumption.
  - intros mbId0 taken Hv. destruct (Hsettled mbId0 taken Hv) as (m & Hm & Hid & Hnick & Hname).
    exists m. split; [exact Hm|]. split; [exact Hid|]. split; [exact Hnick|congruence].
Qed.

End RegisterProperties.

(** C8 as stated fails on a taken nickname.  The visitor submits
    [bob], a nickname another member holds, and the generated member id
    is free.  If [validateNickname] rejects the nickname the action
    fails with status 400 and creates nobody; if it lets the nickname
    through, the member is created under the plain generated id, with no
    suffix.  Either way the nickname recorded is not the text as
    submitted but the text without the blanks around it. *)
Lemma register_taken_nickname_appends_no_suffix :
  let run nicknameValid :=
    Routes.exec (Sample.answers nicknameValid false)
      (Routes.register_action (H:=Sample.runtime) Sample.social_mb_id
         Sample.register_form Sample.register_cookies "203.0.113.7"
         (Sample.constant_entropy 171)) in
  Sample.register_form !! "nickname" = Some "  bob "
  /\ (run false).2 = (Routes.Fail 400 (Routes.NicknameRejected "nickname taken") "bob",
                      Sample.register_cookies)
  /\ omap Routes.created_member (run false).1 = []
  /\ (Routes.nm_mb_id <$> omap Routes.created_member (run true).1) = ["naver_42"]
  /\ (Routes.nm_mb_nick <$> omap Routes.created_member (run true).1) = ["bob"].
Proof.
  intros run.
  split; [reflexivity|]. split; [vm_compute; reflexivity|].
  split; [vm_compute; reflexivity|]. split; vm_compute; reflexivity.
Qed.

(** A registration whose generated id [naver_42] is already taken: the
    member is created as [naver_42_abababab], nickname [bob]. *)
Lemma register_action_suffix_on_id_collision_only_witness :
  let program :=
    Routes.register_action (H:=Sample.runtime) Sample.social_mb_id
      Sample.register_form Sample.register_cookies "203.0.113.7"
      (Sample.constant_entropy 171) in
  let run := Routes.exec (Sample.answers true true) program in
  Routes.Run program run.1 (run.2.1, run.2.2)
  /\ omap Routes.collision_verdict run.1 = [("naver_42", Routes.Ok true)]
  /\ exists m,
       omap Routes.created_member run.1 = [m]
       /\ Routes.nm_mb_id m = "naver_42_abababab"
       /\ Routes.nm_mb_nick m = "bob"
       /\ Routes.nm_mb_name m = "bob".
Proof.
  intros program run.
  assert (HR : Routes.Run program run.1 (run.2.1, run.2.2)).
  { replace (run.2.1, run.2.2) with run.2 by (now destruct run.2).
    apply exec_Run. }
  assert (Hverdict : omap Routes.collision_verdict run.1 = [("naver_42", Routes.Ok true)])
    by (vm_compute; reflexivity).
  split; [exact HR|]. split; [exact Hverdict|].
  destruct (register_action_suffix_on_id_collision_only (H:=Sample.runtime)
              Sample.social_mb_id _ _ _ _ _ _ _ HR) as (_ & _ & Hsettled).
  destruct (Hsettled "naver_42" true) as (m & Hm & Hid & Hnick & Hname).
  { rewrite Hverdict. apply list_elem_of_singleton. reflexivity. }
  exists m. split; [exact Hm|]. split; [exact Hid|]. split; [exact Hnick|].
  now rewrite Hname.
Defined.

(** ** Refresh-token rotation *)

Section RotationProperties.
Context `{Runtime}.
Import TokenStore Jwt.

Lemma select_token_Some h tbl row :
  select_token h tbl = Some row -> In row tbl /\ token_hash row = h.
Proof.
  unfold select_token. intros Hf. apply find_some in Hf as [Hin Heq].
  split; [exact Hin|]. now apply String.eqb_eq.
Qed.

(** What a successful [findValidToken] has checked. *)
Lemma findValidToken_Some h now dbNow tbl mbId familyId tbl' :
  findValidToken h now dbNow tbl = (Some (mbId, familyId), tbl') ->
  tbl' = tbl
  /\ exists row, select_token h tbl = Some row
                 /\ mb_id row = mbId /\ family_id row = familyId
                 /\ revoked_at row = None /\ now <= expires_at row.
Proof.
  unfold findValidToken.
  destruct (select_token h tbl) as [row|]; [|discriminate].
  destruct (revoked_at row) eqn:Hrev; [discriminate|].
  destruct (Z.gtb_spec now (expires_at row)); [discriminate|].
  intros [= <- <- <-]. split; [reflexivity|]. exists row. repeat split; assumption.
Qed.

Lemma findValidToken_valid h now dbNow tbl row :
  select_token h tbl = Some row -> revoked_at row = None -> now <= expires_at row ->
  findValidToken h now dbNow tbl = (Some (mb_id row, family_id row), tbl).
Proof.
  intros Hsel Hrev Hlive. unfold findValidToken. rewrite Hsel, Hrev.
  destruct (Z.gtb_spec now (expires_at row)); [lia|reflexivity].
Qed.

Lemma generateFamilyId_not_empty e : generateFamilyId e <> "".
Proof. unfold generateFamilyId. simpl. discriminate. Qed.

(** The family a rotation hands to [generateRefreshToken] is the one
    it uses, unless it is the empty text. *)
Lemma family_or_new_with_family metadata familyId e :
  familyId <> "" ->
  family_or_new (Some (with_family metadata familyId)) e = familyId.
Proof.
  intros Hne. unfold family_or_new. simpl.
  apply String.eqb_neq in Hne. now rewrite Hne.
Qed.

Lemma family_or_new_not_empty metadata e : family_or_new metadata e <> "".
Proof.
  unfold family_or_new. destruct (metadata ≫= rm_familyId) as [f|].
  - destruct (String.eqb_spec f ""); [apply generateFamilyId_not_empty|assumption].
  - apply generateFamilyId_not_empty.
Qed.

Lemma revoke_where_families col key t tbl :
  map family_id (revoke_where col key t tbl) = map family_id tbl.
Proof.
  unfold revoke_where. rewrite map_map. apply map_ext. intros r.
  now destruct (_ && _).
Qed.

Lemma revoke_where_hashes col key t tbl :
  map token_hash (revoke_where col key t tbl) = map token_hash tbl.
Proof.
  unfold revoke_where. rewrite map_map. apply map_ext. intros r.
  now destruct (_ && _).
Qed.

Lemma findValidToken_families h now dbNow tbl :
  map family_id (findValidToken h now dbNow tbl).2 = map family_id tbl.
Proof.
  unfold findValidToken. destruct (select_token h tbl) as [row|]; [|reflexivity].
  destruct (revoked_at row); [apply revoke_where_families|].
  now destruct (_ >? _).
Qed.

(** Every row the application stores has a family id that is not the
    empty text. *)
Lemma issued_families_named tbl :
  issued tbl -> Forall (fun f => f <> "") (map family_id tbl).
Proof.
  induction 1 as [|tbl mbId metadata e now dbNow _ IH
                  |tbl oldToken metadata e now dbNow _ IH
                  |tbl h now dbNow _ IH|tbl h dbNow _ IH|tbl f dbNow _ IH
                  |tbl dbNow _ IH].
  - constructor.
  - unfold generateRefreshToken, storeRefreshToken. simpl.
    rewrite map_app. apply Forall_app. split; [exact IH|].
    constructor; [apply family_or_new_not_empty|constructor].
  - unfold rotateRefreshToken.
    destruct (verifyToken oldToken now) as [payload|]; [|exact IH].
    destruct (negb (truthy (sub payload))); [exact IH|].
    pose proof (findValidToken_families (hashToken oldToken) now dbNow tbl) as Hfam.
    destruct (findValidToken (hashToken oldToken) now dbNow tbl) as [[[mb fam]|] tbl1];
      simpl in Hfam.
    + unfold generateRefreshToken, storeRefreshToken. simpl.
      rewrite map_app. apply Forall_app. split.
      * unfold revokeToken. rewrite revoke_where_families, Hfam. exact IH.
      * constructor; [apply family_or_new_not_empty|constructor].
    + simpl. now rewrite Hfam.
  - now rewrite findValidToken_families.
  - unfold revokeToken. now rewrite revoke_where_families.
  - unfold revokeTokenFamily. now rewrite revoke_where_families.
  - unfold cleanupExpiredTokens. simpl.
    apply List.Forall_forall. intros f Hf. apply in_map_iff in Hf as (r & <- & Hr).
    apply filter_In in Hr as [Hr _].
    rewrite List.Forall_forall in IH. apply IH. now apply in_map.
Qed.

(** One rotation: the rows carrying the old hash are revoked and a row
    for the new token is appended under the family of the row that
    validated. *)
Lemma rotateRefreshToken_keeps_family tbl oldToken metadata e now dbNow payload mbId familyId :
  issued tbl ->
  verifyToken oldToken now = Some payload ->
  truthy (sub payload) = true ->
  (findValidToken (hashToken oldToken) now dbNow tbl).1 = Some (mbId, familyId) ->
  exists token row,
    rotateRefreshToken oldToken metadata e now dbNow tbl
    = (Some (token, mbId), (revokeToken (hashToken oldToken) dbNow tbl ++ [row])%list)
    /\ token_hash row = hashToken token
    /\ family_id row = familyId
    /\ mb_id row = mbId
    /\ revoked_at row = None
    /\ (forall r, In r (revokeToken (hashToken oldToken) dbNow tbl) ->
                  token_hash r = hashToken oldToken -> revoked_at r <> None).
Proof.
  intros Hissued Hverify Hsub Hvalid.
  destruct (findValidToken (hashToken oldToken) now dbNow tbl) as [res tbl1] eqn:Hfind.
  simpl in Hvalid. subst res.
  apply findValidToken_Some in Hfind as Hrow.
  destruct Hrow as (-> & row & Hsel & Hmb & Hfam & _ & _).
  assert (Hnamed : familyId <> "").
  { apply issued_families_named in Hissued. rewrite List.Forall_forall in Hissued.
    apply Hissued. rewrite <- Hfam. apply in_map.
    now apply select_token_Some in Hsel as [Hin _]. }
  unfold rotateRefreshToken. rewrite Hverify, Hsub, Hfind. simpl.
  unfold generateRefreshToken, storeRefreshToken.
  rewrite (family_or_new_with_family metadata familyId e Hnamed).
  eexists _, _. split; [reflexivity|]. simpl.
  repeat split.
  intros r. apply (revoke_where_revoked token_hash). reflexivity.
Qed.

Lemma select_token_head h row tbl :
  token_hash row = h -> select_token h (row :: tbl) = Some row.
Proof. intros <-. unfold select_token. simpl. now rewrite String.eqb_refl. Qed.

Lemma select_token_tail h row tbl :
  token_hash row <> h -> select_token h (row :: tbl) = select_token h tbl.
Proof.
  intros Hne. unfold select_token. simpl.
  apply String.eqb_neq in Hne. now rewrite Hne.
Qed.

(** C3 fails on the code. A refresh token is the signature of the
    member id, the second of issue, the expiry and the issuer, so two
    tokens signed for one member within the same second are the same
    text, and [token_hash] is not a unique key.  Member [mbId] logs in
    on one device (token [tokenB], family [familyB]) and later on
    another (token [tokenA], family [familyA]); the first device rotates
    within the second of that login and is handed the text [tokenA],
    stored under [familyB] behind the other device's row; when it
    rotates again, the row that validates is the other device's, and the
    token it receives is stored under [familyA].  The three tokens of
    its lineage are stored under [familyB], [familyB], [familyA]. *)
Theorem rotateRefreshToken_leaves_family_on_equal_tokens
    mbId eB eA e1 e2 metadata1 metadata2 t0 d0 t1 d1 t1' d1' t2 d2 payload1 payload2 :
  let loginB := generateRefreshToken mbId None eB t0 d0 [] in
  let loginA := generateRefreshToken mbId None eA t1 d1 loginB.2 in
  let tokenB := loginB.1.1 in
  let familyB := loginB.1.2 in
  let tokenA := loginA.1.1 in
  let familyA := loginA.1.2 in
  familyA <> familyB ->
  hashToken tokenB <> hashToken tokenA ->
  epoch t1' = epoch t1 ->
  verifyToken tokenB t1' = Some payload1 -> truthy (sub payload1) = true ->
  t1' <= t0 + REFRESH_TOKEN_TTL_MS ->
  verifyToken tokenA t2 = Some payload2 -> truthy (sub payload2) = true ->
  t2 <= t1 + REFRESH_TOKEN_TTL_MS ->
  exists token2 tbl,
    rotate_chain tokenB
      [ {| rf_metadata := metadata1; rf_entropy := e1; rf_now := t1'; rf_dbNow := d1' |};
        {| rf_metadata := metadata2; rf_entropy := e2; rf_now := t2; rf_dbNow := d2 |} ]
      loginA.2
    = (Some [tokenA; token2], tbl)
    /\ map token_hash tbl
       = [hashToken tokenB; hashToken tokenA; hashToken tokenA; hashToken token2]
    /\ map family_id tbl = [familyB; familyA; familyB; familyA]
    /\ familyA <> familyB.
Proof.
  intros loginB loginA tokenB familyB tokenA familyA
    Hfam Hhash Hsecond Hv1 Hs1 Hlive1 Hv2 Hs2 Hlive2.
  unfold generateRefreshToken in loginB, loginA. simpl in loginB, loginA.
  subst tokenB familyB tokenA familyA loginA loginB. cbn [fst snd] in *.
  set (tokenB := SignJWT JWT_SECRET
                   {| jwt_payload := [("sub", JStr mbId)]; jwt_iat := epoch t0;
                      jwt_exp := epoch t0 + 7 * 24 * 60 * 60; jwt_iss := "angple" |}) in *.
  set (tokenA := SignJWT JWT_SECRET
                   {| jwt_payload := [("sub", JStr mbId)]; jwt_iat := epoch t1;
                      jwt_exp := epoch t1 + 7 * 24 * 60 * 60; jwt_iss := "angple" |}) in *.
  set (familyB := family_or_new None eB) in *.
  set (familyA := family_or_new None eA) in *.
  assert (HnamedB : familyB <> "") by apply family_or_new_not_empty.
  assert (HnamedA : familyA <> "") by apply family_or_new_not_empty.
  assert (HhashBA : String.eqb (hashToken tokenB) (hashToken tokenA) = false)
    by now apply String.eqb_neq.
  assert (HhashAB : String.eqb (hashToken tokenA) (hashToken tokenB) = false)
    by (apply String.eqb_neq; congruence).
  unfold storeRefreshToken. cbn [app mbind option_bind fmap option_fmap option_map].
  cbn [rotate_chain rf_metadata rf_entropy rf_now rf_dbNow].
  (* first rotation *)
  unfold rotateRefreshToken at 1. rewrite Hv1, Hs1. cbn [negb].
  erewrite findValidToken_valid;
    [|apply select_token_head; reflexivity|reflexivity|exact Hlive1].
  cbn [mb_id family_id].
  unfold revokeToken at 1, revoke_where at 1.
  cbn [map token_hash is_revoked revoked_at].
  rewrite String.eqb_refl, HhashAB. cbn [andb negb].
  unfold generateRefreshToken at 1, storeRefreshToken.
  rewrite (family_or_new_with_family metadata1 familyB e1 HnamedB).
  rewrite Hsecond. fold tokenA. cbn [app].
  (* second rotation *)
  unfold rotateRefreshToken at 1. rewrite Hv2, Hs2. cbn [negb].
  erewrite findValidToken_valid;
    [|rewrite select_token_tail by exact Hhash; apply select_token_head; reflexivity
     |reflexivity|exact Hlive2].
  cbn [mb_id family_id].
  unfold generateRefreshToken, storeRefreshToken.
  rewrite (family_or_new_with_family metadata2 familyA e2 HnamedA).
  unfold revokeToken, revoke_where.
  cbn [map set_revoked token_hash is_revoked revoked_at].
  rewrite String.eqb_refl, HhashBA. cbn [andb negb app fmap option_fmap option_map].
  eexists _, _. split; [reflexivity|].
  cbn [map token_hash family_id set_revoked].
  split; [reflexivity|]. split; [reflexivity|exact Hfam].
Qed.

(** C1 fails on the code.  [findValidToken] looks at the first row
    stored under the hash, and a hash may be stored more than once.
    Member [mbId] logs in on one device (token [tokenB], family
    [familyB]) and later on another (token [tokenA], family [familyA]);
    the first device rotates within the second of that login and is
    handed the text [tokenA], stored under [familyB] behind the other
    device's row.  When the token it rotated away is presented again,
    the reuse is detected and [familyB] is revoked, the row of the
    token just handed out included.  Presented afterwards, that token
    is still accepted, for [familyA], and nothing is revoked: the row
    the lookup returns is the other device's. *)
Theorem findValidToken_accepts_token_of_revoked_row
    mbId eB eA e1 metadata1 t0 d0 t1 d1 t1' d1' t2 d2 t3 d3 payload1 :
  let loginB := generateRefreshToken mbId None eB t0 d0 [] in
  let loginA := generateRefreshToken mbId None eA t1 d1 loginB.2 in
  let tokenB := loginB.1.1 in
  let familyB := loginB.1.2 in
  let tokenA := loginA.1.1 in
  let familyA := loginA.1.2 in
  familyA <> familyB ->
  hashToken tokenB <> hashToken tokenA ->
  epoch t1' = epoch t1 ->
  verifyToken tokenB t1' = Some payload1 -> truthy (sub payload1) = true ->
  t1' <= t0 + REFRESH_TOKEN_TTL_MS ->
  t3 <= t1 + REFRESH_TOKEN_TTL_MS ->
  exists tbl1 tbl2 row,
    rotateRefreshToken tokenB metadata1 e1 t1' d1' loginA.2 = (Some (tokenA, mbId), tbl1)
    /\ findValidToken (hashToken tokenB) t2 d2 tbl1 = (None, tbl2)
    /\ In row tbl2
    /\ token_hash row = hashToken tokenA
    /\ family_id row = familyB
    /\ revoked_at row = Some d2
    /\ findValidToken (hashToken tokenA) t3 d3 tbl2 = (Some (mbId, familyA), tbl2).
Proof.
  intros loginB loginA tokenB familyB tokenA familyA
    Hfam Hhash Hsecond Hv1 Hs1 Hlive1 Hlive3.
  unfold generateRefreshToken in loginB, loginA. simpl in loginB, loginA.
  subst tokenB familyB tokenA familyA loginA loginB. cbn [fst snd] in *.
  set (tokenB := SignJWT JWT_SECRET
                   {| jwt_payload := [("sub", JStr mbId)]; jwt_iat := epoch t0;
                      jwt_exp := epoch t0 + 7 * 24 * 60 * 60; jwt_iss := "angple" |}) in *.
  set (tokenA := SignJWT JWT_SECRET
                   {| jwt_payload := [("sub", JStr mbId)]; jwt_iat := epoch t1;
                      jwt_exp := epoch t1 + 7 * 24 * 60 * 60; jwt_iss := "angple" |}) in *.
  set (familyB := family_or_new None eB) in *.
  set (familyA := family_or_new None eA) in *.
  assert (HnamedB : familyB <> "") by apply family_or_new_not_empty.
  assert (HhashBA : String.eqb (hashToken tokenB) (hashToken tokenA) = false)
    by now apply String.eqb_neq.
  assert (HhashAB : String.eqb (hashToken tokenA) (hashToken tokenB) = false)
    by (apply String.eqb_neq; congruence).
  assert (HfamAB : String.eqb familyA familyB = false) by now apply String.eqb_neq.
  unfold storeRefreshToken. cbn [app mbind option_bind fmap option_fmap option_map].
  (* the rotation *)
  unfold rotateRefreshToken. rewrite Hv1, Hs1. cbn [negb].
  erewrite findValidToken_valid;
    [|apply select_token_head; reflexivity|reflexivity|exact Hlive1].
  cbn [mb_id family_id].
  unfold revokeToken, revoke_where.
  cbn [map token_hash is_revoked revoked_at].
  rewrite String.eqb_refl, HhashAB. cbn [andb negb].
  unfold generateRefreshToken, storeRefreshToken.
  rewrite (family_or_new_with_family metadata1 familyB e1 HnamedB).
  rewrite Hsecond. fold tokenA. cbn [app].
  eexists _, _, _. split; [reflexivity|].
  (* the token rotated out is presented again *)
  unfold findValidToken at 1. rewrite select_token_head by reflexivity.
  cbn [revoked_at set_revoked family_id].
  unfold revokeTokenFamily, revoke_where.
  cbn [map family_id set_revoked is_revoked revoked_at].
  rewrite String.eqb_refl, HfamAB. cbn [andb negb].
  split; [reflexivity|].
  split; [right; right; left; reflexivity|].
  cbn [token_hash family_id revoked_at set_revoked].
  split; [reflexivity|]. split; [reflexivity|]. split; [reflexivity|].
  (* the token the rotation handed out *)
  unfold findValidToken.
  rewrite select_token_tail by exact Hhash.
  rewrite select_token_head by reflexivity.
  cbn [revoked_at expires_at mb_id family_id].
  destruct (Z.gtb_spec t3 (t1 + REFRESH_TOKEN_TTL_MS)); [lia|reflexivity].
Qed.
Lemma select_token_app_fresh h tbl row :
  ~ In h (map token_hash tbl) -> token_hash row = h ->
  select_token h (tbl ++ [row])%list = Some row.
Proof.
  intros Hfresh Hrow. induction tbl as [|r tbl IH]; cbn [app].
  - now apply select_token_head.
  - rewrite select_token_tail.
    + apply IH. intros Hin. apply Hfresh. right. exact Hin.
    + intros Heq. apply Hfresh. left. exact Heq.
Qed.

(** X12. Where each presented token's hash is carried by one row only,
    rotating again and again stays in the family: the rows appended for
    the tokens handed out all carry the family of the row the first
    token validated against, and no other row changes family or hash. *)
Lemma rotate_chain_keeps_family requests : forall token tbl row tokens tbl',
  issued tbl ->
  select_token (hashToken token) tbl = Some row ->
  fresh_chain token requests tbl ->
  rotate_chain token requests tbl = (Some tokens, tbl') ->
  length tokens = length requests
  /\ map family_id tbl'
     = (map family_id tbl ++ repeat (family_id row) (length requests))%list
  /\ map token_hash tbl' = (map token_hash tbl ++ map hashToken tokens)%list.
Proof.
  induction requests as [|rq rest IH]; intros token tbl row tokens tbl' Hissued Hsel Hfresh Hchain.
  - simpl in Hchain. injection Hchain as <- <-. simpl. now rewrite !app_nil_r.
  - simpl in Hchain, Hfresh.
    pose proof (issued_rotate tbl token (rf_metadata rq) (rf_entropy rq) (rf_now rq)
                  (rf_dbNow rq) Hissued) as Hissued1.
    destruct (rotateRefreshToken token (rf_metadata rq) (rf_entropy rq) (rf_now rq)
                (rf_dbNow rq) tbl) as [[[token1 mb]|] tbl1] eqn:Hrot; [|discriminate].
    destruct Hfresh as [Hnew Hfresh]. simpl in Hissued1.
    destruct (rotate_chain token1 rest tbl1) as [[toks|] tbl2] eqn:Hrest; [|discriminate].
    simpl in Hchain. injection Hchain as <- <-.
    (* what the rotation did *)
    unfold rotateRefreshToken in Hrot.
    destruct (verifyToken token (rf_now rq)) as [payload|] eqn:Hverify; [|discriminate].
    destruct (truthy (sub payload)) eqn:Hsub; simpl in Hrot; [|discriminate].
    destruct (findValidToken (hashToken token) (rf_now rq) (rf_dbNow rq) tbl)
      as [[[mb' fam]|] tblv] eqn:Hfind; [|discriminate].
    destruct (rotateRefreshToken_keeps_family tbl token (rf_metadata rq) (rf_entropy rq)
                (rf_now rq) (rf_dbNow rq) payload mb' fam Hissued Hverify Hsub)
      as (tok & new & Hrot' & Hhash & Hfam & _); [now rewrite Hfind|].
    unfold rotateRefreshToken in Hrot'. rewrite Hverify, Hsub, Hfind in Hrot'.
    simpl in Hrot'. rewrite Hrot' in Hrot. injection Hrot as -> -> <-.
    apply findValidToken_Some in Hfind as (_ & row' & Hsel' & _ & Hfam' & _).
    rewrite Hsel in Hsel'. injection Hsel' as <-. subst fam.
    assert (Hsel1 : select_token (hashToken token1)
                      (revokeToken (hashToken token) (rf_dbNow rq) tbl ++ [new])%list
                    = Some new).
    { apply select_token_app_fresh; [|exact Hhash].
      unfold revokeToken. now rewrite revoke_where_hashes. }
    destruct (IH token1 _ new toks tbl2 Hissued1 Hsel1 Hfresh Hrest)
      as (Hlen & Hfams & Hhashes).
    split; [simpl; now rewrite Hlen|].
    rewrite Hfams, Hhashes, !map_app. unfold revokeToken.
    rewrite revoke_where_families, revoke_where_hashes. simpl.
    rewrite Hfam, Hhash, <- !app_assoc. now split.
Qed.

End RotationProperties.

(** Member [u1] logs in on a first device in second 1 and on a second
    device in second 5; the first device rotates at 5.4 s and again at
    9 s.  The rows of its three tokens carry the families [abab..],
    [abab..] and [cdcd..]. *)
Lemma rotateRefreshToken_leaves_family_on_equal_tokens_witness :
  let loginB := Jwt.generateRefreshToken (H:=Sample.runtime) "u1" None
                  (Sample.constant_entropy 171) 1000 1000 [] in
  let loginA := Jwt.generateRefreshToken (H:=Sample.runtime) "u1" None
                  (Sample.constant_entropy 205) 5000 5000 loginB.2 in
  let chain :=
    Jwt.rotate_chain (H:=Sample.runtime) loginB.1.1
      [ {| Jwt.rf_metadata := None; Jwt.rf_entropy := Sample.constant_entropy 1;
           Jwt.rf_now := 5400; Jwt.rf_dbNow := 5400 |};
        {| Jwt.rf_metadata := None; Jwt.rf_entropy := Sample.constant_entropy 2;
           Jwt.rf_now := 9000; Jwt.rf_dbNow := 9000 |} ]
      loginA.2 in
  loginA.1.1 = "angple-key.u1.5.604805.angple"
  /\ Jwt.epoch 5400 = Jwt.epoch 5000
  /\ loginA.1.2 <> loginB.1.2
  /\ exists token2,
       chain.1 = Some [loginA.1.1; token2]
       /\ map TokenStore.family_id chain.2
          = [loginB.1.2; loginA.1.2; loginB.1.2; loginA.1.2].
Proof.
  intros loginB loginA chain.
  assert (Hfam : loginA.1.2 <> loginB.1.2) by (vm_compute; discriminate).
  split; [reflexivity|]. split; [reflexivity|]. split; [exact Hfam|].
  destruct (rotateRefreshToken_leaves_family_on_equal_tokens (H:=Sample.runtime) "u1"
              (Sample.constant_entropy 171) (Sample.constant_entropy 205)
              (Sample.constant_entropy 1) (Sample.constant_entropy 2) None None
              1000 1000 5000 5000 5400 5400 9000 9000
              {| Jwt.sub := JStr "u1"; Jwt.nickname := JStr "";
                 Jwt.level := JNum 0; Jwt.email := JStr "" |}
              {| Jwt.sub := JStr "u1"; Jwt.nickname := JStr "";
                 Jwt.level := JNum 0; Jwt.email := JStr "" |})
    as (token2 & tbl & Hchain & _ & Hfams & _).
  - exact Hfam.
  - vm_compute. discriminate.
  - reflexivity.
  - vm_compute. reflexivity.
  - reflexivity.
  - vm_compute. discriminate.
  - vm_compute. reflexivity.
  - reflexivity.
  - vm_compute. discriminate.
  - exists token2. subst chain loginA loginB. rewrite Hchain.
    split; [reflexivity|exact Hfams].
Defined.

(** The two logins of member [u1] above; the first device rotates at
    5.4 s and its old token is presented again at 6 s.  The row of the
    token the rotation handed out then carries a [revoked_at], and at
    6.5 s [findValidToken] accepts that token all the same. *)
Lemma findValidToken_accepts_token_of_revoked_row_witness :
  let loginB := Jwt.generateRefreshToken (H:=Sample.runtime) "u1" None
                  (Sample.constant_entropy 171) 1000 1000 [] in
  let loginA := Jwt.generateRefreshToken (H:=Sample.runtime) "u1" None
                  (Sample.constant_entropy 205) 5000 5000 loginB.2 in
  let rotated := Jwt.rotateRefreshToken (H:=Sample.runtime) loginB.1.1 None
                   (Sample.constant_entropy 1) 5400 5400 loginA.2 in
  let reused := TokenStore.findValidToken
                  (TokenStore.hashToken (H:=Sample.runtime) loginB.1.1) 6000 6000
                  rotated.2 in
  let handed := "angple-key.u1.5.604805.angple" in
  rotated.1 = Some (handed, "u1")
  /\ reused.1 = None
  /\ map TokenStore.token_hash reused.2
     = ["sha256:angple-key.u1.1.604801.angple"; "sha256:" ++ handed; "sha256:" ++ handed]
  /\ map TokenStore.family_id reused.2 = [loginB.1.2; loginA.1.2; loginB.1.2]
  /\ map TokenStore.revoked_at reused.2 = [Some 5400; None; Some 6000]
  /\ TokenStore.findValidToken (TokenStore.hashToken (H:=Sample.runtime) handed)
       6500 6500 reused.2
     = (Some ("u1", loginA.1.2), reused.2).
Proof.
  intros loginB loginA rotated reused handed.
  destruct (findValidToken_accepts_token_of_revoked_row (H:=Sample.runtime) "u1"
              (Sample.constant_entropy 171) (Sample.constant_entropy 205)
              (Sample.constant_entropy 1) None
              1000 1000 5000 5000 5400 5400 6000 6000 6500 6500
              {| Jwt.sub := JStr "u1"; Jwt.nickname := JStr "";
                 Jwt.level := JNum 0; Jwt.email := JStr "" |})
    as (tbl1 & tbl2 & row & Hrot & Hreuse & _ & _ & _ & _ & Haccepted).
  - vm_compute. discriminate.
  - vm_compute. discriminate.
  - reflexivity.
  - vm_compute. reflexivity.
  - reflexivity.
  - vm_compute. discriminate.
  - vm_compute. discriminate.
  - assert (Htbl1 : tbl1 = rotated.2) by (subst rotated loginA loginB; now rewrite Hrot).
    assert (Htbl2 : tbl2 = reused.2).
    { subst reused. rewrite <- Htbl1. subst loginB. now rewrite Hreuse. }
    split; [subst rotated loginA loginB; now rewrite Hrot|].
    split; [reflexivity|]. split; [reflexivity|]. split; [reflexivity|].
    split; [reflexivity|]. rewrite <- Htbl2. exact Haccepted.
Defined.

(** * Further properties of the stores *)

Section SessionStoreLifecycle.
Context `{Runtime}.
Import SessionStore.

Lemma select_session_Some h tbl row :
  select_session h tbl = Some row -> In row tbl /\ session_id_hash row = h.
Proof.
  unfold select_session. intros Hf. apply find_some in Hf as [Hin Heq].
  split; [exact Hin|]. now apply has_hash_true.
Qed.

Lemma select_session_None h tbl :
  select_session h tbl = None <-> ~ In h (map session_id_hash tbl).
Proof.
  unfold select_session. induction tbl as [|r tbl IH]; simpl.
  - split; [intros _ []|reflexivity].
  - destruct (has_hash h r) eqn:E.
    + apply has_hash_true in E. split; [discriminate|]. intros Hn. destruct Hn. now left.
    + rewrite IH. split.
      * intros Hn [Heq|Hin]; [|contradiction].
        apply has_hash_true in Heq. congruence.
      * intros Hn Hin. apply Hn. now right.
Qed.

Lemma select_session_app h tbl1 tbl2 :
  select_session h (tbl1 ++ tbl2)%list
  = match select_session h tbl1 with
    | Some r => Some r
    | None => select_session h tbl2
    end.
Proof.
  unfold select_session. induction tbl1 as [|r tbl1 IH]; simpl; [reflexivity|].
  now destruct (has_hash h r).
Qed.

Lemma select_session_delete_other h h' tbl :
  h' <> h -> select_session h' (delete_session h tbl) = select_session h' tbl.
Proof.
  intros Hne. unfold select_session, delete_session.
  induction tbl as [|r tbl IH]; simpl; [reflexivity|].
  destruct (has_hash h r) eqn:E; simpl.
  - apply has_hash_true in E.
    destruct (has_hash h' r) eqn:E'; [|exact IH].
    apply has_hash_true in E'. congruence.
  - destruct (has_hash h' r); [reflexivity|exact IH].
Qed.

(** What an accepted [getSession] has read and what it leaves stored. *)
Lemma getSession_Some sessionId now dbNow tbl data tbl' :
  getSession sessionId now dbNow tbl = (Some data, tbl') ->
  exists row row',
    select_session (hashSessionId sessionId) tbl = Some row
    /\ now <= expires_at row
    /\ data = {| SessionStore.sessionId := sessionId; mbId := mb_id row;
                 csrfToken := csrf_token row; sd_ip := ip row;
                 userAgent := user_agent row; createdAt := created_at row;
                 lastActiveAt := last_active_at row; expiresAt := expires_at row |}
    /\ select_session (hashSessionId sessionId) tbl' = Some row'
    /\ mb_id row' = mb_id row
    /\ csrf_token row' = csrf_token row
    /\ now <= expires_at row'.
Proof.
  unfold getSession.
  destruct (select_session (hashSessionId sessionId) tbl) as [row|] eqn:Hsel; [|discriminate].
  destruct (Z.gtb_spec now (expires_at row)) as [|Hlive]; [discriminate|].
  intros [= <- <-].
  unfold SESSION_REFRESH_THRESHOLD_MS, SESSION_MAX_AGE_MS.
  destruct (_ >? _).
  - eexists row, _. rewrite select_session_update by reflexivity. rewrite Hsel. simpl.
    repeat split; try reflexivity; try assumption.
    unfold set_last_active_expires. simpl. lia.
  - destruct (_ >? _).
    + eexists row, _. rewrite select_session_update by reflexivity. rewrite Hsel. simpl.
      repeat split; try reflexivity; assumption.
    + exists row, row. repeat split; try reflexivity; assumption.
Qed.

Lemma getSession_accepts sessionId now dbNow tbl row :
  select_session (hashSessionId sessionId) tbl = Some row ->
  now <= expires_at row ->
  exists data tbl',
    getSession sessionId now dbNow tbl = (Some data, tbl')
    /\ SessionStore.sessionId data = sessionId
    /\ mbId data = mb_id row /\ csrfToken data = csrf_token row.
Proof.
  intros Hsel Hlive. unfold getSession. rewrite Hsel.
  destruct (Z.gtb_spec now (expires_at row)); [lia|].
  eexists _, _. split; [reflexivity|]. simpl. repeat split.
Qed.

(** X1. Reading a session is repeatable: once [getSession] has accepted
    a session id, asking again at the same instant accepts it again and
    answers with the same member id and the same CSRF token. *)
Theorem getSession_twice_same_identity sessionId now dbNow dbNow' tbl data tbl' :
  getSession sessionId now dbNow tbl = (Some data, tbl') ->
  exists data' tbl'',
    getSession sessionId now dbNow' tbl' = (Some data', tbl'')
    /\ SessionStore.sessionId data' = sessionId
    /\ mbId data' = mbId data
    /\ csrfToken data' = csrfToken data.
Proof.
  intros Hfirst.
  apply getSession_Some in Hfirst
    as (row & row' & _ & _ & -> & Hsel' & Hmb & Hcsrf & Hlive').
  destruct (getSession_accepts sessionId now dbNow' tbl' row' Hsel' Hlive')
    as (data' & tbl'' & Hget & Hsid & Hm & Hc).
  exists data', tbl''. simpl. repeat split; congruence.
Qed.

(** X2. A session that [createSession] has stored is found again: until
    30 days after its creation [getSession] accepts the session id it
    returned, with the member id it was created for and the CSRF token
    it returned; both secrets are 64 characters long. *)
Theorem createSession_then_getSession mbId metadata e1 e2 now dbNow tbl
    sessionId csrfToken expiresAt tbl' now' dbNow' :
  createSession mbId metadata e1 e2 now dbNow tbl
  = (Some (sessionId, csrfToken, expiresAt), tbl') ->
  now' <= now + 30 * 24 * 60 * 60 * 1000 ->
  expiresAt = now + 30 * 24 * 60 * 60 * 1000
  /\ String.length sessionId = 64%nat
  /\ String.length csrfToken = 64%nat
  /\ exists data tbl'',
       getSession sessionId now' dbNow' tbl' = (Some data, tbl'')
       /\ SessionStore.sessionId data = sessionId
       /\ SessionStore.mbId data = mbId
       /\ SessionStore.csrfToken data = csrfToken.
Proof.
  unfold createSession.
  destruct (select_session (hashSessionId (generateSessionId e1)) tbl) eqn:Hnone;
    [discriminate|].
  intros [= <- <- <- <-] Hlive.
  split; [reflexivity|]. split; [reflexivity|]. split; [reflexivity|].
  match goal with
  | |- context [(tbl ++ [?r])%list] => apply (getSession_accepts _ now' dbNow' _ r)
  end.
  - rewrite select_session_app, Hnone. unfold select_session. simpl.
    unfold has_hash. simpl. now rewrite String.eqb_refl.
  - simpl. unfold SESSION_MAX_AGE_MS. lia.
Qed.

Lemma NoDup_map_filter {A B} (f : A -> B) p (l : list A) :
  NoDup (map f l) -> NoDup (map f (List.filter p l)).
Proof.
  induction l as [|a l IH]; simpl; [intros; constructor|].
  rewrite !NoDup_cons. intros [Hn Hd].
  destruct (p a); simpl; [|now apply IH].
  apply NoDup_cons. split; [|now apply IH].
  intros Hin. apply Hn. apply list_elem_of_In in Hin. apply list_elem_of_In.
  apply in_map_iff in Hin as (x & Hx & Hxin). apply filter_In in Hxin as [Hxin _].
  apply in_map_iff. now exists x.
Qed.

Lemma update_session_hashes h f tbl :
  (forall r, session_id_hash (f r) = session_id_hash r) ->
  map session_id_hash (update_session h f tbl) = map session_id_hash tbl.
Proof.
  intros Hf. unfold update_session. rewrite map_map. apply map_ext.
  intros r. now destruct (has_hash h r).
Qed.

(** X3. The table never holds two sessions under one hash: starting
    from a table whose hashes are pairwise distinct, [createSession],
    [getSession], [destroySession] and [cleanupExpiredSessions] each
    leave one whose hashes are pairwise distinct, and [createSession]
    refuses (and stores nothing) when the hash is already there. *)
Theorem session_hashes_stay_distinct tbl :
  NoDup (map session_id_hash tbl) ->
  (forall mbId metadata e1 e2 now dbNow,
     NoDup (map session_id_hash (createSession mbId metadata e1 e2 now dbNow tbl).2)
     /\ (In (hashSessionId (generateSessionId e1)) (map session_id_hash tbl) ->
         createSession mbId metadata e1 e2 now dbNow tbl = (None, tbl)))
  /\ (forall sessionId now dbNow,
        NoDup (map session_id_hash (getSession sessionId now dbNow tbl).2))
  /\ (forall sessionId, NoDup (map session_id_hash (destroySession sessionId tbl)))
  /\ (forall dbNow, NoDup (map session_id_hash (cleanupExpiredSessions dbNow tbl).2)).
Proof.
  intros Hd. split; [|split; [|split]].
  - intros mbId metadata e1 e2 now dbNow. unfold createSession.
    destruct (select_session (hashSessionId (generateSessionId e1)) tbl) eqn:Hsel.
    + split; [exact Hd|reflexivity].
    + apply select_session_None in Hsel. split; [|contradiction]. simpl.
      rewrite map_app. simpl. apply NoDup_app. split; [exact Hd|]. split.
      * intros x Hx Hx'. apply list_elem_of_singleton in Hx'. subst x.
        apply Hsel. now apply list_elem_of_In.
      * apply NoDup_singleton.
  - intros sessionId now dbNow. unfold getSession.
    destruct (select_session (hashSessionId sessionId) tbl) as [row|]; [|exact Hd].
    destruct (_ >? _); simpl; [now apply NoDup_map_filter|].
    destruct (_ >? _); [now rewrite update_session_hashes|].
    destruct (_ >? _); [now rewrite update_session_hashes|exact Hd].
  - intros sessionId. now apply NoDup_map_filter.
  - intros dbNow. now apply NoDup_map_filter.
Qed.

(** X4. [destroySession] ends the session and only that one: the
    destroyed session id is no longer accepted, while a session id with
    another hash gets from [getSession] the answer it would have got
    before. *)
Theorem destroySession_ends_that_session_only sessionId tbl now dbNow :
  getSession sessionId now dbNow (destroySession sessionId tbl)
  = (None, destroySession sessionId tbl)
  /\ forall other,
       hashSessionId other <> hashSessionId sessionId ->
       (getSession other now dbNow (destroySession sessionId tbl)).1
       = (getSession other now dbNow tbl).1.
Proof.
  split.
  - unfold getSession, destroySession. now rewrite select_session_delete.
  - intros other Hne. unfold getSession, destroySession.
    rewrite select_session_delete_other by exact Hne.
    destruct (select_session (hashSessionId other) tbl) as [row|]; [|reflexivity].
    now destruct (_ >? _).
Qed.

End SessionStoreLifecycle.

Section SessionSweep.
Context `{Runtime}.
Import SessionStore.

Lemma select_session_filter_keeps h p tbl row :
  select_session h tbl = Some row -> p row = true ->
  select_session h (List.filter p tbl) = Some row.
Proof.
  unfold select_session. induction tbl as [|r tbl IH]; simpl; [discriminate|].
  destruct (has_hash h r) eqn:E.
  - intros [= ->] Hp. rewrite Hp. simpl. now rewrite E.
  - intros Hsel Hp. destruct (p r); simpl; [rewrite E|]; now apply IH.
Qed.

Lemma NoDup_map_inj {A B} (f : A -> B) (l : list A) a b :
  NoDup (map f l) -> In a l -> In b l -> f a = f b -> a = b.
Proof.
  induction l as [|x l IH]; simpl; [intros _ []|].
  rewrite NoDup_cons. intros [Hn Hd] [->|Ha] [->|Hb] Heq; try reflexivity.
  - destruct Hn. apply list_elem_of_In. rewrite Heq. now apply in_map.
  - destruct Hn. apply list_elem_of_In. rewrite <- Heq. now apply in_map.
  - now apply IH.
Qed.

Lemma select_session_filter_drops h p tbl row :
  NoDup (map session_id_hash tbl) ->
  select_session h tbl = Some row -> p row = false ->
  select_session h (List.filter p tbl) = None.
Proof.
  intros Hd Hsel Hp. apply select_session_Some in Hsel as [Hin Hhash].
  apply select_session_None. intros Hmem.
  apply in_map_iff in Hmem as (r & Hr & Hrin). apply filter_In in Hrin as [Hrin Hpr].
  assert (r = row) by (apply (NoDup_map_inj session_id_hash tbl); congruence).
  congruence.
Qed.

Lemma getSession_answer_by_row sessionId now dbNow tbl tbl' :
  select_session (hashSessionId sessionId) tbl'
  = select_session (hashSessionId sessionId) tbl ->
  (getSession sessionId now dbNow tbl').1 = (getSession sessionId now dbNow tbl).1.
Proof.
  intros Heq. unfold getSession. rewrite Heq.
  destruct (select_session (hashSessionId sessionId) tbl) as [row|]; [|reflexivity].
  now destruct (_ >? _).
Qed.

(** X5. The sweep [cleanupExpiredSessions] reports how many rows it
    deleted and deletes exactly the rows whose [expires_at] lies before
    the database time.  A session that is not expired at that time gets
    the same answer from [getSession] after the sweep as before it, at
    any later time; and on a table with pairwise distinct hashes a
    sweep at the current time changes no answer at all. *)
Theorem cleanupExpiredSessions_changes_no_answer dbNow tbl :
  let swept := cleanupExpiredSessions dbNow tbl in
  (swept.1 + length swept.2 = length tbl)%nat
  /\ (forall r, In r swept.2 <-> In r tbl /\ dbNow <= expires_at r)
  /\ (forall sessionId row now d,
        select_session (hashSessionId sessionId) tbl = Some row ->
        dbNow <= expires_at row ->
        (getSession sessionId now d swept.2).1 = (getSession sessionId now d tbl).1)
  /\ (NoDup (map session_id_hash tbl) ->
      forall sessionId d,
        (getSession sessionId dbNow d swept.2).1 = (getSession sessionId dbNow d tbl).1).
Proof.
  unfold cleanupExpiredSessions. simpl.
  set (live := fun r => negb (expires_at r <? dbNow)).
  assert (Hlive : forall r, live r = true <-> dbNow <= expires_at r).
  { intros r. unfold live. rewrite negb_true_iff, Z.ltb_ge. reflexivity. }
  split; [|split; [|split]].
  - pose proof (filter_length_le live tbl). lia.
  - intros r. rewrite filter_In, Hlive. reflexivity.
  - intros sessionId row now d Hsel Hrow. apply getSession_answer_by_row.
    rewrite Hsel. apply select_session_filter_keeps; [exact Hsel|now apply Hlive].
  - intros Hd sessionId d.
    destruct (select_session (hashSessionId sessionId) tbl) as [row|] eqn:Hsel.
    + destruct (live row) eqn:Hrow.
      * apply getSession_answer_by_row. rewrite Hsel.
        now apply select_session_filter_keeps.
      * unfold getSession.
        rewrite (select_session_filter_drops _ live tbl row Hd Hsel Hrow), Hsel.
        destruct (Z.gtb_spec dbNow (expires_at row)) as [|Hle]; [reflexivity|].
        apply Hlive in Hle. congruence.
    + apply getSession_answer_by_row. rewrite Hsel. apply select_session_None.
      apply select_session_None in Hsel. intros Hin. apply Hsel.
      apply in_map_iff in Hin as (r & Hr & Hrin). apply filter_In in Hrin as [Hrin _].
      apply in_map_iff. now exists r.
Qed.

End SessionSweep.

(** ** Refresh tokens: issue, look up, revoke *)

Section TokenStoreLifecycle.
Context `{Runtime}.
Import TokenStore Jwt.

Lemma select_token_None h tbl :
  select_token h tbl = None <-> ~ In h (map token_hash tbl).
Proof.
  unfold select_token. induction tbl as [|r tbl IH]; simpl; [tauto|].
  destruct (String.eqb_spec (token_hash r) h) as [E|E].
  - split; [discriminate|]. intros Hn. destruct Hn. now left.
  - rewrite IH. tauto.
Qed.

Lemma select_token_app h tbl l :
  select_token h (tbl ++ l)%list
  = match select_token h tbl with Some r => Some r | None => select_token h l end.
Proof.
  unfold select_token. induction tbl as [|r tbl IH]; simpl; [reflexivity|].
  now destruct (String.eqb (token_hash r) h).
Qed.

(** A revocation rewrites rows in place, so a lookup finds the same
    row as before, rewritten or not. *)
Lemma select_token_revoke_where col key t h tbl :
  select_token h (revoke_where col key t tbl)
  = (fun r => if (String.eqb (col r) key && negb (is_revoked r))%bool
              then set_revoked t r else r) <$> select_token h tbl.
Proof.
  unfold select_token, revoke_where. induction tbl as [|r tbl IH]; [reflexivity|].
  cbn [map find].
  assert (Hhash : token_hash (if (String.eqb (col r) key && negb (is_revoked r))%bool
                              then set_revoked t r else r) = token_hash r)
    by now destruct (_ && _)%bool.
  rewrite Hhash. destruct (String.eqb (token_hash r) h); [reflexivity|exact IH].
Qed.

(** The answer of [findValidToken] is read off the row the lookup
    finds. *)
Lemma findValidToken_answer_by_row h now dbNow tbl tbl' :
  select_token h tbl' = select_token h tbl ->
  (findValidToken h now dbNow tbl').1 = (findValidToken h now dbNow tbl).1.
Proof.
  intros Heq. unfold findValidToken. rewrite Heq.
  destruct (select_token h tbl) as [row|]; [|reflexivity].
  destruct (revoked_at row); [reflexivity|]. now destruct (_ >? _).
Qed.

Lemma findValidToken_revoked h now dbNow tbl row :
  select_token h tbl = Some row -> revoked_at row <> None ->
  findValidToken h now dbNow tbl = (None, revokeTokenFamily (family_id row) dbNow tbl).
Proof.
  intros Hsel Hrev. unfold findValidToken. rewrite Hsel.
  now destruct (revoked_at row).
Qed.

Lemma rotateRefreshToken_refused oldToken metadata e now dbNow tbl :
  (findValidToken (hashToken oldToken) now dbNow tbl).1 = None ->
  (rotateRefreshToken oldToken metadata e now dbNow tbl).1 = None.
Proof.
  intros Hfind. unfold rotateRefreshToken.
  destruct (verifyToken oldToken now) as [payload|]; [|reflexivity].
  destruct (negb (truthy (sub payload))); [reflexivity|].
  destruct (findValidToken (hashToken oldToken) now dbNow tbl) as [[[mbId familyId]|] tbl1];
    [discriminate|reflexivity].
Qed.

(** X6. A refresh token whose hash no stored row carries yet is found
    by [findValidToken] under the member and family it was issued for,
    at every instant up to seven days after the issue and at none
    after that; its family id is never the empty text; and storing it
    changes the answer for no other hash. *)
Theorem generateRefreshToken_then_findValidToken
    mbId metadata e now dbNow tbl now' dbNow' :
  let login := generateRefreshToken mbId metadata e now dbNow tbl in
  ~ In (hashToken login.1.1) (map token_hash tbl) ->
  login.1.2 <> ""
  /\ (now' <= now + 7 * 24 * 60 * 60 * 1000 ->
      findValidToken (hashToken login.1.1) now' dbNow' login.2
      = (Some (mbId, login.1.2), login.2))
  /\ (now + 7 * 24 * 60 * 60 * 1000 < now' ->
      findValidToken (hashToken login.1.1) now' dbNow' login.2 = (None, login.2))
  /\ (forall h, h <> hashToken login.1.1 ->
        (findValidToken h now' dbNow' login.2).1 = (findValidToken h now' dbNow' tbl).1).
Proof.
  intros login Hfresh. subst login.
  unfold generateRefreshToken, storeRefreshToken in *. cbn [fst snd] in *.
  set (token := SignJWT JWT_SECRET _) in *.
  set (row := Build_RefreshTokenRow _ _ _ _ _ _ _ _).
  assert (Hsel : select_token (hashToken token) (tbl ++ [row])%list = Some row).
  { rewrite select_token_app. apply select_token_None in Hfresh. rewrite Hfresh.
    now apply select_token_head. }
  split; [apply family_or_new_not_empty|]. split; [|split].
  - intros Hle. unfold findValidToken. rewrite Hsel. simpl.
    unfold REFRESH_TOKEN_TTL_MS.
    destruct (Z.gtb_spec now' (now + 7 * 24 * 60 * 60 * 1000)); [lia|reflexivity].
  - intros Hlt. unfold findValidToken. rewrite Hsel. simpl.
    unfold REFRESH_TOKEN_TTL_MS.
    destruct (Z.gtb_spec now' (now + 7 * 24 * 60 * 60 * 1000)); [reflexivity|lia].
  - intros h Hne. apply findValidToken_answer_by_row. rewrite select_token_app.
    destruct (select_token h tbl); [reflexivity|].
    apply select_token_tail. simpl. congruence.
Qed.

Lemma findValidToken_after_revokeToken h dbNow tbl now d :
  (findValidToken h now d (revokeToken h dbNow tbl)).1 = None.
Proof.
  unfold findValidToken, revokeToken. rewrite select_token_revoke_where.
  destruct (select_token h tbl) as [row|] eqn:Hsel; [|reflexivity].
  apply select_token_Some in Hsel as [_ Hhash]. simpl.
  apply String.eqb_eq in Hhash. rewrite Hhash. unfold is_revoked.
  destruct (revoked_at row) eqn:Hrev; simpl; [now rewrite Hrev|reflexivity].
Qed.

Lemma findValidToken_other_after_revokeToken h h' dbNow tbl now d :
  h' <> h ->
  (findValidToken h' now d (revokeToken h dbNow tbl)).1 = (findValidToken h' now d tbl).1.
Proof.
  intros Hne. apply findValidToken_answer_by_row.
  unfold revokeToken. rewrite select_token_revoke_where.
  destruct (select_token h' tbl) as [row|] eqn:Hsel; [|reflexivity].
  apply select_token_Some in Hsel as [_ Hhash]. simpl.
  assert (E : String.eqb (token_hash row) h = false)
    by (apply String.eqb_neq; congruence).
  now rewrite E.
Qed.

(** X7. After [revokeToken] the revoked hash is refused by
    [findValidToken] and by [rotateRefreshToken], whatever the table
    held and at any later time; every other hash gets the answer it
    got before; and revoking again changes nothing, so [revoked_at]
    keeps the time of the first revocation. *)
Theorem revokeToken_refuses_that_token_only h dbNow tbl now d :
  (findValidToken h now d (revokeToken h dbNow tbl)).1 = None
  /\ (forall oldToken metadata e,
        hashToken oldToken = h ->
        (rotateRefreshToken oldToken metadata e now d (revokeToken h dbNow tbl)).1 = None)
  /\ (forall h', h' <> h ->
        (findValidToken h' now d (revokeToken h dbNow tbl)).1
        = (findValidToken h' now d tbl).1)
  /\ (forall d', revokeToken h d' (revokeToken h dbNow tbl) = revokeToken h dbNow tbl).
Proof.
  split; [apply findValidToken_after_revokeToken|]. split; [|split].
  - intros oldToken metadata e <-. apply rotateRefreshToken_refused.
    apply findValidToken_after_revokeToken.
  - intros h' Hne. now apply findValidToken_other_after_revokeToken.
  - intros d'. unfold revokeToken, revoke_where. rewrite map_map.
    apply map_ext. intros r.
    destruct (String.eqb (token_hash r) h) eqn:E; simpl; [|now rewrite E].
    destruct (is_revoked r) eqn:R; simpl.
    + now rewrite E, R.
    + now rewrite E.
Qed.

End TokenStoreLifecycle.

Section TokenReuse.
Context `{Runtime}.
Import TokenStore Jwt.

Lemma revoke_where_app col key t tbl l :
  revoke_where col key t (tbl ++ l)%list
  = (revoke_where col key t tbl ++ revoke_where col key t l)%list.
Proof. unfold revoke_where. apply map_app. Qed.

(** X8. Reuse detection ends the family.  When a rotation has
    replaced [oldToken] by [newToken] (whose hash no earlier row
    carries), the replacement is accepted until someone presents
    [oldToken] again: that lookup is refused, and from then on
    [newToken] is refused as well, by [findValidToken] and by
    [rotateRefreshToken], at any time. *)
Theorem reuse_after_rotation_ends_family
    tbl oldToken metadata e now dbNow newToken mbId tbl1 now' d' :
  issued tbl ->
  rotateRefreshToken oldToken metadata e now dbNow tbl = (Some (newToken, mbId), tbl1) ->
  ~ In (hashToken newToken) (map token_hash tbl) ->
  let reuse := findValidToken (hashToken oldToken) now' d' tbl1 in
  (exists familyId, forall now'' d'',
      now'' <= now + 7 * 24 * 60 * 60 * 1000 ->
      findValidToken (hashToken newToken) now'' d'' tbl1 = (Some (mbId, familyId), tbl1))
  /\ reuse.1 = None
  /\ (forall metadata' e',
        (rotateRefreshToken oldToken metadata' e' now' d' tbl1).1 = None)
  /\ (forall now'' d'', (findValidToken (hashToken newToken) now'' d'' reuse.2).1 = None)
  /\ (forall metadata' e' now'' d'',
        (rotateRefreshToken newToken metadata' e' now'' d'' reuse.2).1 = None).
Proof.
  intros Hissued Hrot Hfresh reuse.
  assert (Hparts : exists payload familyId,
             verifyToken oldToken now = Some payload /\ truthy (sub payload) = true
             /\ findValidToken (hashToken oldToken) now dbNow tbl
                = (Some (mbId, familyId), tbl)).
  { unfold rotateRefreshToken in Hrot.
    destruct (verifyToken oldToken now) as [payload|]; [|discriminate].
    destruct (truthy (sub payload)) eqn:Hsub; [|discriminate]. simpl in Hrot.
    destruct (findValidToken (hashToken oldToken) now dbNow tbl)
      as [[[mbId0 familyId]|] tbl0] eqn:Hfind; [|discriminate].
    apply findValidToken_Some in Hfind as Htbl. destruct Htbl as [-> _].
    injection Hrot as _ <- _. now exists payload, familyId. }
  destruct Hparts as (payload & familyId & Hverify & Hsub & Hfind).
  destruct (rotateRefreshToken_keeps_family tbl oldToken metadata e now dbNow payload
              mbId familyId Hissued Hverify Hsub)
    as (token & row & Hrot' & Hhash & Hfam & Hmb & Hnull & _);
    [now rewrite Hfind|].
  rewrite Hrot in Hrot'. injection Hrot' as -> ->.
  apply findValidToken_Some in Hfind as (_ & row0 & Hsel0 & _ & Hfam0 & Hnull0 & _).
  apply select_token_Some in Hsel0 as Hrow0. destruct Hrow0 as [_ Hhash0].
  set (old' := set_revoked dbNow row0).
  assert (Hold : select_token (hashToken oldToken)
                   (revokeToken (hashToken oldToken) dbNow tbl ++ [row])%list
                 = Some old').
  { rewrite select_token_app. unfold revokeToken. rewrite select_token_revoke_where.
    rewrite Hsel0. simpl. apply String.eqb_eq in Hhash0. rewrite Hhash0.
    unfold is_revoked. now rewrite Hnull0. }
  assert (Hnew : select_token (hashToken token)
                   (revokeToken (hashToken oldToken) dbNow tbl ++ [row])%list
                 = Some row).
  { apply select_token_app_fresh; [|exact Hhash].
    unfold revokeToken. now rewrite revoke_where_hashes. }
  assert (Hreuse : reuse
                   = (None, revokeTokenFamily familyId d'
                              (revokeToken (hashToken oldToken) dbNow tbl ++ [row])%list)).
  { subst reuse. rewrite (findValidToken_revoked _ _ _ _ old' Hold); [|discriminate].
    subst old'. simpl. now rewrite Hfam0. }
  assert (Hdead : forall now'' d'',
             (findValidToken (hashToken token) now'' d'' reuse.2).1 = None).
  { intros now'' d''. rewrite Hreuse. cbn [snd].
    unfold findValidToken, revokeTokenFamily. rewrite select_token_revoke_where, Hnew.
    simpl. apply String.eqb_eq in Hfam. rewrite Hfam.
    unfold is_revoked. now rewrite Hnull. }
  split; [|split; [|split; [|split]]].
  - exists familyId. intros now'' d'' Hle.
    rewrite <- Hfam, <- Hmb. apply findValidToken_valid; [exact Hnew|exact Hnull|].
    unfold rotateRefreshToken in Hrot.
    rewrite Hverify, Hsub in Hrot. simpl in Hrot.
    destruct (findValidToken (hashToken oldToken) now dbNow tbl)
      as [[[mbId1 familyId1]|] tbl0]; [|discriminate].
    unfold generateRefreshToken, storeRefreshToken in Hrot.
    injection Hrot as _ _ Htbl. apply app_inj_tail in Htbl as [_ <-]. simpl.
    unfold REFRESH_TOKEN_TTL_MS. lia.
  - now rewrite Hreuse.
  - intros metadata' e'. apply rotateRefreshToken_refused.
    fold reuse. now rewrite Hreuse.
  - exact Hdead.
  - intros metadata' e' now'' d''. apply rotateRefreshToken_refused. apply Hdead.
Qed.

(** X9. Revocation is final.  Once the row a hash resolves to is
    revoked, no operation of the store short of the expiry sweep
    changes what the hash resolves to: not a later revocation, not a
    newly issued token, not a lookup, not a rotation. *)
Theorem revoked_row_is_never_restored tbl h row :
  select_token h tbl = Some row ->
  revoked_at row <> None ->
  (forall key d, select_token h (revokeToken key d tbl) = Some row)
  /\ (forall familyId d, select_token h (revokeTokenFamily familyId d tbl) = Some row)
  /\ (forall mbId metadata e now d,
        select_token h (generateRefreshToken mbId metadata e now d tbl).2 = Some row)
  /\ (forall h' now d, select_token h (findValidToken h' now d tbl).2 = Some row)
  /\ (forall oldToken metadata e now d,
        select_token h (rotateRefreshToken oldToken metadata e now d tbl).2 = Some row).
Proof.
  intros Hsel Hrev.
  assert (Hkeep : forall col key d,
             select_token h (revoke_where col key d tbl) = Some row).
  { intros col key d. rewrite select_token_revoke_where, Hsel. simpl.
    apply is_revoked_true in Hrev. rewrite Hrev. now rewrite andb_false_r. }
  assert (Happ : forall tbl0 l, select_token h tbl0 = Some row ->
                                select_token h (tbl0 ++ l)%list = Some row).
  { intros tbl0 l E. now rewrite select_token_app, E. }
  assert (Hfind : forall h' now d, select_token h (findValidToken h' now d tbl).2 = Some row).
  { intros h' now d. unfold findValidToken.
    destruct (select_token h' tbl) as [row'|]; [|exact Hsel].
    destruct (revoked_at row'); [apply Hkeep|]. now destruct (_ >? _). }
  split; [intros; apply Hkeep|]. split; [intros; apply Hkeep|].
  split; [intros; now apply Happ|]. split; [exact Hfind|].
  intros oldToken metadata e now d. unfold rotateRefreshToken.
  destruct (verifyToken oldToken now) as [payload|]; [|exact Hsel].
  destruct (negb (truthy (sub payload))); [exact Hsel|].
  specialize (Hfind (hashToken oldToken) now d).
  destruct (findValidToken (hashToken oldToken) now d tbl) as [[[mbId familyId]|] tbl1];
    [|exact Hfind].
  simpl in Hfind. unfold generateRefreshToken, storeRefreshToken. cbn [snd].
  apply Happ. unfold revokeToken. rewrite select_token_revoke_where, Hfind. simpl.
  apply is_revoked_true in Hrev. rewrite Hrev. now rewrite andb_false_r.
Qed.

Lemma substring0_length n s : (String.length (substring0 n s) <= n)%nat.
Proof.
  unfold substring0. revert s. induction n as [|n IH]; intros s.
  - destruct s; simpl; lia.
  - destruct s as [|c s]; simpl; [lia|]. specialize (IH s). lia.
Qed.

(** X10. No stored refresh-token row holds a user agent longer than
    512 characters: the tables the application builds from the empty
    one only ever hold truncated user agents. *)
Theorem issued_user_agents_fit tbl :
  issued tbl ->
  Forall (fun r => forall ua, user_agent r = Some ua -> (String.length ua <= 512)%nat) tbl.
Proof.
  set (fits := fun r : RefreshTokenRow =>
                 forall ua, user_agent r = Some ua -> (String.length ua <= 512)%nat).
  assert (Hrevoke : forall col key d t, Forall fits t -> Forall fits (revoke_where col key d t)).
  { intros col key d t Ht. unfold revoke_where. rewrite List.Forall_forall in *.
    intros r Hin. apply in_map_iff in Hin as (r0 & <- & Hin0).
    specialize (Ht r0 Hin0). now destruct (_ && _)%bool. }
  assert (Hstore : forall h mbId f ex md d t,
             Forall fits t -> Forall fits (storeRefreshToken h mbId f ex md d t)).
  { intros h mbId f ex md d t Ht. unfold storeRefreshToken.
    apply Forall_app. split; [exact Ht|]. constructor; [|constructor].
    intros ua. simpl. destruct (md ≫= meta_userAgent) as [raw|]; simpl; [|discriminate].
    intros [= <-]. apply substring0_length. }
  assert (Hfind : forall h now d t, Forall fits t -> Forall fits (findValidToken h now d t).2).
  { intros h now d t Ht. unfold findValidToken.
    destruct (select_token h t) as [row|]; [|exact Ht].
    destruct (revoked_at row); [now apply Hrevoke|]. now destruct (_ >? _). }
  induction 1 as [|tbl mbId metadata e now dbNow _ IH
                  |tbl oldToken metadata e now dbNow _ IH
                  |tbl h now dbNow _ IH|tbl h dbNow _ IH|tbl f dbNow _ IH
                  |tbl dbNow _ IH].
  - constructor.
  - unfold generateRefreshToken. cbn [snd]. now apply Hstore.
  - unfold rotateRefreshToken.
    destruct (verifyToken oldToken now) as [payload|]; [|exact IH].
    destruct (negb (truthy (sub payload))); [exact IH|].
    specialize (Hfind (hashToken oldToken) now dbNow tbl IH).
    destruct (findValidToken (hashToken oldToken) now dbNow tbl)
      as [[[mbId familyId]|] tbl1]; [|exact Hfind].
    unfold generateRefreshToken. cbn [snd]. apply Hstore. now apply Hrevoke.
  - now apply Hfind.
  - now apply Hrevoke.
  - now apply Hrevoke.
  - unfold cleanupExpiredTokens. cbn [snd]. rewrite List.Forall_forall in *.
    intros r Hin. apply filter_In in Hin as [Hin _]. now apply IH.
Qed.

End TokenReuse.

Section TokenSweep.
Import TokenStore.

Lemma select_token_filter_keeps h p tbl row :
  select_token h tbl = Some row -> p row = true ->
  select_token h (List.filter p tbl) = Some row.
Proof.
  unfold select_token. induction tbl as [|r tbl IH]; simpl; [discriminate|].
  destruct (String.eqb (token_hash r) h) eqn:E.
  - intros [= ->] Hp. rewrite Hp. simpl. now rewrite E.
  - intros Hsel Hp. destruct (p r); simpl; [rewrite E|]; now apply IH.
Qed.

(** X11. The sweep [cleanupExpiredTokens] reports how many rows it
    deleted and deletes exactly the rows whose [expires_at] lies before
    the database time, revoked or not.  A hash that resolved to a row
    not yet expired at that time resolves to the same row afterwards,
    so [findValidToken] answers for it as before. *)
Theorem cleanupExpiredTokens_keeps_unexpired dbNow tbl :
  let swept := cleanupExpiredTokens dbNow tbl in
  (swept.1 + length swept.2 = length tbl)%nat
  /\ (forall r, In r swept.2 <-> In r tbl /\ dbNow <= expires_at r)
  /\ (forall h row now d,
        select_token h tbl = Some row -> dbNow <= expires_at row ->
        select_token h swept.2 = Some row
        /\ (findValidToken h now d swept.2).1 = (findValidToken h now d tbl).1).
Proof.
  unfold cleanupExpiredTokens. simpl.
  set (live := fun r => negb (expires_at r <? dbNow)).
  assert (Hlive : forall r, live r = true <-> dbNow <= expires_at r).
  { intros r. unfold live. rewrite negb_true_iff, Z.ltb_ge. reflexivity. }
  split; [|split].
  - pose proof (filter_length_le live tbl). lia.
  - intros r. rewrite filter_In, Hlive. reflexivity.
  - intros h row now d Hsel Hrow.
    assert (Hkept : select_token h (List.filter live tbl) = Some row)
      by (apply select_token_filter_keeps; [exact Hsel|now apply Hlive]).
    split; [exact Hkept|].
    apply findValidToken_answer_by_row. now rewrite Hkept.
Qed.

End TokenSweep.

(** * Further properties of request authentication *)

Section AuthFlow.
Context `{Runtime}.
Import SessionStore TokenStore Jwt OAuthState Members Auth Hooks.


Lemma cookie_value_lookup (cookies : Cookies) name v :
  cookies !! name = Some v -> v <> "" -> cookie_value cookies name = Some v.
Proof.
  intros Hc Hv. unfold cookie_value. rewrite Hc.
  apply String.eqb_neq in Hv. now rewrite Hv.
Qed.

(** Whatever [getSession] answers later for a session id it has
    accepted, it answers for the same member. *)
Lemma getSession_member_stable sessionId now d tbl data tbl' now' d' data' tbl'' :
  getSession sessionId now d tbl = (Some data, tbl') ->
  getSession sessionId now' d' tbl' = (Some data', tbl'') ->
  mbId data' = mbId data.
Proof.
  intros H1 H2.
  apply getSession_Some in H1 as (row & row' & _ & _ & -> & Hsel' & Hmb & _ & _).
  apply getSession_Some in H2 as (row2 & _ & Hsel2 & _ & -> & _).
  simpl. congruence.
Qed.

Lemma getSession_refused_stays sessionId now d tbl tbl' now' d' :
  getSession sessionId now d tbl = (None, tbl') ->
  getSession sessionId now' d' tbl' = (None, tbl').
Proof.
  unfold getSession.
  destruct (select_session (hashSessionId sessionId) tbl) as [row|] eqn:Hsel.
  - destruct (now >? SessionStore.expires_at row); [|discriminate].
    intros [= <-]. now rewrite select_session_delete.
  - intros [= <-]. now rewrite Hsel.
Qed.

Lemma delete_if_set_same throws jar name :
  cookies_delete_throws throws name = false ->
  cookie_value (delete_if_set throws jar name) name = None.
Proof.
  intros Hok. unfold delete_if_set. destruct (cookie_value jar name) eqn:E; [|exact E].
  rewrite Hok. apply cookie_value_delete.
Qed.

Lemma delete_if_set_other throws (jar : Cookies) name other :
  other <> name \/ cookies_delete_throws throws name = true ->
  delete_if_set throws jar name !! other = jar !! other.
Proof.
  intros Hkeep. unfold delete_if_set. destruct (cookie_value jar name); [|reflexivity].
  destruct (cookies_delete_throws throws name) eqn:Ht; [reflexivity|].
  destruct Hkeep as [Hne|Hthrows]; [|discriminate Hthrows].
  now apply lookup_delete_ne.
Qed.

Lemma cookie_value_ext (a b : Cookies) name :
  a !! name = b !! name -> cookie_value a name = cookie_value b name.
Proof. unfold cookie_value. now intros ->. Qed.

Lemma delete_stale_steps throws cookies :
  delete_stale throws cookies
  = delete_if_set throws
      (delete_if_set throws (delete_if_set throws cookies "refresh_token") "damoang_jwt")
      "access_token".
Proof. reflexivity. Qed.

Lemma delete_stale_gone throws cookies name :
  In name staleNames -> cookies_delete_throws throws name = false ->
  cookie_value (delete_stale throws cookies) name = None.
Proof.
  rewrite delete_stale_steps. intros [<-|[<-|[<-|[]]]] Hok.
  - erewrite cookie_value_ext by (apply delete_if_set_other; left; discriminate).
    erewrite cookie_value_ext by (apply delete_if_set_other; left; discriminate).
    now apply delete_if_set_same.
  - erewrite cookie_value_ext by (apply delete_if_set_other; left; discriminate).
    now apply delete_if_set_same.
  - now apply delete_if_set_same.
Qed.

Lemma delete_stale_other throws cookies name :
  ~ In name staleNames \/ cookies_delete_throws throws name = true ->
  delete_stale throws cookies !! name = cookies !! name.
Proof.
  intros Hkeep. rewrite delete_stale_steps.
  rewrite !delete_if_set_other; [reflexivity| | |];
    (destruct Hkeep as [Hn|Hthrows];
     [left; intros ->; apply Hn; simpl; tauto
     |match goal with
      | |- name <> ?n \/ _ =>
          destruct (String.eqb_spec name n) as [->|Hne]; [right; exact Hthrows|left; exact Hne]
      end]).
Qed.


(** X14. The hook authenticates by the session cookie or not at all.
    Either the session read and the member read have answered, for a
    session that [getSession] accepted and whose member row exists:
    then user, session id and CSRF token are set, and either the
    access token is set as well and the cookies are left alone, or
    signing it threw, it is not set and the stale cookies have been
    deleted.  Or nothing is set and the stale cookies have been
    deleted; if no call threw, [getAuthUser] on the jar that is left
    finds nobody either, at any time.  Deleting the stale cookies
    leaves no [refresh_token], [damoang_jwt] or [access_token] cookie
    whose deletion did not throw, and touches no other cookie.  The
    hook never writes to the refresh tokens or the members. *)
Theorem authenticateSSR_session_or_nobody throws cookies now dbNow db :
  let seen := authenticateSSR throws cookies now dbNow db in
  let cleaned (jar : Cookies) :=
    (forall name, In name staleNames -> cookies_delete_throws throws name = false ->
                  cookie_value jar name = None)
    /\ (forall name, ~ In name staleNames \/ cookies_delete_throws throws name = true ->
                     jar !! name = cookies !! name) in
  refresh_tokens seen.2 = refresh_tokens db
  /\ members seen.2 = members db
  /\ ((exists sessionId data member,
          cookie_value cookies SESSION_COOKIE_NAME = Some sessionId
          /\ getSession_throws throws = false
          /\ getMemberById_throws throws = false
          /\ (getSession sessionId now dbNow (sessions db)).1 = Some data
          /\ members db !! mbId data = Some member
          /\ l_sessionId seen.1.1 = Some sessionId
          /\ l_csrfToken seen.1.1 = Some (csrfToken data)
          /\ l_user seen.1.1
             = Some {| lu_nickname := if String.eqb (Members.mb_nick member) ""
                                      then Members.mb_name member
                                      else Members.mb_nick member;
                       lu_level := default 0 (Members.mb_level member) |}
          /\ (generateAccessToken_throws throws = false ->
              l_accessToken seen.1.1 = Some (member_access_token member now)
              /\ seen.1.2 = cookies)
          /\ (generateAccessToken_throws throws = true ->
              l_accessToken seen.1.1 = None /\ cleaned seen.1.2))
      \/ (seen.1.1 = anonymous
          /\ cleaned seen.1.2
          /\ (forall request, csrf_rejected seen.1.1 request = false)
          /\ (getSession_throws throws = false ->
              getMemberById_throws throws = false ->
              (forall name, In name staleNames ->
                            cookies_delete_throws throws name = false) ->
              forall now' dbNow', (getAuthUser seen.1.2 now' dbNow' seen.2).1 = None))).
Proof.
  intros seen cleaned.
  assert (Hcleaned : cleaned (delete_stale throws cookies)).
  { split.
    - intros name. apply delete_stale_gone.
    - intros name. apply delete_stale_other. }
  assert (Hnobody : forall jar now' dbNow' db0,
             (bySessionCookie jar now' dbNow' db0).1 = None ->
             (forall name, In name staleNames -> cookie_value jar name = None) ->
             (getAuthUser jar now' dbNow' db0).1 = None).
  { intros jar now' dbNow' db0 Hsession Hgone. unfold getAuthUser.
    destruct (bySessionCookie jar now' dbNow' db0) as [member db1]. simpl in Hsession.
    subst member. unfold byAccessToken, byRefreshToken, byLegacyJwt.
    rewrite !Hgone by (simpl; tauto). reflexivity. }
  assert (Hsid : forall jar, cleaned jar ->
             cookie_value jar SESSION_COOKIE_NAME
             = cookie_value cookies SESSION_COOKIE_NAME).
  { intros jar [_ Hkept]. apply cookie_value_ext, Hkept. left.
    simpl. intuition discriminate. }
  subst seen. unfold authenticateSSR. cbv zeta.
  destruct (cookie_value cookies SESSION_COOKIE_NAME) as [sessionId|] eqn:Hjar.
  - destruct (getSession_throws throws) eqn:Hread.
    { simpl. split; [reflexivity|]. split; [reflexivity|]. right.
      split; [reflexivity|]. split; [exact Hcleaned|]. split; [reflexivity|].
      discriminate. }
    destruct (getSession sessionId now dbNow (sessions db)) as [[data|] tbl] eqn:Hget.
    + destruct (getMemberById_throws throws) eqn:Hlookup.
      { simpl. split; [reflexivity|]. split; [reflexivity|]. right.
        split; [reflexivity|]. split; [exact Hcleaned|]. split; [reflexivity|].
        intros _ Hno. discriminate Hno. }
      destruct (getMemberById (members db) (mbId data)) as [member|] eqn:Hmember.
      * destruct (generateAccessToken_throws throws) eqn:Hsign;
          (simpl; split; [reflexivity|]; split; [reflexivity|]; left;
           exists sessionId, data, member; rewrite Hget; cbn [fst];
           split; [reflexivity|]; split; [reflexivity|]; split; [reflexivity|];
           split; [reflexivity|]; split; [exact Hmember|];
           split; [reflexivity|]; split; [reflexivity|]; split; [reflexivity|]).
        -- split; [discriminate|]. intros _. split; [reflexivity|exact Hcleaned].
        -- split; [|discriminate]. intros _. now split.
      * simpl. split; [reflexivity|]. split; [reflexivity|]. right.
        split; [reflexivity|]. split; [exact Hcleaned|]. split; [reflexivity|].
        intros _ _ Hdeleted now' dbNow'.
        apply Hnobody; [|intros name Hin; apply delete_stale_gone; auto].
        unfold bySessionCookie. rewrite (Hsid _ Hcleaned). simpl.
        destruct (getSession sessionId now' dbNow' tbl) as [[data'|] tbl''] eqn:Hget';
          [|reflexivity].
        simpl. rewrite (getSession_member_stable _ _ _ _ _ _ _ _ _ _ Hget Hget').
        exact Hmember.
    + simpl. split; [reflexivity|]. split; [reflexivity|]. right.
      split; [reflexivity|]. split; [exact Hcleaned|]. split; [reflexivity|].
      intros _ _ Hdeleted now' dbNow'.
      apply Hnobody; [|intros name Hin; apply delete_stale_gone; auto].
      unfold bySessionCookie. rewrite (Hsid _ Hcleaned). simpl.
      now rewrite (getSession_refused_stays _ _ _ _ _ now' dbNow' Hget).
  - simpl. split; [reflexivity|]. split; [reflexivity|]. right.
    split; [reflexivity|]. split; [exact Hcleaned|]. split; [reflexivity|].
    intros _ _ Hdeleted now' dbNow'.
    apply Hnobody; [|intros name Hin; apply delete_stale_gone; auto].
    unfold bySessionCookie. now rewrite (Hsid _ Hcleaned).
Qed.


End AuthFlow.

(** * Further properties of the OAuth configuration *)

Section RegistryProperties.
Context `{Runtime}.
Import OAuth Config.

Lemma normalizeProviderName_Some name p :
  normalizeProviderName name = Some p <-> toLowerCase name = provider_name p.
Proof.
  unfold normalizeProviderName. cbv zeta. split.
  - intros Hfind. apply find_some in Hfind as [_ Heq]. now apply String.eqb_eq.
  - intros ->. destruct p; reflexivity.
Qed.

Lemma has_In set x : has set x = true <-> In x set.
Proof.
  unfold has. rewrite existsb_exists. split.
  - intros (y & Hin & Heq). apply String.eqb_eq in Heq. now subst.
  - intros Hin. exists x. split; [exact Hin|apply String.eqb_refl].
Qed.

(** X21. A path or query name stands for a provider exactly when its
    lower-cased form, as [String.prototype.toLowerCase] gives it, is
    that provider's name: [normalizeProviderName] answers [p] if and
    only if the lower-cased name is [p]'s name, and [null] if and only
    if it is no provider's name; two names with the same lower-cased
    form get the same answer; and [isValidProvider] accepts exactly
    the names that [normalizeProviderName] resolves. *)
Theorem normalizeProviderName_by_lower_case name :
  (forall p, normalizeProviderName name = Some p <-> toLowerCase name = provider_name p)
  /\ (normalizeProviderName name = None
      <-> forall p, toLowerCase name <> provider_name p)
  /\ (forall other, toLowerCase other = toLowerCase name ->
                    normalizeProviderName other = normalizeProviderName name)
  /\ (isValidProvider name = true <-> exists p, normalizeProviderName name = Some p).
Proof.
  split; [intros p; apply normalizeProviderName_Some|]. split; [|split].
  - split.
    + intros Hnone p Hp. apply normalizeProviderName_Some in Hp. congruence.
    + intros Hno. destruct (normalizeProviderName name) as [p|] eqn:Hp; [|reflexivity].
      apply normalizeProviderName_Some in Hp. now apply Hno in Hp.
  - intros other Hsame. unfold normalizeProviderName. now rewrite Hsame.
  - unfold isValidProvider, VALID_PROVIDERS. rewrite existsb_exists. split.
    + intros (n & Hin & Heq). apply in_map_iff in Hin as (p & <- & _).
      exists p. apply normalizeProviderName_Some. now apply String.eqb_eq.
    + intros (p & Hp). apply normalizeProviderName_Some in Hp.
      exists (provider_name p). split.
      * apply in_map. destruct p; simpl; tauto.
      * now apply String.eqb_eq.
Qed.

Lemma resolveOrigin_allowed env host :
  resolveOrigin env host = SITE_URL env \/ In (resolveOrigin env host) ALLOWED_ORIGINS.
Proof.
  unfold resolveOrigin. destruct host as [host|]; [|now left].
  destruct (String.eqb host ""); [now left|]. cbv zeta.
  destruct (has ALLOWED_ORIGINS ("https://" ++ host)) eqn:E; [|now left].
  right. now apply has_In.
Qed.

(** X22. The callback URL stays on a known origin.  Whatever origin
    it is given, [getCallbackUrl] answers with the site URL or one of
    the three allowed origins, followed by [/auth/callback/] and the
    lower-cased provider; given an allowed origin it uses that origin.
    [resolveOrigin] itself only ever answers with the site URL or an
    allowed origin, and with [https://<host>] when that is allowed. *)
Theorem getCallbackUrl_stays_on_known_origin env provider origin :
  (exists base,
      (base = SITE_URL env \/ In base ALLOWED_ORIGINS)
      /\ getCallbackUrl env provider origin
         = base ++ "/auth/callback/" ++ toLowerCase provider
      /\ (forall o, origin = Some o -> In o ALLOWED_ORIGINS -> base = o))
  /\ (forall host,
        (resolveOrigin env host = SITE_URL env
         \/ In (resolveOrigin env host) ALLOWED_ORIGINS)
        /\ (forall h, host = Some h -> In ("https://" ++ h) ALLOWED_ORIGINS ->
                      resolveOrigin env host = "https://" ++ h))
  /\ (forall p, normalizeProviderName provider = Some p ->
        exists base, getCallbackUrl env provider origin
                     = base ++ "/auth/callback/" ++ provider_name p).
Proof.
  assert (Hbase : exists base,
             (base = SITE_URL env \/ In base ALLOWED_ORIGINS)
             /\ getCallbackUrl env provider origin
                = base ++ "/auth/callback/" ++ toLowerCase provider
             /\ (forall o, origin = Some o -> In o ALLOWED_ORIGINS -> base = o)).
  { unfold getCallbackUrl. destruct origin as [o|].
    - destruct (String.eqb_spec o "") as [->|Hne]; cbn [negb andb].
      + exists (SITE_URL env). split; [now left|]. split; [reflexivity|].
        intros o [= <-] Hin. simpl in Hin. intuition discriminate.
      + destruct (has ALLOWED_ORIGINS o) eqn:E.
        * exists o. split; [right; now apply has_In|]. split; [reflexivity|].
          now intros o' [= <-] _.
        * exists (SITE_URL env). split; [now left|]. split; [reflexivity|].
          intros o' [= <-] Hin. apply has_In in Hin. congruence.
    - exists (SITE_URL env). split; [now left|]. split; [reflexivity|]. discriminate. }
  split; [exact Hbase|]. split.
  - intros host. split; [apply resolveOrigin_allowed|].
    intros h -> Hin. unfold resolveOrigin.
    destruct (String.eqb_spec h "") as [->|_].
    + simpl in Hin. intuition discriminate.
    + cbv zeta. apply has_In in Hin. now rewrite Hin.
  - intros p Hp. destruct Hbase as (base & _ & Hurl & _). exists base.
    rewrite Hurl. apply normalizeProviderName_Some in Hp. now rewrite Hp.
Qed.

(** X23. The OAuth keys are cached for five minutes.  Once a call
    has answered with keys, every call made less than 300 000 ms after
    the cached load answers with the same keys and leaves the cache
    alone, whatever the environment and the table hold by then (the
    rows are not looked at); a call made later loads again from the
    first row.  A reload that finds no row, or whose query fails,
    throws and leaves the cache as it was, so the next call loads
    again. *)
Theorem getOAuthKeys_cached_for_five_minutes env rows t0 cache keys cache0 :
  getOAuthKeys env rows t0 cache = (Some keys, cache0) ->
  cachedKeys cache0 = Some keys
  /\ (forall env' rows' t,
        t - cacheTimestamp cache0 < 5 * 60 * 1000 ->
        getOAuthKeys env' rows' t cache0 = (Some keys, cache0))
  /\ (forall env' row rest t,
        5 * 60 * 1000 <= t - cacheTimestamp cache0 ->
        getOAuthKeys env' (Some (row :: rest)) t cache0
        = (Some (keys_of env' row),
           {| cachedKeys := Some (keys_of env' row); cacheTimestamp := t |}))
  /\ (forall env' rows' t,
        5 * 60 * 1000 <= t - cacheTimestamp cache0 ->
        rows' = None \/ rows' = Some [] ->
        getOAuthKeys env' rows' t cache0 = (None, cache0)).
Proof.
  intros Hload.
  assert (Hcached : cachedKeys cache0 = Some keys).
  { unfold getOAuthKeys in Hload.
    destruct (cachedKeys cache) as [k|] eqn:Hk.
    - destruct (_ <? _).
      + injection Hload as <- <-. exact Hk.
      + destruct rows as [[|row rest]|]; try discriminate.
        now injection Hload as <- <-.
    - destruct rows as [[|row rest]|]; try discriminate.
      now injection Hload as <- <-. }
  split; [exact Hcached|]. split; [|split].
  - intros env' rows' t Hfresh. unfold getOAuthKeys. rewrite Hcached.
    unfold CACHE_TTL. destruct (Z.ltb_spec (t - cacheTimestamp cache0) (5 * 60 * 1000));
      [reflexivity|lia].
  - intros env' row rest t Hstale. unfold getOAuthKeys. rewrite Hcached.
    unfold CACHE_TTL. destruct (Z.ltb_spec (t - cacheTimestamp cache0) (5 * 60 * 1000));
      [lia|reflexivity].
  - intros env' rows' t Hstale Hrows. unfold getOAuthKeys. rewrite Hcached.
    unfold CACHE_TTL. destruct (Z.ltb_spec (t - cacheTimestamp cache0) (5 * 60 * 1000));
      [lia|]. now destruct Hrows as [->| ->].
Qed.

End RegistryProperties.

(** * Further properties of the route handlers *)

Section CallbackFlow.
Context `{Runtime}.
Import SessionStore OAuth OAuthState Members Routes Calls.

Ltac callback_step :=
  match goal with
  | |- always _ (call _ _ _) =>
      unfold call at 1; cbn [always]; intros [?|[|]]; cbv beta iota
  | |- always _ (finishLogin _ _ _ _ _ _ _) => unfold finishLogin
  | |- always _ (if ?b then _ else _) => destruct b eqn:?
  | |- always _ (match ?x with _ => _ end) => destruct x eqn:?
  | |- always _ (let _ := _ in _) => cbv zeta
  | |- always _ ((fun _ => _) _) => cbv beta
  end.

Lemma pkce_cases s (jar : Cookies) o g :
  match s with
  | twitter => (cookie_value jar "oauth_pkce", delete "oauth_pkce" jar)
  | _ => (None, jar)
  end = (o, g) ->
  (s = twitter /\ o = cookie_value jar "oauth_pkce" /\ g = delete "oauth_pkce" jar)
  \/ (s <> twitter /\ o = None /\ g = jar).
Proof. destruct s; intros [= <- <-]; first [now left | now right]. Qed.

Ltac jar_lookup :=
  repeat first [ rewrite lookup_insert_eq
               | rewrite lookup_delete_eq
               | rewrite lookup_delete_ne by discriminate
               | rewrite lookup_insert_ne by discriminate ];
  reflexivity.

Lemma handleCallback_always providerSlug (cookies : Cookies) code stateParam clientIp origin now :
  always
    (fun tr (a : Response * Cookies) =>
       let names := map call_name tr in
       let tickets := omap session_ticket tr in
       (existsb thrown_with_status tr = false -> exists location, a.1 = Redirect 302 location)
       /\ (names `prefix_of`
             ["getProvider"; "exchangeCode"; "getUserProfile"; "findSocialProfile";
              "getMemberById"; "upsertSocialProfile"; "updateLoginTimestamp";
              "createSession"]
           \/ names `prefix_of`
                ["getProvider"; "exchangeCode"; "getUserProfile"; "findSocialProfile";
                 "findMemberByEmail"; "getMemberById"; "upsertSocialProfile";
                 "updateLoginTimestamp"; "createSession"])
       /\ (tr <> [] -> a.2 !! STATE_COOKIE_NAME = None)
       /\ (existsb thrown tr = true ->
           a.1 = (if existsb thrown_with_status tr then Uncaught
                  else Redirect 302 "/login?error=oauth_error")
           /\ tickets = []
           /\ a.2 !! "pending_social_register" = cookies !! "pending_social_register"
           /\ exists before failed,
                tr = (before ++ [failed])%list
                /\ thrown failed = true /\ existsb thrown before = false
                /\ existsb thrown_with_status tr = thrown_with_status failed)
       /\ (forall mb ticket,
             (mb, ticket) ∈ tickets ->
             tickets = [(mb, ticket)]
             /\ a.2 !! SESSION_COOKIE_NAME = Some (t_sessionId ticket)
             /\ a.2 !! CSRF_COOKIE_NAME = Some (t_csrfToken ticket)
             /\ existsb thrown tr = false
             /\ (exists lookup member,
                    omap member_read tr = [(lookup, Some member)]
                    /\ Members.mb_id member = mb
                    /\ isMemberActive member = true)
             /\ exists stateData,
                  (validateOAuthState cookies stateParam now).1 = Some stateData
                  /\ a.1 = Redirect 302
                             (ToString (or (get_opt stateData "redirect") (JStr "/"))))
       /\ (tickets = [] ->
           a.2 !! SESSION_COOKIE_NAME = cookies !! SESSION_COOKIE_NAME
           /\ a.2 !! CSRF_COOKIE_NAME = cookies !! CSRF_COOKIE_NAME)
       /\ (forall lookup member,
             (lookup, member) ∈ omap member_read tr ->
             match member with Some m => isMemberActive m = false | None => True end ->
             a.1 = Redirect 302 "/login?error=account_inactive"
             /\ tickets = []
             /\ ~ In "upsertSocialProfile" names
             /\ a.2 !! "pending_social_register" = cookies !! "pending_social_register")
       /\ (a.2 !! "pending_social_register" = cookies !! "pending_social_register"
           \/ exists providerName profile stateData,
                normalizeProviderName providerSlug = Some providerName
                /\ (validateOAuthState cookies stateParam now).1 = Some stateData
                /\ omap profile_read tr = [profile]
                /\ a.2 !! "pending_social_register"
                   = Some (JSON_stringify (pending_registration providerName profile))
                /\ a.1 = Redirect 302
                           ("/register?"
                            ++ URLSearchParams_toString
                                 (register_params providerName profile
                                    (get_opt stateData "redirect"))))
       /\ (existsb thrown tr = false ->
           In "findSocialProfile" names ->
           omap member_read tr = [] ->
           a.2 !! "pending_social_register" <> None
           /\ tickets = []
           /\ exists location, a.1 = Redirect 302 ("/register?" ++ location))
       /\ (forall v,
             v ∈ omap exchange_verifier tr ->
             exists providerName,
               normalizeProviderName providerSlug = Some providerName
               /\ (providerName = twitter ->
                   v = cookie_value cookies "oauth_pkce" /\ a.2 !! "oauth_pkce" = None)
               /\ (providerName <> twitter ->
                   v = None /\ a.2 !! "oauth_pkce" = cookies !! "oauth_pkce"))
       /\ (tr <> [] ->
           exists providerName stateData,
             normalizeProviderName providerSlug = Some providerName
             /\ (validateOAuthState cookies stateParam now).1 = Some stateData
             /\ get_opt stateData "provider" = JStr (provider_name providerName)
             /\ omap provider_asked tr = [(providerName, origin)])
       /\ (tr = [] ->
           (a = (Redirect 302 "/login?error=invalid_provider", cookies)
            /\ normalizeProviderName providerSlug = None)
           \/ (a = (Redirect 302 "/login?error=invalid_state", cookies)
               /\ (validateOAuthState cookies stateParam now).1 = None)
           \/ (a = (Redirect 302 "/login?error=provider_mismatch",
                    delete STATE_COOKIE_NAME cookies)
               /\ exists stateData,
                    (validateOAuthState cookies stateParam now).1 = Some stateData)))
    (handleCallback providerSlug cookies code stateParam clientIp origin now).
Proof.
  unfold handleCallback.
  repeat callback_step.
  all: cbn [always map omap list_omap call_name session_ticket member_read profile_read
              exchange_verifier provider_asked thrown thrown_with_status
              is_thrown has_status existsb orb fst snd].
  all: try match goal with
       | Hv : validateOAuthState _ _ _ = (Some _, _) |- _ =>
           let Hd := fresh "Hd" in
           pose proof (validateOAuthState_success _ _ _ _ _ Hv) as [Hd _]; subst
       | Hv : validateOAuthState _ _ _ = (None, _) |- _ =>
           let Hd := fresh "Hd" in
           pose proof (validateOAuthState_failure_keeps cookies stateParam now) as Hd;
           rewrite Hv in Hd; simpl in Hd; specialize (Hd eq_refl); subst
       end.
  all: try match goal with
       | Hp : match ?s with naver => _ | _ => _ end = (_, _) |- _ =>
           apply pkce_cases in Hp as [(-> & -> & ->)|(? & -> & ->)]
       end.
  all: unfold STATE_COOKIE_NAME, SESSION_COOKIE_NAME, CSRF_COOKIE_NAME.
  all: split; [first [intros Hf; discriminate Hf | intros _; eexists; reflexivity]|].
  all: split; [first [left; eexists; reflexivity | right; eexists; reflexivity]|].
  all: split; [first [intros Hne; now contradiction Hne | intros _; jar_lookup]|].
  all: split;
    [first [ intros Hf; discriminate Hf
           | intros _; split; [reflexivity|]; split; [reflexivity|];
             split; [jar_lookup|];
             match goal with
             | |- exists before failed, ?tr = _ /\ _ =>
                 exists (removelast tr),
                        (List.last tr (obs (IsMbIdTaken "") (Thrown false)));
                 cbn; repeat split; reflexivity
             end ]|].
  all: split;
    [first [ intros mb ticket Hin; apply elem_of_nil in Hin; contradiction
           | intros mb ticket Hin; apply list_elem_of_singleton in Hin;
             injection Hin as -> ->;
             split; [reflexivity|]; split; [jar_lookup|]; split; [jar_lookup|];
             split; [reflexivity|];
             split; [eexists _, _; split; [reflexivity|]; split; [reflexivity|];
                     unfold isMemberActive in *;
                     match goal with
                     | Hb : negb ?b = false |- ?b = true => now destruct b
                     end|];
             eexists; split; reflexivity ]|].
  all: split; [first [ intros _; split; jar_lookup | intros Hf; discriminate Hf ]|].
  all: split;
    [intros lookup member Hin Hm;
     first [ apply elem_of_nil in Hin; contradiction
           | apply list_elem_of_singleton in Hin; injection Hin as -> ->;
             first [ match goal with
                     | Hb : negb (isMemberActive _) = false |- _ =>
                         rewrite Hm in Hb; discriminate Hb
                     end
                   | split; [reflexivity|]; split; [reflexivity|];
                     split; [simpl; intuition discriminate|jar_lookup] ] ]|].
  all: split;
    [first [ left; jar_lookup
           | right; eexists _, _, _;
             split; [reflexivity|]; split; [reflexivity|]; split; [reflexivity|];
             split; [jar_lookup|reflexivity] ]|].
  all: split;
    [intros Hnt Hin Hmr;
     first [ discriminate Hnt
           | discriminate Hmr
           | exfalso; simpl in Hin; intuition discriminate
           | split; [rewrite lookup_insert_eq; discriminate|];
             split; [reflexivity|]; eexists; reflexivity ]|].
  all: split;
    [intros v Hin;
     first [ apply elem_of_nil in Hin; contradiction
           | apply list_elem_of_singleton in Hin; subst v;
             eexists; split; [reflexivity|]; split;
             [ intros Heq;
               first [ contradiction
                     | split; [unfold cookie_value;
                               rewrite lookup_delete_ne by discriminate; reflexivity
                              |jar_lookup] ]
             | intros Hneq;
               first [ now contradiction Hneq
                     | split; [reflexivity|jar_lookup] ] ] ]|].
  all: split;
    [intros Hne;
     first [ now contradiction Hne
           | eexists _, _; split; [reflexivity|]; split; [reflexivity|];
             split; [|reflexivity];
             apply strict_eq_str_true;
             match goal with
             | Hb : negb (strict_eq_str _ _) = false |- _ =>
                 apply negb_false_iff in Hb; exact Hb
             end ]|].
  all: intros Ht;
    first [ discriminate Ht
          | left; split; reflexivity
          | right; left; split; reflexivity
          | right; right; split; [reflexivity|eexists; reflexivity] ].
Qed.

Lemma thrown_with_status_thrown o : thrown_with_status o = true -> thrown o = true.
Proof. destruct o as [X e x]. destruct e; destruct x as [?|[|]]; simpl; congruence. Qed.

Lemma existsb_thrown_with_status tr :
  existsb thrown_with_status tr = true -> existsb thrown tr = true.
Proof.
  induction tr as [|o tr IH]; simpl; [discriminate|].
  intros Hs. apply orb_true_iff in Hs as [Ho|Hs]; apply orb_true_iff.
  - left. now apply thrown_with_status_thrown.
  - right. now apply IH.
Qed.

(** X16. The callback signs in active members only.  Every run ends
    in a 302 redirect, unless a collaborator throws a value that
    carries a [status]: that value is thrown again, and no session has
    been created.  A session is created at most once, and only after
    [getMemberById] has answered with a member that is active; it is
    created for that member's id, its id and CSRF token are what the
    [angple_sid] and [angple_csrf] cookies are set to, no call has
    failed, and the visitor is sent to the redirect target recorded in
    the state (or to [/]).  When no session is created the two cookies
    are left as they were.  A member that is missing or inactive gets
    the [account_inactive] redirect before anything is written. *)
Theorem handleCallback_signs_in_active_members_only
    providerSlug (cookies cookies' : Cookies) code stateParam clientIp origin now
    tr response :
  Run (handleCallback providerSlug cookies code stateParam clientIp origin now)
    tr (response, cookies') ->
  (existsb thrown_with_status tr = false -> exists location, response = Redirect 302 location)
  /\ (existsb thrown_with_status tr = true ->
      response = Uncaught /\ omap session_ticket tr = [])
  /\ (forall mb ticket,
        (mb, ticket) ∈ omap session_ticket tr ->
        omap session_ticket tr = [(mb, ticket)]
        /\ cookies' !! SESSION_COOKIE_NAME = Some (t_sessionId ticket)
        /\ cookies' !! CSRF_COOKIE_NAME = Some (t_csrfToken ticket)
        /\ existsb thrown tr = false
        /\ (exists lookup member,
               omap member_read tr = [(lookup, Some member)]
               /\ Members.mb_id member = mb
               /\ isMemberActive member = true)
        /\ exists stateData,
             (validateOAuthState cookies stateParam now).1 = Some stateData
             /\ response = Redirect 302
                             (ToString (or (get_opt stateData "redirect") (JStr "/"))))
  /\ (omap session_ticket tr = [] ->
      cookies' !! SESSION_COOKIE_NAME = cookies !! SESSION_COOKIE_NAME
      /\ cookies' !! CSRF_COOKIE_NAME = cookies !! CSRF_COOKIE_NAME)
  /\ (forall lookup member,
        (lookup, member) ∈ omap member_read tr ->
        match member with Some m => isMemberActive m = false | None => True end ->
        response = Redirect 302 "/login?error=account_inactive"
        /\ omap session_ticket tr = []
        /\ ~ In "upsertSocialProfile" (map call_name tr)
        /\ cookies' !! "pending_social_register" = cookies !! "pending_social_register").
Proof.
  intros HR.
  pose proof (always_Run _ _ _ HR _
                (handleCallback_always providerSlug cookies code stateParam clientIp
                   origin now))
    as (Hredirect & _ & _ & Hfail & Hticket & Hnone & Hinactive & _).
  cbn [fst snd] in *.
  split; [exact Hredirect|]. split.
  - intros Hstatus.
    destruct (Hfail (existsb_thrown_with_status tr Hstatus)) as (Hresponse & Htickets & _).
    rewrite Hstatus in Hresponse. now split.
  - split; [exact Hticket|]. split; [exact Hnone|exact Hinactive].
Qed.

(** X17. A collaborator that throws ends the callback.  The failed
    call is the last one made; no session has been created and no
    registration has been staged.  A thrown value without a [status]
    is answered with the [oauth_error] redirect; one with a [status]
    is thrown again. *)
Theorem handleCallback_collaborator_failure
    providerSlug (cookies cookies' : Cookies) code stateParam clientIp origin now
    tr response :
  Run (handleCallback providerSlug cookies code stateParam clientIp origin now)
    tr (response, cookies') ->
  existsb thrown tr = true ->
  exists before failed,
    tr = (before ++ [failed])%list
    /\ thrown failed = true
    /\ existsb thrown before = false
    /\ response = (if thrown_with_status failed then Uncaught
                   else Redirect 302 "/login?error=oauth_error")
    /\ omap session_ticket tr = []
    /\ cookies' !! SESSION_COOKIE_NAME = cookies !! SESSION_COOKIE_NAME
    /\ cookies' !! CSRF_COOKIE_NAME = cookies !! CSRF_COOKIE_NAME
    /\ cookies' !! "pending_social_register" = cookies !! "pending_social_register".
Proof.
  intros HR Hthrown.
  pose proof (always_Run _ _ _ HR _
                (handleCallback_always providerSlug cookies code stateParam clientIp
                   origin now))
    as (_ & _ & _ & Hfail & _ & Hnone & _).
  cbn [fst snd] in *.
  destruct (Hfail Hthrown)
    as (Hresponse & Htickets & Hpending & before & failed & Htr & Hfailed & Hbefore & Hstatus).
  exists before, failed.
  split; [exact Htr|]. split; [exact Hfailed|]. split; [exact Hbefore|].
  split; [now rewrite <- Hstatus|]. split; [exact Htickets|].
  destruct (Hnone Htickets) as [Hsid Hcsrf].
  split; [exact Hsid|]. split; [exact Hcsrf|exact Hpending].
Qed.

(** X18. The callback calls nobody before its checks have passed, and
    then calls in a fixed order.  Without a call it has ended in
    [invalid_provider] or [invalid_state] (cookies untouched) or in
    [provider_mismatch] (state cookie deleted).  With a call the path
    names a provider, the state has validated for that very provider
    and its cookie is gone, [getProvider] was asked once, for that
    provider and the given origin, and the calls are an initial part of:
    provider, code exchange, profile, social link, (member by email,)
    member by id, profile update, login time, session. *)
Theorem handleCallback_calls_after_checks_in_order
    providerSlug (cookies cookies' : Cookies) code stateParam clientIp origin now
    tr response :
  Run (handleCallback providerSlug cookies code stateParam clientIp origin now)
    tr (response, cookies') ->
  (map call_name tr `prefix_of`
     ["getProvider"; "exchangeCode"; "getUserProfile"; "findSocialProfile";
      "getMemberById"; "upsertSocialProfile"; "updateLoginTimestamp"; "createSession"]
   \/ map call_name tr `prefix_of`
        ["getProvider"; "exchangeCode"; "getUserProfile"; "findSocialProfile";
         "findMemberByEmail"; "getMemberById"; "upsertSocialProfile";
         "updateLoginTimestamp"; "createSession"])
  /\ (tr <> [] ->
      cookies' !! STATE_COOKIE_NAME = None
      /\ exists providerName stateData,
           normalizeProviderName providerSlug = Some providerName
           /\ (validateOAuthState cookies stateParam now).1 = Some stateData
           /\ get_opt stateData "provider" = JStr (provider_name providerName)
           /\ omap provider_asked tr = [(providerName, origin)])
  /\ (tr = [] ->
      (response = Redirect 302 "/login?error=invalid_provider" /\ cookies' = cookies
       /\ normalizeProviderName providerSlug = None)
      \/ (response = Redirect 302 "/login?error=invalid_state" /\ cookies' = cookies
          /\ (validateOAuthState cookies stateParam now).1 = None)
      \/ (response = Redirect 302 "/login?error=provider_mismatch"
          /\ cookies' = delete STATE_COOKIE_NAME cookies
          /\ exists stateData,
               (validateOAuthState cookies stateParam now).1 = Some stateData)).
Proof.
  intros HR.
  pose proof (always_Run _ _ _ HR _
                (handleCallback_always providerSlug cookies code stateParam clientIp
                   origin now))
    as (_ & Horder & Hstate & _ & _ & _ & _ & _ & _ & _ & Hchecked & Hsilent).
  cbn [fst snd] in *.
  split; [exact Horder|]. split.
  - intros Hne. split; [now apply Hstate|now apply Hchecked].
  - intros Hnil. destruct (Hsilent Hnil) as [[[= -> ->] Hn]|[[[= -> ->] Hv]|[[= -> ->] Hv]]].
    + left. split; [reflexivity|]. split; [reflexivity|exact Hn].
    + right. left. split; [reflexivity|]. split; [reflexivity|exact Hv].
    + right. right. split; [reflexivity|]. split; [reflexivity|exact Hv].
Qed.


(** X20. The PKCE code verifier is used once.  A code exchange for
    Twitter is given the value of the [oauth_pkce] cookie, and the
    cookie is gone from then on, whether or not the exchange succeeds;
    for every other provider the exchange gets no verifier and the
    cookie is left alone. *)
Theorem handleCallback_pkce_verifier_single_use
    providerSlug (cookies cookies' : Cookies) code stateParam clientIp origin now
    tr response v :
  Run (handleCallback providerSlug cookies code stateParam clientIp origin now)
    tr (response, cookies') ->
  v ∈ omap exchange_verifier tr ->
  exists providerName,
    normalizeProviderName providerSlug = Some providerName
    /\ (providerName = twitter ->
        v = cookie_value cookies "oauth_pkce" /\ cookies' !! "oauth_pkce" = None)
    /\ (providerName <> twitter ->
        v = None /\ cookies' !! "oauth_pkce" = cookies !! "oauth_pkce").
Proof.
  intros HR Hv.
  pose proof (always_Run _ _ _ HR _
                (handleCallback_always providerSlug cookies code stateParam clientIp
                   origin now))
    as (_ & _ & _ & _ & _ & _ & _ & _ & _ & Hpkce & _).
  cbn [fst snd] in *. now apply Hpkce.
Qed.

(** X24. A callback request is checked before the state is touched,
    and the provider is only ever asked for with a known origin.
    [POST] does what [GET] does once the form has been read; when
    reading the form throws, the exception escapes with nobody called
    and the cookies as they are.  When the request carries an [error]
    parameter, or lacks [code] or [state], nobody is called and the
    cookies stay as they are (the state can still be used); the error
    text ends up in the redirect.  Otherwise [getProvider] is asked
    with the origin [resolveOrigin] worked out from the [Host] header,
    which is the site URL or one of the allowed origins.  Every answer
    is a 302 redirect unless a thrown value with a [status] escapes. *)
Theorem callback_request_checks_parameters_first
    formData providerSlug (cookies cookies' : Cookies) clientIp env host now tr response :
  Run (CallbackRoute.POST formData providerSlug cookies clientIp env host now)
    tr (response, cookies') ->
  (forall hasStatus,
     formData = Thrown hasStatus -> tr = [] /\ cookies' = cookies /\ response = Uncaught)
  /\ (forall params,
        formData = Ok params ->
        Run (CallbackRoute.GET params providerSlug cookies clientIp env host now)
          tr (response, cookies')
        /\ (existsb thrown_with_status tr = false ->
            exists location, response = Redirect 302 location)
        /\ (existsb thrown_with_status tr = true -> response = Uncaught)
        /\ (forall p origin,
              (p, origin) ∈ omap provider_asked tr ->
              origin = Config.resolveOrigin env host
              /\ (origin = Config.SITE_URL env \/ In origin Config.ALLOWED_ORIGINS))
        /\ (forall errorParam,
              CallbackRoute.param params "error" = Some errorParam ->
              tr = [] /\ cookies' = cookies
              /\ response = Redirect 302 ("/login?error=provider_" ++ errorParam))
        /\ (CallbackRoute.param params "error" = None ->
            CallbackRoute.param params "code" = None
            \/ CallbackRoute.param params "state" = None ->
            tr = [] /\ cookies' = cookies
            /\ response = Redirect 302 "/login?error=missing_params")).
Proof.
  unfold CallbackRoute.POST. destruct formData as [form|status].
  2:{ intros HR. apply Run_Ret_inv in HR as [-> [= -> ->]].
      split; [now intros|]. discriminate. }
  intros HR. split; [discriminate|]. intros params [= <-].
  split; [exact HR|]. revert HR.
  unfold CallbackRoute.request.
  destruct (CallbackRoute.param form "error") as [errorParam|].
  { intros HR. apply Run_Ret_inv in HR as [-> [= -> ->]].
    split; [intros _; eexists; reflexivity|]. split; [discriminate|]. split.
    - intros p origin Hin. apply elem_of_nil in Hin. contradiction.
    - split; [|discriminate]. intros e [= <-]. now repeat split. }
  destruct (CallbackRoute.param form "code") as [code|];
    [destruct (CallbackRoute.param form "state") as [stateParam|]|].
  - intros HR.
    pose proof (always_Run _ _ _ HR _
                  (handleCallback_always providerSlug cookies code stateParam clientIp
                     (Config.resolveOrigin env host) now))
      as (Hredirect & _ & _ & Hfail & _ & _ & _ & _ & _ & _ & Hchecked & _).
    cbn [fst snd] in *. split; [exact Hredirect|]. split.
    { intros Hstatus.
      destruct (Hfail (existsb_thrown_with_status tr Hstatus)) as (Hresponse & _).
      now rewrite Hstatus in Hresponse. }
    split.
    + intros p origin Hin. destruct tr as [|o tr].
      * apply elem_of_nil in Hin. contradiction.
      * destruct Hchecked as (p' & stateData & _ & _ & _ & Hasked); [discriminate|].
        rewrite Hasked in Hin. apply list_elem_of_singleton in Hin.
        injection Hin as -> ->. split; [reflexivity|apply resolveOrigin_allowed].
    + split; [discriminate|]. intros _ [Hn|Hn]; discriminate Hn.
  - intros HR. apply Run_Ret_inv in HR as [-> [= -> ->]].
    split; [intros _; eexists; reflexivity|]. split; [discriminate|]. split.
    + intros p origin Hin. apply elem_of_nil in Hin. contradiction.
    + split; [discriminate|]. intros _ _. now repeat split.
  - intros HR. apply Run_Ret_inv in HR as [-> [= -> ->]].
    split; [intros _; eexists; reflexivity|]. split; [discriminate|]. split.
    + intros p origin Hin. apply elem_of_nil in Hin. contradiction.
    + split; [discriminate|]. intros _ _. now repeat split.
Qed.

End CallbackFlow.

Section RegisterFlow.
Context `{Runtime}.
Variable generateSocialMbId : jsval -> jsval -> string.
Import SessionStore OAuth OAuthState Members Routes Calls.

Ltac register_flow_step :=
  match goal with
  | |- always _ (call _ _ _) =>
      unfold call at 1; cbn [always]; intros [?|[|]]; cbv beta iota
  | |- always _ (if ?b then _ else _) => destruct b eqn:?
  | |- always _ (match ?x with _ => _ end) => destruct x eqn:?
  | |- always _ (let _ := _ in _) => cbv zeta
  end.

Ltac register_jar :=
  repeat first [ rewrite lookup_insert_eq
               | rewrite lookup_delete_eq
               | rewrite lookup_delete_ne by discriminate
               | rewrite lookup_insert_ne by discriminate ];
  reflexivity.

Lemma register_action_flow form (cookies : Cookies) clientIp e :
  always
    (fun tr (a : Response * Cookies) =>
       let names := map call_name tr in
       let nickname := form_nickname form in
       names `prefix_of`
         ["checkRateLimit"; "recordAttempt"; "verifyTurnstile"; "validateNickname";
          "isMbIdTaken"; "createMember"; "upsertSocialProfile"; "updateLoginTimestamp";
          "getMemberById"; "createSession"; "generateRefreshToken"]
       /\ (In "createMember" names ->
           (exists rateCheck, omap rate_verdict tr = [Ok rateCheck]
                              /\ allowed rateCheck = true)
           /\ omap captcha_verdict tr = [Ok true]
           /\ form_checked form "agree_terms" = true
           /\ form_checked form "agree_privacy" = true
           /\ (exists verdict, omap nickname_verdict tr = [(nickname, Ok verdict)]
                               /\ valid verdict = true)
           /\ exists pending socialProfile,
                cookie_value cookies "pending_social_register" = Some pending
                /\ JSON_parse pending = Some socialProfile
                /\ forall created,
                     created ∈ omap created_member tr ->
                     nm_mb_email created = get_opt socialProfile "email"
                     /\ nm_mb_ip created = clientIp
                     /\ (nm_mb_id created
                         = generateSocialMbId (get_opt socialProfile "provider")
                             (get_opt socialProfile "identifier")
                         \/ nm_mb_id created
                            = with_suffix
                                (generateSocialMbId (get_opt socialProfile "provider")
                                   (get_opt socialProfile "identifier")) e))
       /\ (forall rateCheck,
             omap rate_verdict tr = [Ok rateCheck] -> allowed rateCheck = false ->
             names = ["checkRateLimit"]
             /\ a = (Fail 429 (TooManyRequests (retryAfter rateCheck)) nickname, cookies))
       /\ (omap captcha_verdict tr = [Ok false] ->
           names = ["checkRateLimit"; "recordAttempt"; "verifyTurnstile"]
           /\ a = (Fail 400 CaptchaFailed nickname, cookies))
       /\ (existsb thrown tr = true ->
           (In "createMember" names ->
            a.1 = if existsb thrown_with_status tr then Uncaught
                  else Fail 500 RegistrationFailed nickname)
           /\ (~ In "createMember" names -> a = (Uncaught, cookies)))
       /\ (forall status location,
             a.1 = Redirect status location ->
             status = 302
             /\ location = form_or form "redirect" "/"
             /\ existsb thrown tr = false
             /\ length tr = 11%nat
             /\ a.2 !! "pending_social_register" = None
             /\ exists created member ticket token family,
                  omap created_member tr = [created]
                  /\ omap member_read tr = [(nm_mb_id created, Some member)]
                  /\ omap session_ticket tr = [(Members.mb_id member, ticket)]
                  /\ omap refresh_issued tr = [(token, family)]
                  /\ a.2 !! "refresh_token" = Some token)
       /\ ((forall status location, a.1 <> Redirect status location) ->
           a.2 !! "pending_social_register" = cookies !! "pending_social_register")
       /\ (forall mb ticket,
             (mb, ticket) ∈ omap session_ticket tr ->
             a.2 !! SESSION_COOKIE_NAME = Some (t_sessionId ticket)
             /\ a.2 !! CSRF_COOKIE_NAME = Some (t_csrfToken ticket))
       /\ (omap session_ticket tr = [] -> a.2 = cookies))
    (register_action generateSocialMbId form cookies clientIp e).
Proof.
  unfold register_action. cbv zeta.
  repeat register_flow_step.
  all: cbn [always map omap list_omap call_name session_ticket member_read
              created_member nickname_verdict rate_verdict captcha_verdict
              refresh_issued thrown is_thrown thrown_with_status has_status
              existsb orb fst snd length].
  all: unfold SESSION_COOKIE_NAME, CSRF_COOKIE_NAME.
  all: repeat match goal with
       | Hb : negb _ = false |- _ => apply negb_false_iff in Hb
       | Hb : negb _ = true |- _ => apply negb_true_iff in Hb
       | Hb : (_ && _)%bool = true |- _ => apply andb_true_iff in Hb as [? ?]
       | p : (string * string)%type |- _ => destruct p
       end.
  all: repeat match goal with
       | Hb : ?b = true |- _ => is_var b; subst b
       | Hb : ?b = false |- _ => is_var b; subst b
       end.
  all: split; [eexists; reflexivity|].
  all: split;
    [intros Hin;
     first [ exfalso; simpl in Hin; intuition discriminate
           | split; [eexists; split; [reflexivity|assumption]|];
             split; [reflexivity|]; split; [assumption|]; split; [assumption|];
             split; [eexists; split; [reflexivity|assumption]|];
             eexists _, _; split; [reflexivity|]; split; [eassumption|];
             intros created Hcreated; apply list_elem_of_singleton in Hcreated;
             subst created; cbn [nm_mb_email nm_mb_ip nm_mb_id];
             match goal with
             | Hg : get _ "provider" = Some _ |- _ => apply get_Some_get_opt in Hg; subst
             end;
             split; [reflexivity|]; split; [reflexivity|];
             match goal with
             | |- context [if ?b then _ else _] => destruct b
             end;
             first [ left; reflexivity | right; reflexivity ] ]|].
  all: split;
    [intros rateCheck Heq Hal;
     first [ discriminate Heq
           | injection Heq as <-; first [ congruence | split; reflexivity ] ]|].
  all: split; [intros Heq; first [ discriminate Heq | split; reflexivity ]|].
  all: split;
    [intros Ht;
     first [ discriminate Ht
           | split;
             [ intros Hin;
               first [ exfalso; simpl in Hin; intuition discriminate | reflexivity ]
             | intros Hn;
               first [ reflexivity | exfalso; apply Hn; simpl; tauto ] ] ]|].
  all: split;
    [intros status location Heq;
     first [ discriminate Heq
           | injection Heq as <- <-;
             split; [reflexivity|]; split; [reflexivity|]; split; [reflexivity|];
             split; [reflexivity|]; split; [register_jar|];
             eexists _, _, _, _, _;
             split; [reflexivity|]; split; [reflexivity|]; split; [reflexivity|];
             split; [reflexivity|register_jar] ]|].
  all: split;
    [intros Hnot; first [ register_jar | exfalso; eapply Hnot; reflexivity ]|].
  all: split;
    [intros mb ticket Hin;
     first [ apply elem_of_nil in Hin; contradiction
           | apply list_elem_of_singleton in Hin; injection Hin as -> ->;
             split; register_jar ]|].
  all: intros Ht; first [ reflexivity | discriminate Ht ].
Qed.
(** X25. Nobody is registered before every gate has been passed.  The
    action calls in a fixed order (rate limiter, attempt record,
    captcha, nickname check, id check, member creation, ...).  It
    reaches [createMember] only when the rate limiter allowed the
    request, the captcha was valid, both agreements were ticked, the
    nickname was accepted and the [pending_social_register] cookie
    held JSON; the member then gets the e-mail address stored in that
    cookie, the client's address, and the generated id with or without
    suffix.  A request the rate limiter refuses is answered 429 without
    any further call, not even the attempt record; a failed captcha is
    answered 400 after three calls. *)
Theorem register_action_gates form (cookies cookies' : Cookies) clientIp e tr response :
  Run (register_action generateSocialMbId form cookies clientIp e) tr (response, cookies') ->
  map call_name tr `prefix_of`
    ["checkRateLimit"; "recordAttempt"; "verifyTurnstile"; "validateNickname";
     "isMbIdTaken"; "createMember"; "upsertSocialProfile"; "updateLoginTimestamp";
     "getMemberById"; "createSession"; "generateRefreshToken"]
  /\ (In "createMember" (map call_name tr) ->
      (exists rateCheck, omap rate_verdict tr = [Ok rateCheck] /\ allowed rateCheck = true)
      /\ omap captcha_verdict tr = [Ok true]
      /\ form_checked form "agree_terms" = true
      /\ form_checked form "agree_privacy" = true
      /\ (exists verdict,
             omap nickname_verdict tr = [(form_nickname form, Ok verdict)]
             /\ valid verdict = true)
      /\ exists pending socialProfile,
           cookie_value cookies "pending_social_register" = Some pending
           /\ JSON_parse pending = Some socialProfile
           /\ forall created,
                created ∈ omap created_member tr ->
                nm_mb_email created = get_opt socialProfile "email"
                /\ nm_mb_ip created = clientIp
                /\ (nm_mb_id created
                    = generateSocialMbId (get_opt socialProfile "provider")
                        (get_opt socialProfile "identifier")
                    \/ nm_mb_id created
                       = with_suffix
                           (generateSocialMbId (get_opt socialProfile "provider")
                              (get_opt socialProfile "identifier")) e))
  /\ (forall rateCheck,
        omap rate_verdict tr = [Ok rateCheck] -> allowed rateCheck = false ->
        map call_name tr = ["checkRateLimit"]
        /\ response = Fail 429 (TooManyRequests (retryAfter rateCheck)) (form_nickname form)
        /\ cookies' = cookies)
  /\ (omap captcha_verdict tr = [Ok false] ->
      map call_name tr = ["checkRateLimit"; "recordAttempt"; "verifyTurnstile"]
      /\ response = Fail 400 CaptchaFailed (form_nickname form)
      /\ cookies' = cookies).
Proof.
  intros HR.
  pose proof (always_Run _ _ _ HR _ (register_action_flow form cookies clientIp e))
    as (Horder & Hgates & Hrate & Hcaptcha & _).
  cbn [fst snd] in *.
  split; [exact Horder|]. split; [exact Hgates|]. split.
  - intros rateCheck Hverdict Hrefused.
    destruct (Hrate rateCheck Hverdict Hrefused) as [Hnames [= -> ->]].
    now repeat split.
  - intros Hverdict. destruct (Hcaptcha Hverdict) as [Hnames [= -> ->]].
    now repeat split.
Qed.

(** X26. How a registration ends.  It ends in a redirect only after
    all eleven calls have answered: the redirect is a 302 to the
    form's [redirect] field (or [/]), the member read back is the one
    created, the session is for that member, the [refresh_token]
    cookie holds the token issued, and the [pending_social_register]
    cookie is gone.  In every other case that cookie is kept, so the
    visitor can try again.  A call that throws before [createMember]
    escapes the action with the cookies untouched; from [createMember]
    on, a thrown value without a [status] is answered 500 and one with
    a [status] is thrown again.  The session cookies are set as soon
    as the session exists, so a failure of the last call leaves them
    set although the registration is not answered with a redirect. *)
Theorem register_action_outcomes form (cookies cookies' : Cookies) clientIp e tr response :
  Run (register_action generateSocialMbId form cookies clientIp e) tr (response, cookies') ->
  (forall status location,
     response = Redirect status location ->
     status = 302
     /\ location = form_or form "redirect" "/"
     /\ existsb thrown tr = false
     /\ length tr = 11%nat
     /\ cookies' !! "pending_social_register" = None
     /\ exists created member ticket token family,
          omap created_member tr = [created]
          /\ omap member_read tr = [(nm_mb_id created, Some member)]
          /\ omap session_ticket tr = [(Members.mb_id member, ticket)]
          /\ omap refresh_issued tr = [(token, family)]
          /\ cookies' !! "refresh_token" = Some token)
  /\ ((forall status location, response <> Redirect status location) ->
      cookies' !! "pending_social_register" = cookies !! "pending_social_register")
  /\ (existsb thrown tr = true ->
      (In "createMember" (map call_name tr) ->
       response = if existsb thrown_with_status tr then Uncaught
                  else Fail 500 RegistrationFailed (form_nickname form))
      /\ (~ In "createMember" (map call_name tr) ->
          response = Uncaught /\ cookies' = cookies))
  /\ (forall mb ticket,
        (mb, ticket) ∈ omap session_ticket tr ->
        cookies' !! SESSION_COOKIE_NAME = Some (t_sessionId ticket)
        /\ cookies' !! CSRF_COOKIE_NAME = Some (t_csrfToken ticket))
  /\ (omap session_ticket tr = [] -> cookies' = cookies).
Proof.
  intros HR.
  pose proof (always_Run _ _ _ HR _ (register_action_flow form cookies clientIp e))
    as (_ & _ & _ & _ & Hthrown & Hsuccess & Hkept & Hticket & Hnone).
  cbn [fst snd] in *.
  split; [exact Hsuccess|]. split; [exact Hkept|]. split; [|split; assumption].
  intros Ht. destruct (Hthrown Ht) as [Hafter Hbefore]. split; [exact Hafter|].
  intros Hn. specialize (Hbefore Hn). injection Hbefore as -> ->. now split.
Qed.

(** X27. What the callback stages is what registration reads.
    Whenever [handleCallback] has changed the
    [pending_social_register] cookie, it holds the profile the
    provider answered with; if that text reads back as the data
    written, the registration page shows the provider's name and the
    profile's e-mail address and display name, and every member the
    registration action then creates gets the profile's e-mail address
    (or [''] ) and the id generated from the provider's name and the
    profile's identifier, with or without suffix. *)
Theorem callback_stages_what_registration_reads
    providerSlug (cookies jar : Cookies) code stateParam clientIp origin now tr response :
  Run (handleCallback providerSlug cookies code stateParam clientIp origin now)
    tr (response, jar) ->
  jar !! "pending_social_register" <> cookies !! "pending_social_register" ->
  exists providerName profile,
    normalizeProviderName providerSlug = Some providerName
    /\ omap profile_read tr = [profile]
    /\ jar !! "pending_social_register"
       = Some (JSON_stringify (pending_registration providerName profile))
    /\ (JSON_stringify (pending_registration providerName profile) <> "" ->
        JSON_parse (JSON_stringify (pending_registration providerName profile))
        = Some (pending_registration providerName profile) ->
        (forall query,
           RegisterPage.load query jar
           = RegisterPage.Page
               {| RegisterPage.pd_provider := JStr (provider_name providerName);
                  RegisterPage.pd_email :=
                    or (or (email profile) (JStr ""))
                       (JStr (RegisterPage.query_or query "email" ""));
                  RegisterPage.pd_displayName :=
                    or (or (displayName profile) (JStr "")) (JStr "");
                  RegisterPage.pd_redirectUrl :=
                    RegisterPage.query_or query "redirect" "/" |})
        /\ forall form clientIp' e tr' response' jar' created,
             Run (register_action generateSocialMbId form jar clientIp' e)
               tr' (response', jar') ->
             created ∈ omap created_member tr' ->
             nm_mb_email created = or (email profile) (JStr "")
             /\ nm_mb_nick created = form_nickname form
             /\ (nm_mb_id created
                 = generateSocialMbId (JStr (provider_name providerName))
                     (identifier profile)
                 \/ nm_mb_id created
                    = with_suffix
                        (generateSocialMbId (JStr (provider_name providerName))
                           (identifier profile)) e)).
Proof.
  intros HR Hchanged.
  pose proof (always_Run _ _ _ HR _
                (handleCallback_always providerSlug cookies code stateParam clientIp
                   origin now))
    as (_ & _ & _ & _ & _ & _ & _ & Hstaged & _).
  cbn [fst snd] in *.
  destruct Hstaged as [Hsame|(providerName & profile & stateData & Hname & _ & Hprofile
                               & Hjar & _)]; [contradiction|].
  exists providerName, profile.
  split; [exact Hname|]. split; [exact Hprofile|]. split; [exact Hjar|].
  intros Hnonempty Hcodec.
  assert (Hcookie : cookie_value jar "pending_social_register"
                    = Some (JSON_stringify (pending_registration providerName profile)))
    by now apply cookie_value_lookup.
  split.
  - intros query. unfold RegisterPage.load. rewrite Hcookie, Hcodec.
    now destruct providerName.
  - intros form clientIp' e tr' response' jar' created HR' Hcreated.
    pose proof (always_Run _ _ _ HR' _ (register_action_flow form jar clientIp' e))
      as (_ & Hgates & _).
    pose proof (always_Run _ _ _ HR' _
                  (register_action_always generateSocialMbId form jar clientIp' e))
      as [Hnick _].
    destruct (Hnick created Hcreated) as (Hn & _).
    destruct Hgates as (_ & _ & _ & _ & _ & pending & socialProfile & Hp & Hparse & Hfacts).
    { apply list_elem_of_omap in Hcreated as (o & Hin & Ho).
      apply in_map_iff. exists o. split; [|now apply list_elem_of_In].
      destruct o as [X ev x]. destruct ev; try discriminate Ho. reflexivity. }
    rewrite Hcookie in Hp. injection Hp as <-. rewrite Hcodec in Hparse.
    injection Hparse as <-.
    destruct (Hfacts created Hcreated) as (Hemail & _ & Hid).
    split; [exact Hemail|]. split; [exact Hn|exact Hid].
Qed.

End RegisterFlow.

(** * Further properties of the OAuth state and the provider adapters *)

Section StateFlow.
Context `{Runtime}.
Import OAuth OAuthState.

Lemma JStr_inj a b : JStr a = JStr b -> a = b.
Proof. now intros [= ->]. Qed.

(** X28. Only the flow started last can complete.  Starting a second
    flow overwrites the state cookie: the state string of the first
    flow no longer validates (and the failed attempt leaves the cookie
    alone), while the second validates for ten minutes, the JSON text
    of its cookie reading back as the data written.  Apart from that,
    a stored state whose [timestamp] is missing or is not a number
    never expires: it validates at any time. *)
Theorem createOAuthState_replaces_earlier_state
    (cookies : Cookies) provider1 redirect1 e1 now1 provider2 redirect2 e2 now2 :
  let first := createOAuthState cookies provider1 redirect1 e1 now1 in
  let second := createOAuthState first.2 provider2 redirect2 e2 now2 in
  let data := state_data second.1 provider2 redirect2 now2 in
  first.1 <> second.1 ->
  JSON_stringify data <> "" ->
  JSON_parse (JSON_stringify data) = Some data ->
  (forall now, validateOAuthState second.2 first.1 now = (None, second.2))
  /\ (forall now, now - now2 <= 600 * 1000 ->
        validateOAuthState second.2 second.1 now
        = (Some data, delete STATE_COOKIE_NAME second.2))
  /\ (forall (jar : Cookies) raw stored presented timestamp now,
        cookie_value jar STATE_COOKIE_NAME = Some raw ->
        JSON_parse raw = Some stored ->
        get stored "state" = Some (JStr presented) ->
        get stored "timestamp" = Some timestamp ->
        ToNumber timestamp = None ->
        validateOAuthState jar presented now
        = (Some stored, delete STATE_COOKIE_NAME jar)).
Proof.
  intros first second data Hdiff Hnonempty Hcodec.
  assert (Hjar : cookie_value second.2 STATE_COOKIE_NAME = Some (JSON_stringify data)).
  { subst second data. unfold createOAuthState. cbn [fst snd].
    now apply cookie_value_insert. }
  split; [|split].
  - intros now. unfold validateOAuthState. rewrite Hjar, Hcodec.
    subst data. rewrite state_data_state. cbv beta iota.
    destruct (strict_eq_str (JStr second.1) first.1) eqn:E; [|reflexivity].
    apply strict_eq_str_true in E. apply JStr_inj in E.
    exfalso. apply Hdiff. symmetry. exact E.
  - intros now Hfresh. unfold validateOAuthState. rewrite Hjar, Hcodec.
    subst data. rewrite state_data_state, state_data_timestamp. cbv beta iota.
    rewrite (proj2 (strict_eq_str_true _ _) eq_refl). cbn [negb].
    unfold state_expired, ToNumber, STATE_MAX_AGE.
    destruct (Z.gtb_spec (now - now2) (600 * 1000)); [lia|reflexivity].
  - intros jar raw stored presented timestamp now Hraw Hparse Hstate Hts Hnan.
    unfold validateOAuthState. rewrite Hraw, Hparse, Hstate, Hts.
    rewrite (proj2 (strict_eq_str_true _ _) eq_refl). cbn [negb].
    unfold state_expired. now rewrite Hnan.
Qed.

End StateFlow.

Section AdapterProperties.
Import OAuth.

Lemma or_text_or_truthy v : or v (JStr "") = JStr "" \/ truthy (or v (JStr "")) = true.
Proof. unfold or. destruct (truthy v) eqn:E; [now right|now left]. Qed.

Lemma or_or_text_or_truthy v w :
  or (or v w) (JStr "") = JStr "" \/ truthy (or (or v w) (JStr "")) = true.
Proof. apply or_text_or_truthy. Qed.

(** X29. What an adapter returns.  A profile that [parseUserProfile]
    returns names the adapter's own provider, and each of its display
    name, e-mail address, photo URL and profile URL is either the
    empty text or a truthy value, never [undefined] or [null]; so the
    [|| ''] the callback applies to them changes nothing.  The
    identifier is not checked: a payload without one is not refused,
    and the identifier is then [undefined] for Naver, Google,
    Facebook, Apple and Twitter, the empty text for Payco and the text
    [undefined] for Kakao. *)
Theorem parseUserProfile_returns_text_or_truthy p data profile :
  parseUserProfile p data = Some profile ->
  provider profile = p
  /\ (forall field,
        In field [displayName; email; photoUrl; profileUrl] ->
        (field profile = JStr "" \/ truthy (field profile) = true)
        /\ or (field profile) (JStr "") = field profile)
  /\ (get_opt (match p with
               | naver => get_opt data "response"
               | twitter => get_opt data "data"
               | payco => get_opt (get_opt data "data") "member"
               | _ => data
               end)
              (match p with
               | google | apple => "sub"
               | payco => "idNo"
               | _ => "id"
               end) = JUndefined ->
      identifier profile
      = match p with
        | kakao => JStr "undefined"
        | payco => JStr ""
        | _ => JUndefined
        end).
Proof.
  intros Hparse.
  assert (Hfields : provider profile = p
                    /\ forall field,
                         In field [displayName; email; photoUrl; profileUrl] ->
                         field profile = JStr "" \/ truthy (field profile) = true).
  { destruct p; simpl in Hparse; unfold Naver_parseUserProfile, Kakao_parseUserProfile,
      Google_parseUserProfile, Facebook_parseUserProfile, Apple_parseUserProfile,
      Twitter_parseUserProfile, Payco_parseUserProfile in Hparse;
      repeat match type of Hparse with
             | (match ?x ≫= _ with _ => _ end) = _ => destruct x; simpl in Hparse
             | (?x ≫= _) = Some _ =>
                 let E := fresh "E" in destruct x eqn:E; simpl in Hparse;
                                       [|discriminate Hparse]
             end;
      injection Hparse as <-; (split; [reflexivity|]);
      intros field [<-|[<-|[<-|[<-|[]]]]]; cbn [displayName email photoUrl profileUrl];
      first [ apply or_text_or_truthy | now left | now right
            | match goal with
              | |- context [if ?b then _ else _] => destruct b; [now right|now left]
              end ]. }
  destruct Hfields as [Hprovider Hfields].
  split; [exact Hprovider|]. split.
  - intros field Hin. split; [now apply Hfields|].
    destruct (Hfields field Hin) as [E|E]; unfold or; [now rewrite E|now rewrite E].
  - destruct p; simpl in Hparse; unfold Naver_parseUserProfile, Kakao_parseUserProfile,
      Google_parseUserProfile, Facebook_parseUserProfile, Apple_parseUserProfile,
      Twitter_parseUserProfile, Payco_parseUserProfile in Hparse;
      destruct data as [| | | | | |fields]; simpl in Hparse; try discriminate Hparse.
    all: try (injection Hparse as <-; simpl; try (intros ->); reflexivity).
    all: try (simpl; intros Hid;
              repeat match type of Hparse with
                     | (?x ≫= _) = Some _ =>
                         let E := fresh "E" in destruct x eqn:E; simpl in Hparse;
                                               [|discriminate Hparse]
                     end;
              injection Hparse as <-; simpl).
    all: match goal with
         | Hg : get _ "id" = Some _ |- _ => apply get_Some_get_opt in Hg; congruence
         end.
Qed.

End AdapterProperties.

(** * Further properties of the PKCE code verifier *)

Section PkceProperties.
Import Pkce.

Ltac div_lia := zify; Z.to_euclidean_division_equations; lia.

Lemma list_ind3 {A} (P : list A -> Prop) :
  P [] -> (forall a, P [a]) -> (forall a b, P [a; b]) ->
  (forall a b c l, P l -> P (a :: b :: c :: l)) ->
  forall l, P l.
Proof.
  intros H0 H1 H2 H3. fix IH 1.
  intros [|a [|b [|c l]]]; [exact H0|apply H1|apply H2|apply H3; apply IH].
Qed.

(** A base64 character survives the three replacements as one
    character that a code verifier may contain. *)
Lemma base64_char_url_safe n rest :
  (n < 64)%N ->
  exists c,
    replaceAll "=" "" (replaceAll "/" "_" (replaceAll "+" "-" (String (base64_char n) rest)))
    = String c (replaceAll "=" "" (replaceAll "/" "_" (replaceAll "+" "-" rest)))
    /\ unreserved c = true.
Proof.
  intros Hn.
  assert (Hin : In n (map N.of_nat (seq 0 64))).
  { apply in_map_iff. exists (N.to_nat n). split; [div_lia|]. apply in_seq. lia. }
  cbv [seq map] in Hin. simpl in Hin.
  repeat (destruct Hin as [<-|Hin]; [eexists; split; reflexivity|]).
  destruct Hin.
Qed.

Lemma padding_is_removed rest :
  replaceAll "=" "" (replaceAll "/" "_" (replaceAll "+" "-" (String "=" rest)))
  = replaceAll "=" "" (replaceAll "/" "_" (replaceAll "+" "-" rest)).
Proof. reflexivity. Qed.

Lemma btoa_url_safe bytes :
  Forall (fun b => (b < 256)%N) bytes ->
  (4 * length bytes
   <= 3 * String.length
            (replaceAll "=" "" (replaceAll "/" "_" (replaceAll "+" "-" (btoa bytes))))
   <= 4 * length bytes + 2)%nat
  /\ forallb unreserved
       (list_ascii_of_string
          (replaceAll "=" "" (replaceAll "/" "_" (replaceAll "+" "-" (btoa bytes)))))
     = true.
Proof.
  induction bytes as [|a|a b|a b c rest IH] using list_ind3; intros Hbytes.
  - split; [simpl; lia|reflexivity].
  - apply Forall_cons_1 in Hbytes as [Ha _]. cbn [btoa].
    destruct (base64_char_url_safe (a / 4) (String (base64_char (a mod 4 * 16)) "==")%N)
      as (c1 & -> & Hc1); [div_lia|].
    destruct (base64_char_url_safe (a mod 4 * 16) "==") as (c2 & -> & Hc2); [div_lia|].
    rewrite !padding_is_removed. cbn. rewrite Hc1, Hc2. split; [lia|reflexivity].
  - apply Forall_cons_1 in Hbytes as [Ha Hbytes].
    apply Forall_cons_1 in Hbytes as [Hb _]. cbn [btoa].
    destruct (base64_char_url_safe (a / 4)
                (String (base64_char (a mod 4 * 16 + b / 16))
                   (String (base64_char (b mod 16 * 4)) "=")))
      as (c1 & -> & Hc1); [div_lia|].
    destruct (base64_char_url_safe (a mod 4 * 16 + b / 16)
                (String (base64_char (b mod 16 * 4)) "="))
      as (c2 & -> & Hc2); [div_lia|].
    destruct (base64_char_url_safe (b mod 16 * 4) "=") as (c3 & -> & Hc3); [div_lia|].
    rewrite !padding_is_removed. cbn. rewrite Hc1, Hc2, Hc3. split; [lia|reflexivity].
  - apply Forall_cons_1 in Hbytes as [Ha Hbytes].
    apply Forall_cons_1 in Hbytes as [Hb Hbytes].
    apply Forall_cons_1 in Hbytes as [Hc Hbytes].
    destruct (IH Hbytes) as [Hlen Hsafe]. cbn [btoa].
    destruct (base64_char_url_safe (a / 4)
                (String (base64_char (a mod 4 * 16 + b / 16))
                   (String (base64_char (b mod 16 * 4 + c / 64))
                      (String (base64_char (c mod 64)) (btoa rest)))))
      as (c1 & -> & Hc1); [div_lia|].
    destruct (base64_char_url_safe (a mod 4 * 16 + b / 16)
                (String (base64_char (b mod 16 * 4 + c / 64))
                   (String (base64_char (c mod 64)) (btoa rest))))
      as (c2 & -> & Hc2); [div_lia|].
    destruct (base64_char_url_safe (b mod 16 * 4 + c / 64)
                (String (base64_char (c mod 64)) (btoa rest)))
      as (c3 & -> & Hc3); [div_lia|].
    destruct (base64_char_url_safe (c mod 64) (btoa rest)) as (c4 & -> & Hc4); [div_lia|].
    cbn [String.length list_ascii_of_string forallb length].
    rewrite Hc1, Hc2, Hc3, Hc4, Hsafe. split; [lia|reflexivity].
Qed.

(** X30. The PKCE code verifier is well formed.  Whatever bytes the
    random source hands out, [generateCodeVerifier] answers with
    exactly 43 characters, each of them a letter, a digit, [-] or [_]:
    the base64 text of the 32 bytes with [+] and [/] replaced and the
    padding removed.  That is within the 43 to 128 unreserved
    characters a verifier must consist of. *)
Theorem generateCodeVerifier_is_well_formed e :
  String.length (generateCodeVerifier e) = 43%nat
  /\ forallb unreserved (list_ascii_of_string (generateCodeVerifier e)) = true
  /\ (forall c, In c (list_ascii_of_string (generateCodeVerifier e)) ->
        c <> "+"%char /\ c <> "/"%char /\ c <> "="%char).
Proof.
  assert (Hbytes : Forall (fun b => (b < 256)%N) (getRandomValues e 32)).
  { unfold getRandomValues. apply List.Forall_forall. intros b Hin.
    apply in_map_iff in Hin as (x & <- & _). apply N.mod_lt. discriminate. }
  destruct (btoa_url_safe _ Hbytes) as [Hlen Hsafe].
  unfold generateCodeVerifier. split.
  { replace (length (getRandomValues e 32)) with 32%nat in Hlen by reflexivity. lia. }
  split; [exact Hsafe|].
  intros c Hin. rewrite forallb_forall in Hsafe. specialize (Hsafe c Hin).
  repeat split; intros ->; discriminate Hsafe.
Qed.

End PkceProperties.

(** ** Worked examples for the stores *)

(** A session read at 1 s is read again with the same identity. *)
Lemma getSession_twice_same_identity_witness :
  let tbl := [Sample.other_session_row; Sample.session_row 0 2592000000] in
  let first := SessionStore.getSession (H:=Sample.runtime) "sid-1" 1000 1000 tbl in
  first.1 <> None
  /\ exists data' tbl'',
       SessionStore.getSession (H:=Sample.runtime) "sid-1" 1000 4000 first.2
       = (Some data', tbl'')
       /\ SessionStore.sessionId data' = "sid-1"
       /\ SessionStore.mbId data' = "u1"
       /\ SessionStore.csrfToken data' = "csrf-1".
Proof.
  intros tbl first. split; [vm_compute; discriminate|].
  exact (getSession_twice_same_identity (H:=Sample.runtime) "sid-1" 1000 1000 4000
           tbl _ first.2 eq_refl).
Defined.

(** A session created at 1 s for member [u1] is accepted 29 days
    later. *)
Lemma createSession_then_getSession_witness :
  let made := SessionStore.createSession (H:=Sample.runtime) "u1" None
                (Sample.constant_entropy 171) (Sample.constant_entropy 205)
                1000 1000 [Sample.other_session_row] in
  exists sessionId csrfToken expiresAt,
    made.1 = Some (sessionId, csrfToken, expiresAt)
    /\ expiresAt = 2592001000
    /\ String.length sessionId = 64%nat
    /\ String.length csrfToken = 64%nat
    /\ exists data tbl'',
         SessionStore.getSession (H:=Sample.runtime) sessionId 2505600000 2505600000 made.2
         = (Some data, tbl'')
         /\ SessionStore.sessionId data = sessionId
         /\ SessionStore.mbId data = "u1"
         /\ SessionStore.csrfToken data = csrfToken.
Proof.
  intros made. eexists _, _, _. split; [reflexivity|].
  apply (createSession_then_getSession (H:=Sample.runtime) "u1" None
           (Sample.constant_entropy 171) (Sample.constant_entropy 205)
           1000 1000 [Sample.other_session_row] _ _ _ made.2 2505600000 2505600000).
  - reflexivity.
  - vm_compute. discriminate.
Defined.

(** Two sessions under different hashes stay two sessions under
    different hashes when a third is created or one is read. *)
Lemma session_hashes_stay_distinct_witness :
  let tbl := [Sample.other_session_row; Sample.session_row 0 2592000000] in
  NoDup (map SessionStore.session_id_hash tbl)
  /\ NoDup (map SessionStore.session_id_hash
              (SessionStore.createSession (H:=Sample.runtime) "u1" None
                 (Sample.constant_entropy 171) (Sample.constant_entropy 205)
                 1000 1000 tbl).2)
  /\ NoDup (map SessionStore.session_id_hash
              (SessionStore.getSession (H:=Sample.runtime) "sid-1" 1000 1000 tbl).2).
Proof.
  intros tbl.
  assert (Hd : NoDup (map SessionStore.session_id_hash tbl)).
  { apply NoDup_cons. split.
    - intros Hin. apply list_elem_of_In in Hin. simpl in Hin.
      destruct Hin as [Heq|[]]. vm_compute in Heq. discriminate Heq.
    - apply NoDup_cons. split; [|constructor].
      intros Hin. apply list_elem_of_In in Hin. destruct Hin. }
  split; [exact Hd|].
  destruct (session_hashes_stay_distinct (H:=Sample.runtime) tbl Hd) as (Hc & Hg & _).
  split; [apply Hc|apply Hg].
Defined.

(** Member [u1] logs in at 1 s from a browser; the token is found at
    5 s under [u1] and the family drawn at the login. *)
Lemma generateRefreshToken_then_findValidToken_witness :
  let login := Jwt.generateRefreshToken (H:=Sample.runtime) "u1"
                 (Some {| Jwt.rm_ip := Some "10.0.0.1";
                          Jwt.rm_userAgent := Some "Mozilla/5.0";
                          Jwt.rm_familyId := None |})
                 (Sample.constant_entropy 171) 1000 1000
                 [Sample.token_row "sha256:other" "family-0" 700000000 None] in
  login.1.1 = "angple-key.u1.1.604801.angple"
  /\ TokenStore.findValidToken (TokenStore.hashToken (H:=Sample.runtime) login.1.1)
       5000 5000 login.2
     = (Some ("u1", login.1.2), login.2)
  /\ (TokenStore.findValidToken "sha256:other" 5000 5000 login.2).1
     = Some ("u1", "family-0").
Proof.
  intros login.
  destruct (generateRefreshToken_then_findValidToken (H:=Sample.runtime) "u1"
              (Some {| Jwt.rm_ip := Some "10.0.0.1";
                       Jwt.rm_userAgent := Some "Mozilla/5.0";
                       Jwt.rm_familyId := None |})
              (Sample.constant_entropy 171) 1000 1000
              [Sample.token_row "sha256:other" "family-0" 700000000 None] 5000 5000)
    as (_ & Hfound & _ & Hother).
  - vm_compute. intros [E|[]]. discriminate E.
  - split; [reflexivity|]. split.
    + apply Hfound. vm_compute. discriminate.
    + fold login in Hother. rewrite Hother; [reflexivity|].
      vm_compute. discriminate.
Defined.

(** Member [u1] logs in at 1 s and rotates at 5 s; the old token is
    presented again at 6 s.  The replacement, accepted until then, is
    refused at 7 s. *)
Lemma reuse_after_rotation_ends_family_witness :
  let login := Jwt.generateRefreshToken (H:=Sample.runtime) "u1" None
                 (Sample.constant_entropy 171) 1000 1000 [] in
  let rotated := Jwt.rotateRefreshToken (H:=Sample.runtime) login.1.1 None
                   (Sample.constant_entropy 1) 5000 5000 login.2 in
  let reuse := TokenStore.findValidToken
                 (TokenStore.hashToken (H:=Sample.runtime) login.1.1) 6000 6000 rotated.2 in
  rotated.1 = Some ("angple-key.u1.5.604805.angple", "u1")
  /\ (TokenStore.findValidToken "sha256:angple-key.u1.5.604805.angple" 5500 5500 rotated.2).1
     = Some ("u1", login.1.2)
  /\ reuse.1 = None
  /\ (TokenStore.findValidToken "sha256:angple-key.u1.5.604805.angple" 7000 7000 reuse.2).1
     = None.
Proof.
  intros login rotated reuse.
  destruct (reuse_after_rotation_ends_family (H:=Sample.runtime) login.2 login.1.1 None
              (Sample.constant_entropy 1) 5000 5000
              "angple-key.u1.5.604805.angple" "u1" rotated.2 6000 6000)
    as (_ & Hreuse & _ & Hdead & _).
  - apply (Jwt.issued_login (H:=Sample.runtime) [] "u1" None
             (Sample.constant_entropy 171) 1000 1000).
    apply Jwt.issued_empty.
  - vm_compute. reflexivity.
  - vm_compute. intros [E|[]]. discriminate E.
  - split; [reflexivity|]. split; [reflexivity|]. split; [exact Hreuse|].
    apply (Hdead 7000 7000).
Defined.

(** A token revoked at 5 ms still resolves to its revoked row after
    the member logs in again and after another family is revoked. *)
Lemma revoked_row_is_never_restored_witness :
  let row := Sample.token_row "sha256:t1" "family-1" 700000000 (Some 5) in
  let tbl := [row; Sample.token_row "sha256:t2" "family-1" 700000000 None] in
  TokenStore.select_token "sha256:t1"
    (Jwt.generateRefreshToken (H:=Sample.runtime) "u1" None
       (Sample.constant_entropy 171) 1000 1000 tbl).2 = Some row
  /\ TokenStore.select_token "sha256:t1"
       (TokenStore.revokeTokenFamily "family-1" 2000 tbl) = Some row.
Proof.
  intros row tbl.
  destruct (revoked_row_is_never_restored (H:=Sample.runtime) tbl "sha256:t1" row)
    as (_ & Hfamily & Hlogin & _).
  - reflexivity.
  - vm_compute. discriminate.
  - split; [apply Hlogin|apply Hfamily].
Defined.

(** A login with a user agent of 600 characters stores its first 512. *)
Lemma issued_user_agents_fit_witness :
  let login := Jwt.generateRefreshToken (H:=Sample.runtime) "u1"
                 (Some {| Jwt.rm_ip := None;
                          Jwt.rm_userAgent :=
                            Some (hex (randomBytes (Sample.constant_entropy 171) 300));
                          Jwt.rm_familyId := None |})
                 (Sample.constant_entropy 205) 1000 1000 [] in
  String.length (hex (randomBytes (Sample.constant_entropy 171) 300)) = 600%nat
  /\ (option_map String.length <$> map TokenStore.user_agent login.2) = [Some 512%nat]
  /\ Forall (fun r => forall ua, TokenStore.user_agent r = Some ua ->
                                 (String.length ua <= 512)%nat) login.2.
Proof.
  intros login. split; [vm_compute; reflexivity|]. split; [vm_compute; reflexivity|].
  apply (issued_user_agents_fit (H:=Sample.runtime)).
  apply (Jwt.issued_login (H:=Sample.runtime) []). apply Jwt.issued_empty.
Defined.

(** Member [u1] logs in at 1 s and rotates at 5 s and at 9 s: the
    three rows carry one family. *)
Lemma rotate_chain_keeps_family_witness :
  let login := Jwt.generateRefreshToken (H:=Sample.runtime) "u1" None
                 (Sample.constant_entropy 171) 1000 1000 [] in
  let requests :=
    [ {| Jwt.rf_metadata := None; Jwt.rf_entropy := Sample.constant_entropy 1;
         Jwt.rf_now := 5000; Jwt.rf_dbNow := 5000 |};
      {| Jwt.rf_metadata := None; Jwt.rf_entropy := Sample.constant_entropy 2;
         Jwt.rf_now := 9000; Jwt.rf_dbNow := 9000 |} ] in
  let chain := Jwt.rotate_chain (H:=Sample.runtime) login.1.1 requests login.2 in
  chain.1 = Some ["angple-key.u1.5.604805.angple"; "angple-key.u1.9.604809.angple"]
  /\ map TokenStore.family_id chain.2 = [login.1.2; login.1.2; login.1.2].
Proof.
  intros login requests chain.
  destruct (rotate_chain_keeps_family (H:=Sample.runtime) requests login.1.1 login.2
              {| TokenStore.token_hash := "sha256:angple-key.u1.1.604801.angple";
                 TokenStore.mb_id := "u1";
                 TokenStore.family_id := login.1.2;
                 TokenStore.ip := None;
                 TokenStore.user_agent := None;
                 TokenStore.created_at := 1000;
                 TokenStore.expires_at := 604801000;
                 TokenStore.revoked_at := None |}
              ["angple-key.u1.5.604805.angple"; "angple-key.u1.9.604809.angple"]
              chain.2)
    as (_ & Hfamilies & _).
  - apply (Jwt.issued_login (H:=Sample.runtime) []). apply Jwt.issued_empty.
  - vm_compute. reflexivity.
  - vm_compute. split; [intros [E|[]]; discriminate E|].
    split; [|exact I]. intros [E|[E|[]]]; discriminate E.
  - vm_compute. reflexivity.
  - split; [reflexivity|]. rewrite Hfamilies. reflexivity.
Defined.

(** ** Worked examples for request authentication and the routes *)


(** The configuration is loaded at 1 s from a row that names the Naver
    client; at 4 minutes the same keys are answered although the table
    is empty by then. *)
Lemma getOAuthKeys_cached_for_five_minutes_witness :
  let row := JObj [("cf_naver_clientid", JStr "client-1")] in
  let loaded := Config.getOAuthKeys ∅ (Some [row]) 1000 Config.empty_cache in
  exists keys,
    loaded.1 = Some keys
    /\ get_opt keys "naver_clientid" = JStr "client-1"
    /\ get_opt keys "naver_secret" = JStr ""
    /\ Config.getOAuthKeys ∅ (Some []) 240000 loaded.2 = (Some keys, loaded.2).
Proof.
  intros row loaded. eexists. split; [reflexivity|].
  split; [reflexivity|]. split; [reflexivity|].
  destruct (getOAuthKeys_cached_for_five_minutes ∅ (Some [row]) 1000 Config.empty_cache
              _ loaded.2 eq_refl) as (_ & Hcached & _).
  apply Hcached. vm_compute. reflexivity.
Defined.

(** A Naver login of the linked, active member [u1], started for
    [/free]: the callback ends in the redirect to [/free] with the
    session cookie set to the session created for [u1]. *)
Lemma handleCallback_signs_in_active_members_only_witness :
  let issued := OAuthState.createOAuthState (H:=Sample.runtime) ∅ OAuth.naver "/free"
                  (Sample.constant_entropy 171) 1000 in
  let program := Routes.handleCallback (H:=Sample.runtime) "naver" issued.2 "code-1"
                   issued.1 "203.0.113.7" "https://damoang.net" 2000 in
  let run := Routes.exec
               (Sample.callback_answers (Some {| Routes.spr_mb_id := "u1" |})
                  (Some Sample.member_u1) None) program in
  Routes.Run program run.1 (run.2.1, run.2.2)
  /\ (Routes.t_sessionId <$> (snd <$> omap Calls.session_ticket run.1)) = ["sid-1"]
  /\ run.2.1 = Routes.Redirect 302 "/free"
  /\ run.2.2 !! SessionStore.SESSION_COOKIE_NAME = Some "sid-1"
  /\ run.2.2 !! SessionStore.CSRF_COOKIE_NAME = Some "csrf-1".
Proof.
  intros issued program run.
  assert (HR : Routes.Run program run.1 (run.2.1, run.2.2)).
  { replace (run.2.1, run.2.2) with run.2 by (now destruct run.2).
    apply exec_Run. }
  split; [exact HR|]. split; [vm_compute; reflexivity|].
  destruct (handleCallback_signs_in_active_members_only (H:=Sample.runtime)
              _ _ _ _ _ _ _ _ _ _ HR) as (_ & _ & Hticket & _).
  destruct (Hticket "u1"
              {| Routes.t_sessionId := "sid-1"; Routes.t_csrfToken := "csrf-1";
                 Routes.t_expiresAt := 2592000000 |})
    as (_ & Hsid & Hcsrf & _ & _ & stateData & Hstate & Hresponse).
  - vm_compute. apply list_elem_of_singleton. reflexivity.
  - split; [|split; [exact Hsid|exact Hcsrf]].
    rewrite Hresponse. vm_compute in Hstate. injection Hstate as <-. reflexivity.
Defined.

(** The same login when the code exchange throws, its last call: an
    error without a [status] ends the callback in the [oauth_error]
    redirect, an error with a [status] escapes it. *)
Lemma handleCallback_collaborator_failure_witness :
  let issued := OAuthState.createOAuthState (H:=Sample.runtime) ∅ OAuth.naver "/free"
                  (Sample.constant_entropy 171) 1000 in
  let program := Routes.handleCallback (H:=Sample.runtime) "naver" issued.2 "code-1"
                   issued.1 "203.0.113.7" "https://damoang.net" 2000 in
  let run hasStatus :=
    Routes.exec
      (Sample.callback_answers (Some {| Routes.spr_mb_id := "u1" |})
         (Some Sample.member_u1) (Some hasStatus)) program in
  Routes.Run program (run false).1 ((run false).2.1, (run false).2.2)
  /\ Routes.Run program (run true).1 ((run true).2.1, (run true).2.2)
  /\ map Calls.call_name (run false).1 = ["getProvider"; "exchangeCode"]
  /\ map Calls.call_name (run true).1 = ["getProvider"; "exchangeCode"]
  /\ (run false).2.1 = Routes.Redirect 302 "/login?error=oauth_error"
  /\ (run true).2.1 = Routes.Uncaught
  /\ (run false).2.2 !! SessionStore.SESSION_COOKIE_NAME = None
  /\ (run true).2.2 !! SessionStore.SESSION_COOKIE_NAME = None.
Proof.
  intros issued program run.
  assert (HR : forall hasStatus,
             Routes.Run program (run hasStatus).1
               ((run hasStatus).2.1, (run hasStatus).2.2)).
  { intros hasStatus.
    replace ((run hasStatus).2.1, (run hasStatus).2.2) with (run hasStatus).2
      by (now destruct (run hasStatus).2).
    apply exec_Run. }
  assert (Hcalls : forall hasStatus,
             (run hasStatus).1
             = [Routes.obs (Routes.GetProvider OAuth.naver "https://damoang.net")
                  (Routes.Ok tt);
                Routes.obs (Routes.ExchangeCode OAuth.naver "code-1" None)
                  (Routes.Thrown hasStatus)])
    by (intros [|]; vm_compute; reflexivity).
  split; [apply HR|]. split; [apply HR|].
  split; [vm_compute; reflexivity|]. split; [vm_compute; reflexivity|].
  destruct (handleCallback_collaborator_failure (H:=Sample.runtime)
              _ _ _ _ _ _ _ _ _ _ (HR false))
    as (before & failed & Htr & _ & _ & Hresponse & _ & Hsid & _);
    [vm_compute; reflexivity|].
  destruct (handleCallback_collaborator_failure (H:=Sample.runtime)
              _ _ _ _ _ _ _ _ _ _ (HR true))
    as (before' & failed' & Htr' & _ & _ & Hresponse' & _ & Hsid' & _);
    [vm_compute; reflexivity|].
  rewrite Hcalls in Htr, Htr'.
  assert (Hfailed : failed = Routes.obs (Routes.ExchangeCode OAuth.naver "code-1" None)
                               (Routes.Thrown false)).
  { change [?a; ?b] with ([a] ++ [b])%list in Htr.
    now apply app_inj_tail in Htr as [_ <-]. }
  assert (Hfailed' : failed' = Routes.obs (Routes.ExchangeCode OAuth.naver "code-1" None)
                                 (Routes.Thrown true)).
  { change [?a; ?b] with ([a] ++ [b])%list in Htr'.
    now apply app_inj_tail in Htr' as [_ <-]. }
  subst failed failed'.
  split; [exact Hresponse|]. split; [exact Hresponse'|].
  split; [rewrite Hsid|rewrite Hsid']; vm_compute; reflexivity.
Defined.

(** In that login the provider was asked for once, for Naver and the
    given origin, after the state had validated; the state cookie is
    gone. *)
Lemma handleCallback_calls_after_checks_in_order_witness :
  let issued := OAuthState.createOAuthState (H:=Sample.runtime) ∅ OAuth.naver "/free"
                  (Sample.constant_entropy 171) 1000 in
  let program := Routes.handleCallback (H:=Sample.runtime) "naver" issued.2 "code-1"
                   issued.1 "203.0.113.7" "https://damoang.net" 2000 in
  let run := Routes.exec
               (Sample.callback_answers (Some {| Routes.spr_mb_id := "u1" |})
                  (Some Sample.member_u1) None) program in
  Routes.Run program run.1 (run.2.1, run.2.2)
  /\ map Calls.call_name run.1
     = ["getProvider"; "exchangeCode"; "getUserProfile"; "findSocialProfile";
        "getMemberById"; "upsertSocialProfile"; "updateLoginTimestamp"; "createSession"]
  /\ run.2.2 !! OAuthState.STATE_COOKIE_NAME = None
  /\ omap Calls.provider_asked run.1 = [(OAuth.naver, "https://damoang.net")].
Proof.
  intros issued program run.
  assert (HR : Routes.Run program run.1 (run.2.1, run.2.2)).
  { replace (run.2.1, run.2.2) with run.2 by (now destruct run.2).
    apply exec_Run. }
  split; [exact HR|]. split; [vm_compute; reflexivity|].
  destruct (handleCallback_calls_after_checks_in_order (H:=Sample.runtime)
              _ _ _ _ _ _ _ _ _ _ HR) as (_ & Hcalled & _).
  destruct Hcalled as (Hstate & p & stateData & Hp & _ & _ & Hasked).
  - vm_compute. discriminate.
  - split; [exact Hstate|]. rewrite Hasked. injection Hp as <-. reflexivity.
Defined.


(** A Twitter login whose jar holds the verifier [verifier-1]: the
    exchange is given that verifier and the cookie is gone. *)
Lemma handleCallback_pkce_verifier_single_use_witness :
  let issued := OAuthState.createOAuthState (H:=Sample.runtime)
                  {[ "oauth_pkce" := "verifier-1" ]} OAuth.twitter "/"
                  (Sample.constant_entropy 171) 1000 in
  let program := Routes.handleCallback (H:=Sample.runtime) "twitter" issued.2 "code-1"
                   issued.1 "203.0.113.7" "https://damoang.net" 2000 in
  let run := Routes.exec (Sample.answers true false) program in
  Routes.Run program run.1 (run.2.1, run.2.2)
  /\ omap Calls.exchange_verifier run.1 = [Some "verifier-1"]
  /\ run.2.2 !! "oauth_pkce" = None.
Proof.
  intros issued program run.
  assert (HR : Routes.Run program run.1 (run.2.1, run.2.2)).
  { replace (run.2.1, run.2.2) with run.2 by (now destruct run.2).
    apply exec_Run. }
  split; [exact HR|]. split; [vm_compute; reflexivity|].
  destruct (handleCallback_pkce_verifier_single_use (H:=Sample.runtime)
              _ _ _ _ _ _ _ _ _ _ (Some "verifier-1") HR)
    as (p & Hp & Htwitter & _).
  - vm_compute. apply list_elem_of_singleton. reflexivity.
  - injection Hp as <-. now apply Htwitter.
Defined.

(** A callback request posted to the host [web.damoang.net]: the
    provider is asked for with the origin [https://web.damoang.net]. *)
Lemma callback_request_checks_parameters_first_witness :
  let issued := OAuthState.createOAuthState (H:=Sample.runtime) ∅ OAuth.naver "/free"
                  (Sample.constant_entropy 171) 1000 in
  let params : gmap string string := {[ "code" := "code-1"; "state" := issued.1 ]} in
  let program := CallbackRoute.POST (H:=Sample.runtime) (Routes.Ok params) "naver"
                   issued.2 "203.0.113.7" None (Some "web.damoang.net") 2000 in
  let run := Routes.exec (Sample.answers true false) program in
  Routes.Run program run.1 (run.2.1, run.2.2)
  /\ omap Calls.provider_asked run.1 = [(OAuth.naver, "https://web.damoang.net")]
  /\ In "https://web.damoang.net" Config.ALLOWED_ORIGINS
  /\ exists location, run.2.1 = Routes.Redirect 302 location.
Proof.
  intros issued params program run.
  assert (HR : Routes.Run program run.1 (run.2.1, run.2.2)).
  { replace (run.2.1, run.2.2) with run.2 by (now destruct run.2).
    apply exec_Run. }
  split; [exact HR|].
  assert (Hasked : omap Calls.provider_asked run.1
                   = [(OAuth.naver, "https://web.damoang.net")])
    by (vm_compute; reflexivity).
  split; [exact Hasked|].
  destruct (callback_request_checks_parameters_first (H:=Sample.runtime)
              _ _ _ _ _ _ _ _ _ _ HR) as (_ & Hform).
  destruct (Hform params eq_refl) as (_ & Hredirect & _ & Horigin & _).
  split.
  - destruct (Horigin OAuth.naver "https://web.damoang.net") as [_ [Hsite|Hallowed]].
    + rewrite Hasked. apply list_elem_of_singleton. reflexivity.
    + vm_compute in Hsite. discriminate Hsite.
    + exact Hallowed.
  - apply Hredirect. vm_compute. reflexivity.
Defined.

(** The registration of the visitor [bob]: all eleven calls are made,
    the captcha was valid, the terms were ticked, and the member is
    created with the client's address. *)
Lemma register_action_gates_witness :
  let program :=
    Routes.register_action (H:=Sample.runtime) Sample.social_mb_id
      Sample.register_form Sample.register_cookies "203.0.113.7"
      (Sample.constant_entropy 171) in
  let run := Routes.exec (Sample.answers true false) program in
  Routes.Run program run.1 (run.2.1, run.2.2)
  /\ length run.1 = 11%nat
  /\ omap Calls.captcha_verdict run.1 = [Routes.Ok true]
  /\ Routes.form_checked Sample.register_form "agree_terms" = true
  /\ (Routes.nm_mb_ip <$> omap Routes.created_member run.1) = ["203.0.113.7"].
Proof.
  intros program run.
  assert (HR : Routes.Run program run.1 (run.2.1, run.2.2)).
  { replace (run.2.1, run.2.2) with run.2 by (now destruct run.2).
    apply exec_Run. }
  split; [exact HR|]. split; [vm_compute; reflexivity|].
  destruct (register_action_gates (H:=Sample.runtime) Sample.social_mb_id
              _ _ _ _ _ _ _ HR) as (_ & Hgates & _).
  destruct Hgates as (_ & Hcaptcha & Hterms & _).
  - vm_compute. tauto.
  - split; [exact Hcaptcha|]. split; [exact Hterms|]. vm_compute. reflexivity.
Defined.

(** That registration ends in the redirect to [/], with the refresh
    token in its cookie and the staging cookie gone. *)
Lemma register_action_outcomes_witness :
  let program :=
    Routes.register_action (H:=Sample.runtime) Sample.social_mb_id
      Sample.register_form Sample.register_cookies "203.0.113.7"
      (Sample.constant_entropy 171) in
  let run := Routes.exec (Sample.answers true false) program in
  Routes.Run program run.1 (run.2.1, run.2.2)
  /\ run.2.1 = Routes.Redirect 302 "/"
  /\ run.2.2 !! "pending_social_register" = None
  /\ run.2.2 !! "refresh_token" = Some "token-1".
Proof.
  intros program run.
  assert (HR : Routes.Run program run.1 (run.2.1, run.2.2)).
  { replace (run.2.1, run.2.2) with run.2 by (now destruct run.2).
    apply exec_Run. }
  split; [exact HR|].
  assert (Hresponse : run.2.1 = Routes.Redirect 302 "/") by (vm_compute; reflexivity).
  split; [exact Hresponse|].
  destruct (register_action_outcomes (H:=Sample.runtime) Sample.social_mb_id
              _ _ _ _ _ _ _ HR) as (Hsuccess & _).
  destruct (Hsuccess 302 "/" Hresponse)
    as (_ & _ & _ & _ & Hpending & created & member & ticket & token & family
        & _ & _ & _ & Hissued & Hcookie).
  split; [exact Hpending|]. rewrite Hcookie.
  vm_compute in Hissued. now injection Hissued as <- _.
Defined.

(** The unknown Naver visitor [42] goes on to register as [bob]: the
    page shows the provider, and the member is created as [naver_42]. *)
Lemma callback_stages_what_registration_reads_witness :
  let issued := OAuthState.createOAuthState (H:=Sample.runtime) ∅ OAuth.naver "/free"
                  (Sample.constant_entropy 171) 1000 in
  let callback := Routes.handleCallback (H:=Sample.runtime) "naver" issued.2 "code-1"
                    issued.1 "203.0.113.7" "https://damoang.net" 2000 in
  let staged := Routes.exec (Sample.answers true false) callback in
  let registration :=
    Routes.register_action (H:=Sample.runtime) Sample.social_mb_id
      Sample.register_form staged.2.2 "203.0.113.7" (Sample.constant_entropy 171) in
  let run := Routes.exec (Sample.answers true false) registration in
  Routes.Run callback staged.1 (staged.2.1, staged.2.2)
  /\ Routes.Run registration run.1 (run.2.1, run.2.2)
  /\ (exists data, RegisterPage.load (H:=Sample.runtime) ∅ staged.2.2
                   = RegisterPage.Page data
                   /\ RegisterPage.pd_provider data = JStr "naver")
  /\ forall created, created ∈ omap Routes.created_member run.1 ->
       Routes.nm_mb_id created = "naver_42" /\ Routes.nm_mb_nick created = "bob".
Proof.
  intros issued callback staged registration run.
  assert (HR : Routes.Run callback staged.1 (staged.2.1, staged.2.2)).
  { replace (staged.2.1, staged.2.2) with staged.2 by (now destruct staged.2).
    apply exec_Run. }
  assert (HR' : Routes.Run registration run.1 (run.2.1, run.2.2)).
  { replace (run.2.1, run.2.2) with run.2 by (now destruct run.2).
    apply exec_Run. }
  split; [exact HR|]. split; [exact HR'|].
  destruct (callback_stages_what_registration_reads (H:=Sample.runtime)
              Sample.social_mb_id _ _ _ _ _ _ _ _ _ _ HR)
    as (p & profile & Hp & Hprofile & _ & Hreads).
  - vm_compute. discriminate.
  - injection Hp as <-. vm_compute in Hprofile. injection Hprofile as <-.
    destruct Hreads as [Hpage Hcreated].
    + vm_compute. discriminate.
    + vm_compute. reflexivity.
    + split.
      * eexists. split; [apply Hpage|reflexivity].
      * intros created Hin.
        destruct (Hcreated _ _ _ _ _ _ created HR' Hin) as (_ & Hnick & Hid).
        split; [|exact Hnick].
        destruct Hid as [Hid|Hid]; [exact Hid|].
        exfalso. revert Hin. vm_compute. intros Hin.
        apply list_elem_of_singleton in Hin. subst created. discriminate Hid.
Defined.

(** A visitor starts a Naver login at 1 s and a Google login at 2 s:
    at 3 s the Naver state no longer validates, the Google state
    does. *)
Lemma createOAuthState_replaces_earlier_state_witness :
  let first := OAuthState.createOAuthState (H:=Sample.runtime) ∅ OAuth.naver "/a"
                 (Sample.constant_entropy 171) 1000 in
  let second := OAuthState.createOAuthState (H:=Sample.runtime) first.2 OAuth.google "/b"
                  (Sample.constant_entropy 205) 2000 in
  first.1 <> second.1
  /\ OAuthState.validateOAuthState (H:=Sample.runtime) second.2 first.1 3000
     = (None, second.2)
  /\ (OAuthState.validateOAuthState (H:=Sample.runtime) second.2 second.1 3000).1
     = Some (OAuthState.state_data second.1 OAuth.google "/b" 2000).
Proof.
  intros first second.
  assert (Hdiff : first.1 <> second.1) by (vm_compute; discriminate).
  split; [exact Hdiff|].
  destruct (createOAuthState_replaces_earlier_state (H:=Sample.runtime) ∅
              OAuth.naver "/a" (Sample.constant_entropy 171) 1000
              OAuth.google "/b" (Sample.constant_entropy 205) 2000 Hdiff)
    as (Hfirst & Hsecond & _).
  - vm_compute. discriminate.
  - vm_compute. reflexivity.
  - split; [apply Hfirst|]. fold first second in Hsecond.
    rewrite Hsecond; [reflexivity|]. vm_compute. discriminate.
Defined.

(** A Kakao payload without an [id]: the adapter answers with the
    identifier [undefined] and empty texts. *)
Lemma parseUserProfile_returns_text_or_truthy_witness :
  exists profile,
    OAuth.parseUserProfile OAuth.kakao (JObj []) = Some profile
    /\ OAuth.identifier profile = JStr "undefined"
    /\ or (OAuth.email profile) (JStr "") = OAuth.email profile.
Proof.
  eexists. split; [reflexivity|].
  destruct (parseUserProfile_returns_text_or_truthy OAuth.kakao (JObj []) _ eq_refl)
    as (_ & Hfields & Hid).
  split; [now apply Hid|].
  apply (Hfields OAuth.email). simpl. tauto.
Defined.
